(** * The model-client forwarding engine of albert-api

    A shallow embedding of [app/clients/model/_basemodelclient.py]
    (class [BaseModelClient]): request formatting, usage accounting,
    unary and streamed response formatting, and the two forwarding entry
    points [forward_request] and [forward_stream].

    Beside it, what surrounds the client in the source: the metrics store
    it writes to ([setup_metrics_storage], [_log_performance_metric]); the
    document manager of [app/helpers/_documentmanager.py] where it checks
    its dependencies, embeds, upserts and searches ([check_dependencies],
    [_create_embeddings], [_upsert], [search_chunks]); and the model
    registry of [app/helpers/models/_modelregistry.py].  The systems these
    talk to (Redis, the database, the vector store, the agents) are a
    record of the calls made, each call answered by an oracle that sees
    the calls before it.

    Conventions.
    - [bytes] objects are Rocq byte strings; [str] objects are lists of
      Unicode code points.  The two types are kept apart because the
      source compares one against the other.
    - Python [float]s are an abstract carrier with the operations the
      source applies to them (class [PyFloat]).
    - Library functions ([json.loads], [json.dumps], [ast.literal_eval],
      UTF-8 coding, [urllib.parse.urljoin] on two non-empty arguments)
      and the collaborators that live outside this file's source
      (tokenizer, carbon estimator, request context, clocks) are fields of
      an environment record [Env].  [json.loads] returns or raises
      JSONDecodeError, and [urljoin] returns: the ValueError of an integer
      literal beyond the interpreter's digit limit, RecursionError and the
      ValueError of a malformed URL have no counterpart.
    - Exceptions are values of type [exn], told apart by class name;
      effectful code runs in the state-and-exception monad [M] over the
      [World].
    - Logging calls have no counterpart. *)

From Stdlib Require Import String Ascii List ZArith NArith QArith Qround Qabs Bool Lia.
Import ListNotations.

Set Warnings "-register-all".

(** ** Python strings *)

Definition bytes := string.
Definition codepoint := N.
Definition str := list codepoint.

(** [U "..."] is the [str] literal with the given ASCII characters. *)
Definition U (s : string) : str := map N_of_ascii (list_ascii_of_string s).

Fixpoint str_eqb (a b : str) : bool :=
  match a, b with
  | [], [] => true
  | x :: a', y :: b' => N.eqb x y && str_eqb a' b'
  | _, _ => false
  end.

(** [str.startswith] and [str.removeprefix]. *)
Fixpoint startswith (s p : str) : bool :=
  match p, s with
  | [], _ => true
  | y :: p', x :: s' => N.eqb x y && startswith s' p'
  | _ :: _, [] => false
  end.

Definition removeprefix (s p : str) : str :=
  if startswith s p then skipn (length p) s else s.

(** [str.isspace] on one character: the code points CPython's
    [Py_UNICODE_ISSPACE] accepts. *)
Definition isspace (c : codepoint) : bool :=
  ((9 <=? c) && (c <=? 13) || (28 <=? c) && (c <=? 32)
   || (c =? 133) || (c =? 160) || (c =? 5760)
   || (8192 <=? c) && (c <=? 8202)
   || (c =? 8232) || (c =? 8233) || (c =? 8239) || (c =? 8287)
   || (c =? 12288))%N.

Fixpoint lstrip (s : str) : str :=
  match s with
  | c :: s' => if isspace c then lstrip s' else s
  | [] => []
  end.

(** [str.strip()] with no argument. *)
Definition strip (s : str) : str := rev (lstrip (rev (lstrip s))).

(** [s.split(sep="\n\n")]: the separator is two line feeds; scanning is
    left to right and non-overlapping, and the result is never empty. *)
Fixpoint split_nn_aux (cur : str) (s : str) : list str :=
  match s with
  | 10%N :: 10%N :: s' => rev cur :: split_nn_aux [] s'
  | c :: s' => split_nn_aux (c :: cur) s'
  | [] => [rev cur]
  end.

Definition split_nn (s : str) : list str := split_nn_aux [] s.

(** ** Searching a byte string for a literal pattern *)

Fixpoint bytes_startswith (s p : bytes) : bool :=
  match p, s with
  | EmptyString, _ => true
  | String y p', String x s' => Ascii.eqb x y && bytes_startswith s' p'
  | String _ _, EmptyString => false
  end.

(** [re.search(pattern, chunk)] for a pattern that matches exactly one
    literal byte string: [Some i] is [match.start()] of the leftmost
    occurrence, [None] is no match. *)
Fixpoint search_literal (p : bytes) (s : bytes) : option nat :=
  if bytes_startswith s p then Some O
  else match s with
       | EmptyString => None
       | String _ s' => option_map S (search_literal p s')
       end.

(** [b[:i]] and [b[i:]]. *)
Fixpoint bytes_take (n : nat) (s : bytes) : bytes :=
  match n, s with
  | S n', String c s' => String c (bytes_take n' s')
  | _, _ => EmptyString
  end.

Fixpoint bytes_drop (n : nat) (s : bytes) : bytes :=
  match n, s with
  | S n', String _ s' => bytes_drop n' s'
  | _, _ => s
  end.

(** The pattern [rb"data: \[DONE\]"] matches the literal bytes below. *)
Definition DONE_MARKER : bytes := "data: [DONE]"%string.

(** ** Python floats *)

Class PyFloat (F : Type) := {
  f_zero : F;                      (* 0.0 *)
  f_add : F -> F -> F;             (* x + y *)
  f_sub : F -> F -> F;             (* x - y *)
  f_mul : F -> F -> F;             (* x * y *)
  f_mul_int : F -> Z -> F;         (* x * n, n an int *)
  int_truediv : Z -> Z -> F;       (* m / n, both ints *)
  py_round : F -> Z -> F;          (* round(x, ndigits=n) *)
  f_int : F -> Z;                  (* int(x) *)
  f_le : F -> F -> Prop            (* x <= y *)
}.

(** ** JSON values (what [json.loads] returns and [json.dumps] accepts) *)

Section Json.
Variable F : Type.

Inductive json : Type :=
| JNull
| JBool (b : bool)
| JInt (z : Z)
| JFloat (f : F)
| JStr (s : str)
| JList (l : list json)
| JDict (d : list (str * json)).

(** A Python [dict] with [str] keys: keys are unique and keep their
    insertion order. *)
Definition pydict := list (str * json).

(** [d.get(k)] *)
Fixpoint dict_get (k : str) (d : pydict) : option json :=
  match d with
  | [] => None
  | (k', v) :: r => if str_eqb k k' then Some v else dict_get k r
  end.

(** [k in d] *)
Definition dict_mem (k : str) (d : pydict) : bool :=
  match dict_get k d with Some _ => true | None => false end.

(** [d[k] = v]: an existing key keeps its position. *)
Fixpoint dict_set (k : str) (v : json) (d : pydict) : pydict :=
  match d with
  | [] => [(k, v)]
  | (k', v') :: r =>
      if str_eqb k k' then (k', v) :: r else (k', v') :: dict_set k v r
  end.

(** [d.update(e)] *)
Definition dict_update (d e : pydict) : pydict :=
  fold_left (fun acc kv => dict_set (fst kv) (snd kv) acc) e d.

End Json.

Arguments JNull {F}.
Arguments JBool {F} b.
Arguments JInt {F} z.
Arguments JStr {F} s.
Arguments JFloat {F} f.
Arguments JList {F} l.
Arguments JDict {F} d.
Arguments dict_get {F} k d.
Arguments dict_mem {F} k d.
Arguments dict_set {F} k v d.
Arguments dict_update {F} d e.

(** ** Endpoints, exceptions and HTTP objects *)

(** The endpoint constants imported from [app.utils.variables]. *)
Inductive Endpoint : Type :=
| ENDPOINT__AUDIO_TRANSCRIPTIONS
| ENDPOINT__CHAT_COMPLETIONS
| ENDPOINT__COMPLETIONS
| ENDPOINT__EMBEDDINGS
| ENDPOINT__MODELS
| ENDPOINT__OCR
| ENDPOINT__RERANK.

Definition Endpoint_eqb (a b : Endpoint) : bool :=
  match a, b with
  | ENDPOINT__AUDIO_TRANSCRIPTIONS, ENDPOINT__AUDIO_TRANSCRIPTIONS
  | ENDPOINT__CHAT_COMPLETIONS, ENDPOINT__CHAT_COMPLETIONS
  | ENDPOINT__COMPLETIONS, ENDPOINT__COMPLETIONS
  | ENDPOINT__EMBEDDINGS, ENDPOINT__EMBEDDINGS
  | ENDPOINT__MODELS, ENDPOINT__MODELS
  | ENDPOINT__OCR, ENDPOINT__OCR
  | ENDPOINT__RERANK, ENDPOINT__RERANK => true
  | _, _ => false
  end.

(** [table[endpoint]] on a dict keyed by endpoints; [None] is [KeyError]. *)
Fixpoint table_get {X : Type} (e : Endpoint) (t : list (Endpoint * X)) : option X :=
  match t with
  | [] => None
  | (e', x) :: r => if Endpoint_eqb e e' then Some x else table_get e r
  end.

(** The timeout exceptions of httpx: [TimeoutException] and its four
    subclasses. *)
Inductive TimeoutKind : Type :=
| TimeoutException | ReadTimeout | ConnectTimeout | WriteTimeout | PoolTimeout.

Definition TimeoutKind_name (k : TimeoutKind) : str :=
  match k with
  | TimeoutException => U "TimeoutException"
  | ReadTimeout => U "ReadTimeout"
  | ConnectTimeout => U "ConnectTimeout"
  | WriteTimeout => U "WriteTimeout"
  | PoolTimeout => U "PoolTimeout"
  end.

(** The two objects the source compares with [!=] at the end of a stream:
    a [bytes] and a [str] are never equal. *)
Inductive pyobj : Type :=
| PyBytes (b : bytes)
| PyStr (s : str).

Definition py_eq (a b : pyobj) : bool :=
  match a, b with
  | PyBytes x, PyBytes y => String.eqb x y
  | PyStr x, PyStr y => str_eqb x y
  | _, _ => false
  end.

Definition py_ne (a b : pyobj) : bool := negb (py_eq a b).

Definition Headers := list (str * str).
Definition Files := list (str * bytes).

(** [httpx.Response]: what the source reads of it. *)
Record HttpResponse : Type := {
  status_code : Z;
  headers : Headers;
  content : bytes
}.

(** ASCII lower-casing, as applied to header names. *)
Definition ascii_lower (c : codepoint) : codepoint :=
  if ((65 <=? c) && (c <=? 90))%N then (c + 32)%N else c.

Fixpoint join (sep : str) (l : list str) : str :=
  match l with
  | [] => []
  | [x] => x
  | x :: r => x ++ sep ++ join sep r
  end.

(** [response.headers.get(key, default)]: header names match without
    regard to case, and repeated headers are joined with a comma. *)
Definition headers_get (h : Headers) (key default : str) : str :=
  let k := map ascii_lower key in
  match map snd (filter (fun kv => str_eqb (map ascii_lower (fst kv)) k) h) with
  | [] => default
  | vs => join (U ", ") vs
  end.

(** [response.is_success], the test of [raise_for_status]. *)
Definition is_success (status : Z) : bool := ((200 <=? status) && (status <=? 299))%Z.

Section Model.
Context {F : Type} {FO : PyFloat F}.

Local Abbreviation json := (json F).
Local Abbreviation pydict := (pydict F).

(** An exception, as far as the handlers of the source tell exceptions
    apart: the httpx timeouts, FastAPI's [HTTPException], and any other
    exception under its class name ([type(e).__name__]). *)
Inductive exn : Type :=
| HttpxTimeout (k : TimeoutKind)
| HTTPException (status : Z) (detail : json)
| PyError (name : str).

Definition exn_name (e : exn) : str :=
  match e with
  | HttpxTimeout k => TimeoutKind_name k
  | HTTPException _ _ => U "HTTPException"
  | PyError n => n
  end.

(** The classes that derive from [BaseException] and not from
    [Exception]: the built-in ones, and [asyncio.CancelledError], which an
    [await] raises in a task that is cancelled. *)
Definition BASE_EXCEPTIONS : list str :=
  [ U "BaseException"; U "BaseExceptionGroup"; U "GeneratorExit";
    U "KeyboardInterrupt"; U "SystemExit"; U "CancelledError" ].

(** [isinstance(e, Exception)]: what an [except Exception] clause
    catches. *)
Definition isinstance_Exception (e : exn) : bool :=
  match e with
  | PyError n => negb (existsb (str_eqb n) BASE_EXCEPTIONS)
  | _ => true
  end.

(** *** Schemas *)

(** Modelled from the spec: the schema classes of [app.schemas.usage],
    [app.schemas.models], [app.schemas.core.settings] and
    [app.schemas.core.metric] are imported by the source but are not part
    of it.  The carbon estimate has two pairs of bounds, each bound
    independently optional; a usage has three token counts, a cost, a
    carbon estimate and an ordered sequence of details; a detail holds an
    id, a model name and a per-item usage. *)
Record Bounds : Type := { min_ : option F; max_ : option F }.

Record CarbonFootprintUsage : Type := { kWh : Bounds; kgCO2eq : Bounds }.

Inductive Usage : Type :=
| Build_Usage (prompt_tokens completion_tokens total_tokens : Z)
              (cost : F) (carbon : CarbonFootprintUsage)
              (details : list Detail)
with Detail : Type :=
| Build_Detail (id : str) (model : str) (usage : Usage).

Definition prompt_tokens (u : Usage) : Z :=
  match u with Build_Usage p _ _ _ _ _ => p end.
Definition completion_tokens (u : Usage) : Z :=
  match u with Build_Usage _ c _ _ _ _ => c end.
Definition total_tokens (u : Usage) : Z :=
  match u with Build_Usage _ _ t _ _ _ => t end.
Definition cost (u : Usage) : F :=
  match u with Build_Usage _ _ _ c _ _ => c end.
Definition carbon (u : Usage) : CarbonFootprintUsage :=
  match u with Build_Usage _ _ _ _ c _ => c end.
Definition details (u : Usage) : list Detail :=
  match u with Build_Usage _ _ _ _ _ d => d end.

Definition detail_id (d : Detail) : str :=
  match d with Build_Detail i _ _ => i end.
Definition detail_model (d : Detail) : str :=
  match d with Build_Detail _ m _ => m end.
Definition usage (d : Detail) : Usage :=
  match d with Build_Detail _ _ u => u end.

(** [Usage()]: every count zero, every bound absent, no detail. *)
Definition Usage_new : Usage :=
  Build_Usage 0 0 0 f_zero
    {| kWh := {| min_ := None; max_ := None |};
       kgCO2eq := {| min_ := None; max_ := None |} |} [].

Record ModelCosts : Type := {
  costs_prompt_tokens : F;
  costs_completion_tokens : F
}.

Record ModelClientCarbonFootprint : Type := {
  active_params : option Z;
  total_params : option Z;
  model_zone : str
}.

Record Metric : Type := {
  timestamp : Z;
  model_name : str;
  metric_api_url : str;
  latency_ms : option Z;
  time_to_first_token_us : option Z
}.

(** *** The client *)

(** A [BaseModelClient] instance: the attributes [__init__] sets, the
    class attribute [ENDPOINT_TABLE] (subclasses replace it), and
    [endpoint], which the model router sets before a call. *)
Record Client : Type := {
  self_model : str;
  costs : ModelCosts;
  self_carbon : ModelClientCarbonFootprint;
  api_url : str;
  api_key : str;
  timeout : Z;
  ENDPOINT_TABLE : list (Endpoint * option str);
  endpoint : Endpoint
}.

(** The table of the base class: no endpoint has a path. *)
Definition BaseModelClient_ENDPOINT_TABLE : list (Endpoint * option str) :=
  [ (ENDPOINT__AUDIO_TRANSCRIPTIONS, None);
    (ENDPOINT__CHAT_COMPLETIONS, None);
    (ENDPOINT__COMPLETIONS, None);
    (ENDPOINT__EMBEDDINGS, None);
    (ENDPOINT__MODELS, None);
    (ENDPOINT__OCR, None);
    (ENDPOINT__RERANK, None) ].

(** *** The world: request context, clocks, scheduled tasks *)

Record RequestContext : Type := { ctx_id : str; ctx_usage : Usage }.

Record World : Type := {
  clock : nat;                                (* readings taken of the clocks *)
  ids : nat;                                  (* request ids generated *)
  request_context : option RequestContext;    (* [None]: no context is set *)
  tasks : list Metric                         (* metric writes scheduled *)
}.

(** *** The environment *)

Record Env : Type := {
  (* codecs *)
  utf8_decode : bytes -> option str;          (* [None]: UnicodeDecodeError *)
  utf8_encode : str -> bytes;
  loads : str -> option json;                 (* [None]: JSONDecodeError *)
  dumps : json -> str;
  literal_eval : str -> option json;          (* [None]: it raises; a value is
                                                 given as [dumps] writes it *)
  dumps_refuses : str -> bool;                (* the value of this literal is one
                                                 [dumps] raises TypeError on: a
                                                 set, bytes, a complex number, a
                                                 dict with a tuple for a key, or
                                                 a container that holds one;
                                                 [literal_eval] then gives a
                                                 stand-in *)
  urljoin_nonempty : str -> str -> str;       (* urljoin of two non-empty strings *)
  (* httpx *)
  response_text : HttpResponse -> str;        (* [response.text] *)
  response_json : HttpResponse -> exn + json; (* [response.json()] *)
  Response_headers : str -> Headers;          (* headers of [httpx.Response(content=s)] *)
  (* tokenizer *)
  USAGE_COMPLETION_ENDPOINTS : list (Endpoint * bool);
  get_prompt_tokens : Endpoint -> option pydict -> exn + Z;
  get_completion_tokens : Endpoint -> json -> bool -> exn + Z;
  (* carbon estimator *)
  get_carbon_footprint :
    option Z -> option Z -> str -> Z -> F -> exn + CarbonFootprintUsage;
  (* request context and clocks *)
  generate_request_id : nat -> str;
  perf_counter : nat -> F;
  datetime_now : nat -> Z;
  (* pydantic *)
  model_dump : Usage -> json
}.

(** *** The monad of effectful code *)

Definition M (A : Type) : Type := World -> (exn + A) * World.

Definition ret {A : Type} (a : A) : M A := fun w => (inr a, w).

Definition bind {A B : Type} (m : M A) (k : A -> M B) : M B :=
  fun w => match m w with
           | (inr a, w') => k a w'
           | (inl e, w') => (inl e, w')
           end.

Definition raise {A : Type} (e : exn) : M A := fun w => (inl e, w).

(** A call that touches no state. *)
Definition lift {A : Type} (r : exn + A) : M A := fun w => (r, w).

Notation "x <- m ;; k" := (bind m (fun x => k))
  (at level 100, m at next level, right associativity).
Notation "m ;;; k" := (bind m (fun _ => k))
  (at level 100, right associativity).

Variable E : Env.

(** [time.perf_counter()] *)
Definition time_perf_counter : M F :=
  fun w => (inr (perf_counter E (clock w)),
            {| clock := S (clock w); ids := ids w;
               request_context := request_context w; tasks := tasks w |}).

(** [datetime.now()] *)
Definition now : M Z :=
  fun w => (inr (datetime_now E (clock w)),
            {| clock := S (clock w); ids := ids w;
               request_context := request_context w; tasks := tasks w |}).

(** [generate_request_id()] *)
Definition new_request_id : M str :=
  fun w => (inr (generate_request_id E (ids w)),
            {| clock := clock w; ids := S (ids w);
               request_context := request_context w; tasks := tasks w |}).

(** [request_context.get()] *)
Definition get_request_context : M RequestContext :=
  fun w => match request_context w with
           | Some c => (inr c, w)
           | None => (inl (PyError (U "LookupError")), w)
           end.

(** The accumulator is one object, reached through the request context:
    a write to it is a write to the context. *)
Definition set_usage (u : Usage) : M unit :=
  fun w => (inr tt,
            {| clock := clock w; ids := ids w;
               request_context :=
                 option_map (fun c => {| ctx_id := ctx_id c; ctx_usage := u |})
                            (request_context w);
               tasks := tasks w |}).

(** [asyncio.create_task(self._log_performance_metric(metric))]: the write
    is scheduled and not awaited. *)
Definition create_task (m : Metric) : M unit :=
  fun w => (inr tt,
            {| clock := clock w; ids := ids w;
               request_context := request_context w;
               tasks := tasks w ++ [m] |}).

(** *** Subscripting and membership on decoded values *)

(** [x[k]] for a [str] key. *)
Definition getitem (x : json) (k : str) : exn + json :=
  match x with
  | JDict d => match dict_get k d with
               | Some v => inr v
               | None => inl (PyError (U "KeyError"))
               end
  | _ => inl (PyError (U "TypeError"))
  end.

(** [x[0]] *)
Definition getitem0 (x : json) : exn + json :=
  match x with
  | JList (y :: _) => inr y
  | JList [] => inl (PyError (U "IndexError"))
  | JStr (c :: _) => inr (JStr [c])
  | JStr [] => inl (PyError (U "IndexError"))
  | JDict _ => inl (PyError (U "KeyError"))
  | _ => inl (PyError (U "TypeError"))
  end.

Fixpoint str_contains (s p : str) : bool :=
  startswith s p || match s with [] => false | _ :: s' => str_contains s' p end.

Definition is_str (k : str) (x : json) : bool :=
  match x with JStr s => str_eqb s k | _ => false end.

(** [k in x] for a [str] key: key test on a dict, element test on a list,
    substring test on a str, [TypeError] on the rest. *)
Definition contains (k : str) (x : json) : exn + bool :=
  match x with
  | JDict d => inr (dict_mem k d)
  | JList l => inr (existsb (is_str k) l)
  | JStr s => inr (str_contains s k)
  | _ => inl (PyError (U "TypeError"))
  end.

(** [ast.literal_eval(x)]: only a [str] is evaluated. *)
Definition ast_literal_eval (x : json) : option json :=
  match x with
  | JStr s => literal_eval E s
  | _ => None
  end.

(** *** Usage *)

(** One carbon bound of the accumulator after a detail: the bound is
    touched only when the detail has a value, and starts from 0.0 when it
    was absent. *)
Definition add_bound (acc new : option F) : option F :=
  match new with
  | Some v => Some (f_add (match acc with Some a => a | None => f_zero end) v)
  | None => acc
  end.

(** Lines 148-174: the detail is appended and added to the totals. *)
Definition accumulate (u : Usage) (d : Detail) : Usage :=
  let du := usage d in
  Build_Usage
    (prompt_tokens u + prompt_tokens du)
    (completion_tokens u + completion_tokens du)
    (total_tokens u + total_tokens du)
    (f_add (cost u) (cost du))
    {| kWh :=
         {| min_ := add_bound (min_ (kWh (carbon u))) (min_ (kWh (carbon du)));
            max_ := add_bound (max_ (kWh (carbon u))) (max_ (kWh (carbon du))) |};
       kgCO2eq :=
         {| min_ := add_bound (min_ (kgCO2eq (carbon u))) (min_ (kgCO2eq (carbon du)));
            max_ := add_bound (max_ (kgCO2eq (carbon u))) (max_ (kgCO2eq (carbon du))) |} |}
    (details u ++ [d]).

(** The cost of a detail, line 147. *)
Definition detail_cost (self : Client) (p c : Z) : F :=
  py_round
    (f_add (f_mul (int_truediv p 1000000) (costs_prompt_tokens (costs self)))
           (f_mul (int_truediv c 1000000) (costs_completion_tokens (costs self))))
    6.

(** [x.get("id", generate_request_id())]: the default is evaluated before
    the lookup. *)
Definition get_id (x : json) : M json :=
  match x with
  | JDict d =>
      fresh <- new_request_id ;;
      ret (match dict_get (U "id") d with Some v => v | None => JStr fresh end)
  | _ => raise (PyError (U "AttributeError"))
  end.

(** [Detail(id=..., ...)]: the id field is a [str]. *)
Definition validate_id (x : json) : exn + str :=
  match x with
  | JStr s => inr s
  | _ => inl (PyError (U "ValidationError"))
  end.

(** The statements of the [try] block of [_get_usage] after the
    accumulator [acc] was fetched (lines 127-174).  [completion] is
    [USAGE_COMPLETION_ENDPOINTS[self.endpoint]]. *)
Definition compute_usage (self : Client) (completion : bool) (acc : Usage)
    (body : option pydict) (data : json) (stream : bool)
    (request_latency : F) : M Usage :=
  item <- lift (if stream then getitem0 data else inr data) ;;
  raw_id <- get_id item ;;
  did <- lift (validate_id raw_id) ;;
  p <- lift (get_prompt_tokens E (endpoint self) body) ;;
  c <- lift (if completion
             then get_completion_tokens E (endpoint self) data stream
             else inr 0%Z) ;;
  let total := (p + c)%Z in
  cb <- lift (get_carbon_footprint E (active_params (self_carbon self))
                (total_params (self_carbon self))
                (model_zone (self_carbon self)) total request_latency) ;;
  let detail :=
    Build_Detail did (self_model self)
      (Build_Usage p c total (detail_cost self p c) cb []) in
  let acc' := accumulate acc detail in
  set_usage acc' ;;;
  ret acc'.

(** [_get_usage]: [None] for an endpoint outside
    [USAGE_COMPLETION_ENDPOINTS]; otherwise the value the local variable
    [usage] holds when the function returns.  That variable is bound to
    the accumulator by the first statement of the [try] block, so after
    an exception in a later statement it still refers to the
    accumulator.  The block awaits nothing: what it raises comes from the
    tokenizer, the estimator and the schema classes, and is caught by
    [except Exception]. *)
Definition _get_usage (self : Client) (body : option pydict) (data : json)
    (stream : bool) (request_latency : F) : M (option Usage) :=
  match table_get (endpoint self) (USAGE_COMPLETION_ENDPOINTS E) with
  | None => ret None
  | Some completion =>
      fun w =>
        match get_request_context w with
        | (inl _, w') => (inr None, w')
        | (inr ctx, w') =>
            match compute_usage self completion (ctx_usage ctx)
                    body data stream request_latency w' with
            | (inr u, w'') => (inr (Some u), w'')
            | (inl _, w'') =>
                (inr (option_map ctx_usage (request_context w'')), w'')
            end
        end
  end.

(** [_get_additional_data] *)
Definition _get_additional_data (self : Client) (body : option pydict)
    (data : json) (stream : bool) (request_latency : F) : M pydict :=
  u <- _get_usage self body data stream request_latency ;;
  request_id <- match u with
                | Some u' => match rev (details u') with
                             | d :: _ => ret (detail_id d)
                             | [] => new_request_id
                             end
                | None => new_request_id
                end ;;
  let additional_data :=
    [(U "model", JStr (self_model self)); (U "id", JStr request_id)] in
  ret (match u with
       | Some u' => dict_set (U "usage") (model_dump E u') additional_data
       | None => additional_data
       end).

(** *** Request formatting *)

Record Request : Type := {
  req_method : str;
  req_url : option str;
  req_headers : Headers;
  req_json : option pydict;
  req_files : option Files;
  req_data : option pydict
}.

(** [urljoin(base=..., url=...)]: its two guards, [if not base: return url]
    and [if not url: return base], and then the join proper.  The second
    argument is [None] when the table has no path. *)
Definition urljoin (base : str) (url : option str) : option str :=
  match base with
  | [] => url
  | _ :: _ =>
      match url with
      | None => Some base
      | Some [] => Some base
      | Some (c :: u) => Some (urljoin_nonempty E base (c :: u))
      end
  end.

(** The truth value of an optional dict: [None] and [{}] are false. *)
Definition truthy (d : option pydict) : bool :=
  match d with
  | Some (_ :: _) => true
  | _ => false
  end.

(** [_format_request]; the only exception is the [KeyError] of the table
    lookup. *)
Definition _format_request (self : Client) (body : option pydict)
    (files : option Files) (data : option pydict)
  : exn + (option str * Headers * option pydict * option Files * option pydict) :=
  match table_get (endpoint self) (ENDPOINT_TABLE self) with
  | None => inl (PyError (U "KeyError"))
  | Some path =>
      let url := urljoin (api_url self) path in
      let headers := [(U "Authorization", U "Bearer " ++ api_key self)] in
      let body' :=
        match body with
        | Some d =>
            if truthy body && dict_mem (U "model") d
            then Some (dict_set (U "model") (JStr (self_model self)) d)
            else body
        | None => None
        end in
      inr (url, headers, body', files, data)
  end.

(** *** Unary responses *)

(** [httpx.Response(status_code=..., content=s)] for a [str] [s]. *)
Definition Response_new (status : Z) (s : str) : HttpResponse :=
  {| status_code := status;
     headers := Response_headers E s;
     content := utf8_encode E s |}.

(** [_format_response] *)
Definition _format_response (self : Client) (body : option pydict)
    (response : HttpResponse) (additional_data : pydict)
    (request_latency : F) : M HttpResponse :=
  let content_type := headers_get (headers response) (U "Content-Type") [] in
  if str_eqb content_type (U "application/json") then
    data <- lift (response_json E response) ;;
    match data with
    | JDict d =>
        extra <- _get_additional_data self body data false request_latency ;;
        ret (Response_new (status_code response)
               (dumps E (JDict (dict_update (dict_update d extra) additional_data))))
    | _ => raise (PyError (U "AttributeError"))
    end
  else ret response.

Definition TIMEOUT_DETAIL : str := U "Request timed out, model is too busy.".

(** The detail of the [HTTPException] raised for a non-2xx response
    (lines 298-307). *)
Definition error_message (response : HttpResponse) : exn + json :=
  let text := response_text E response in
  match loads E text with
  | None => inr (JStr text)
  | Some message =>
      match contains (U "message") message with
      | inl e => inl e
      | inr false => inr message
      | inr true =>
          match getitem message (U "message") with
          | inl e => inl e
          | inr v => match ast_literal_eval v with
                     | Some j => inr j
                     | None => inr v
                     end
          end
      end
  end.

(** The request a formatted call hands to the transport. *)
Definition request_of (method : str)
    (fr : option str * Headers * option pydict * option Files * option pydict)
  : Request :=
  let '(url, hdrs, body, files, data) := fr in
  {| req_method := method; req_url := url; req_headers := hdrs;
     req_json := body; req_files := files; req_data := data |}.

(** [forward_request].  [net] is the transport: what
    [async_client.request] does with the request it is given.  An
    exception of the transport that [except Exception] does not catch
    leaves the call as it is. *)
Definition forward_request (self : Client) (net : Request -> exn + HttpResponse)
    (method : str) (body : option pydict) (files : option Files)
    (data : option pydict) (additional_data : option pydict) : M HttpResponse :=
  fr <- lift (_format_request self body files data) ;;
  let '(url, hdrs, body', files', data') := fr in
  let additional_data' := if truthy additional_data
                          then match additional_data with Some d => d | None => [] end
                          else [] in
  start_time <- time_perf_counter ;;
  response <- match net (request_of method (url, hdrs, body', files', data')) with
              | inr r => ret r
              | inl (HttpxTimeout _) =>
                  raise (HTTPException 504 (JStr TIMEOUT_DETAIL))
              | inl e =>
                  if isinstance_Exception e
                  then raise (HTTPException 500 (JStr (exn_name e)))
                  else raise e
              end ;;
  end_time <- time_perf_counter ;;
  (if is_success (status_code response) then ret tt
   else message <- lift (error_message response) ;;
        raise (HTTPException (status_code response) message)) ;;;
  let request_latency := f_sub end_time start_time in
  response' <- _format_response self body' response additional_data' request_latency ;;
  ts <- now ;;
  create_task {| timestamp := ts; model_name := self_model self;
                 metric_api_url := api_url self;
                 latency_ms := Some (f_int (f_mul_int request_latency 1000));
                 time_to_first_token_us := None |} ;;;
  ret response'.

(** *** Streamed responses *)

(** One line of a buffered chunk (lines 345-355).  [content] is the local
    variable of that name, Python's [None] being [JNull]; [chunks] is the
    list of decoded events. *)
Definition scan_line (acc : json * list json) (line : str) : json * list json :=
  let line1 := strip line in
  if negb (startswith line1 (U "data: ")) then acc
  else
    match removeprefix line1 (U "data: ") with
    | [] => acc
    | line2 =>
        match loads E line2 with
        | Some c => (c, snd acc ++ [c])
        | None => acc
        end
    end.

Fixpoint scan_buffer (acc : json * list json) (response : list bytes)
  : exn + (json * list json) :=
  match response with
  | [] => inr acc
  | lines :: rest =>
      match utf8_decode E lines with
      | None => inl (PyError (U "UnicodeDecodeError"))
      | Some s => scan_buffer (fold_left scan_line (split_nn s) acc) rest
      end
  end.

(** [_format_stream_response].  [extra_chunk] is the object [content],
    which is also the last element of [chunks]: clearing its [choices]
    shows in the list handed to the usage computation. *)
Definition _format_stream_response (self : Client) (body : option pydict)
    (response : list bytes) (additional_data : pydict)
    (request_latency : F) : M (option pydict) :=
  scanned <- lift (scan_buffer (JNull, []) response) ;;
  let '(content, chunks) := scanned in
  match content with
  | JNull => ret None
  | JDict d =>
      let d1 := dict_update d [(U "choices", JList [])] in
      let chunks1 := removelast chunks ++ [JDict d1] in
      extra <- _get_additional_data self body (JList chunks1) true request_latency ;;
      ret (Some (dict_update (dict_update d1 extra) additional_data))
  | _ => raise (PyError (U "AttributeError"))
  end.

(** A pair the generator yields. *)
Definition Yield : Type := bytes * Z.

(** The local variables of [forward_stream] that live across chunks. *)
Record StreamState : Type := {
  buffer : list bytes;
  first_token_time : option F
}.

(** Whether [dumps] refuses the value [ast.literal_eval(x)] returned. *)
Definition literal_refused (x : json) : bool :=
  match x with
  | JStr s => dumps_refuses E s
  | _ => false
  end.

(** A chunk in the error case (lines 400-407).  The message is replaced
    by its value as a Python literal when it has one; [dumps] then raises
    TypeError if that value is outside what it serialises. *)
Definition error_chunk (chunk : bytes) : exn + bytes :=
  match utf8_decode E chunk with
  | None => inl (PyError (U "UnicodeDecodeError"))
  | Some s =>
      match loads E s with
      | None => inl (PyError (U "JSONDecodeError"))
      | Some chunks =>
          match contains (U "message") chunks with
          | inl e => inl e
          | inr false => inr (utf8_encode E (dumps E chunks))
          | inr true =>
              match chunks, getitem chunks (U "message") with
              | JDict d, inr v =>
                  match ast_literal_eval v with
                  | Some j =>
                      if literal_refused v
                      then inl (PyError (U "TypeError"))
                      else inr (utf8_encode E
                                  (dumps E (JDict (dict_set (U "message") j d))))
                  | None => inr (utf8_encode E (dumps E chunks))
                  end
              | _, _ => inr (utf8_encode E (dumps E chunks))
              end
          end
      end
  end.

(** The test of line 416; [None] is any exception, which the source
    swallows. *)
Definition first_token_probe (chunk : bytes) : option bool :=
  match utf8_decode E chunk with
  | None => None
  | Some s =>
      match loads E (removeprefix s (U "data: ")) with
      | None => None
      | Some j =>
          match getitem j (U "choices") with
          | inr choices =>
              match getitem0 choices with
              | inr choice =>
                  match getitem choice (U "delta") with
                  | inr delta =>
                      match getitem delta (U "content") with
                      | inr c => Some (negb (is_str [] c))
                      | inl _ => None
                      end
                  | inl _ => None
                  end
              | inl _ => None
              end
          | inl _ => None
          end
      end
  end.

(** A chunk without the marker (lines 412-421). *)
Definition body_chunk (status : Z) (st : StreamState) (chunk : bytes)
  : M (list Yield * StreamState) :=
  let buffer1 := buffer st ++ [chunk] in
  ftt <- match first_token_time st with
         | None =>
             match first_token_probe chunk with
             | Some true => t <- time_perf_counter ;; ret (Some t)
             | _ => ret None
             end
         | Some t => ret (Some t)
         end ;;
  ret ([(chunk, status)], {| buffer := buffer1; first_token_time := ftt |}).

(** The chunk that holds the marker at offset [i] (lines 425-462). *)
Definition done_chunk (self : Client) (body : option pydict)
    (additional_data : pydict) (status : Z) (start_time : F)
    (st : StreamState) (chunk : bytes) (i : nat)
  : M (list Yield * StreamState) :=
  let last_chunks := bytes_take i chunk in
  let done := bytes_drop i chunk in
  ftt <- (if match first_token_time st with None => true | Some _ => false end
             && py_ne (PyBytes last_chunks) (PyStr [])
             && Nat.eqb (length (buffer st)) 0
          then t <- time_perf_counter ;; ret (Some t)
          else ret (first_token_time st)) ;;
  let buffer1 := buffer st ++ [last_chunks] in
  end_time <- time_perf_counter ;;
  let request_latency := f_sub end_time start_time in
  match ftt with
  | Some _ => ret tt
  | None => ctx <- get_request_context ;; ret tt   (* the warning reads the request id *)
  end ;;;
  extra_chunk <- _format_stream_response self body buffer1 additional_data
                   request_latency ;;
  ts <- now ;;
  create_task {| timestamp := ts;
                 model_name := self_model self;
                 metric_api_url := api_url self;
                 latency_ms := Some (f_int (f_mul_int request_latency 1000));
                 time_to_first_token_us :=
                   option_map (fun t => f_int (f_mul_int (f_sub t start_time) 1000000))
                              ftt |} ;;;
  let st1 := {| buffer := buffer1; first_token_time := ftt |} in
  match extra_chunk with
  | None => ret ([(chunk, status)], st1)
  | Some ec =>
      ret ([ (last_chunks, status);
             (utf8_encode E (U "data: " ++ dumps E (JDict ec) ++ [10; 10]%N), status);
             (done, status) ], st1)
  end.

(** One iteration of the [async for] loop. *)
Definition on_chunk (self : Client) (body : option pydict)
    (additional_data : pydict) (status : Z) (start_time : F)
    (st : StreamState) (chunk : bytes) : M (list Yield * StreamState) :=
  if negb (status / 100 =? 2)%Z then
    c <- lift (error_chunk chunk) ;;
    ret ([(c, status)], st)
  else
    match search_literal DONE_MARKER chunk with
    | None => body_chunk status st chunk
    | Some i => done_chunk self body additional_data status start_time st chunk i
    end.

(** The loop over the chunks received: what was yielded, then the
    exception that ended the loop or the local variables at its normal
    end, and the world afterwards. *)
Fixpoint run_chunks (self : Client) (body : option pydict)
    (additional_data : pydict) (status : Z) (start_time : F)
    (st : StreamState) (chunks : list bytes) (w : World)
  : list Yield * (exn + StreamState) * World :=
  match chunks with
  | [] => ([], inr st, w)
  | chunk :: rest =>
      match on_chunk self body additional_data status start_time st chunk w with
      | (inl e, w1) => ([], inl e, w1)
      | (inr (ys, st1), w1) =>
          let '(ys', r, w2) :=
            run_chunks self body additional_data status start_time st1 rest w1 in
          (ys ++ ys', r, w2)
      end
  end.

(** What the transport does to a streamed call: the connection fails, or
    a response arrives with a status and delivers chunks until it ends or
    an exception is raised while waiting for the next one. *)
Inductive StreamTransport : Type :=
| ConnectRaises (e : exn)
| Streams (status : Z) (chunks : list bytes) (tail : option exn).

(** The two handlers of lines 464-468: the pair yielded for an exception
    they catch; [None] for an exception neither catches. *)
Definition stream_handler (e : exn) : option (list Yield) :=
  match e with
  | HttpxTimeout _ =>
      Some [(utf8_encode E (dumps E (JDict [(U "detail", JStr TIMEOUT_DETAIL)])),
             504%Z)]
  | _ =>
      if isinstance_Exception e
      then Some [(utf8_encode E (dumps E (JDict [(U "detail", JStr (exn_name e))])),
                  500%Z)]
      else None
  end.

(** The end of the generator when [e] is raised inside the [try] block
    after [ys] was yielded: the pair of the handler that catches [e] is
    yielded and the generator returns, or [e] leaves the generator. *)
Definition stream_raised (ys : list Yield) (e : exn) (w : World)
  : list Yield * option exn * World :=
  match stream_handler e with
  | Some h => (ys ++ h, None, w)
  | None => (ys, Some e, w)
  end.

(** [forward_stream], consumed to its end: the pairs yielded in order, the
    exception leaving the generator if there is one, and the world
    afterwards. *)
Definition forward_stream (self : Client) (net : Request -> StreamTransport)
    (method : str) (body : option pydict) (files : option Files)
    (data : option pydict) (additional_data : pydict) (w : World)
  : list Yield * option exn * World :=
  match _format_request self body files data with
  | inl e => ([], Some e, w)
  | inr (url, hdrs, body', files', data') =>
      match net (request_of method (url, hdrs, body', files', data')) with
      | ConnectRaises e => stream_raised [] e w
      | Streams status chunks tail =>
          match time_perf_counter w with
          | (inl e, w1) => stream_raised [] e w1
          | (inr start_time, w1) =>
              let '(ys, r, w2) :=
                run_chunks self body' additional_data status start_time
                  {| buffer := []; first_token_time := None |} chunks w1 in
              match r, tail with
              | inl e, _ => stream_raised ys e w2
              | inr _, Some e => stream_raised ys e w2
              | inr _, None => (ys, None, w2)
              end
          end
      end
  end.

(** *** The four carbon bounds, for stating properties *)

Inductive BoundField : Type := kgCO2eq_min | kgCO2eq_max | kWh_min | kWh_max.

Definition bound (f : BoundField) (u : Usage) : option F :=
  match f with
  | kgCO2eq_min => min_ (kgCO2eq (carbon u))
  | kgCO2eq_max => max_ (kgCO2eq (carbon u))
  | kWh_min => min_ (kWh (carbon u))
  | kWh_max => max_ (kWh (carbon u))
  end.

(** The values a sequence of details has for one bound, in order, the
    absent ones left out. *)
Definition contributions (f : BoundField) (ds : list Detail) : list F :=
  flat_map (fun d => match bound f (usage d) with
                     | Some v => [v]
                     | None => []
                     end) ds.

End Model.

Arguments exn F : clear implicits.
Arguments Usage F : clear implicits.
Arguments Detail F : clear implicits.
Arguments Bounds F : clear implicits.
Arguments CarbonFootprintUsage F : clear implicits.
Arguments ModelCosts F : clear implicits.
Arguments Client F : clear implicits.
Arguments World F : clear implicits.
Arguments RequestContext F : clear implicits.
Arguments Request F : clear implicits.
Arguments StreamTransport F : clear implicits.
Arguments StreamState F : clear implicits.
Arguments Env F : clear implicits.

(** ** The metrics store *)

(** A call on the Redis client: [timeseries.create], [timeseries.add] and
    [reset]. *)
Inductive RedisCall : Type :=
| TsCreate (key : str) (retention : Z)
| TsAdd (key : str) (value : Z) (timestamp : Z)
| Reset.

(** What the server does with a call, given the calls made before it:
    [None] is a normal return, [Some msg] an exception [e] of class
    [Exception], which the handlers catch, with [str(e) = msg]. *)
Definition Redis : Type := list RedisCall -> RedisCall -> option str.

(** Code that talks to the store: from the calls made so far to the
    message of the exception that escapes or a result, and the calls made
    by then. *)
Definition R (A : Type) : Type := list RedisCall -> (str + A) * list RedisCall.

Definition redis_call (redis : Redis) (c : RedisCall) : R unit :=
  fun h => (match redis h c with Some msg => inl msg | None => inr tt end,
            h ++ [c]).

(** The keys of the two series of a model served at a URL. *)
Definition time_to_first_token_ts_key (model api_url : str) : str :=
  U "metrics_ts:time_to_first_token:" ++ model ++ U ":" ++ api_url.

Definition latency_ts_key (model api_url : str) : str :=
  U "metrics_ts:latency:" ++ model ++ U ":" ++ api_url.

Definition KEY_EXISTS : str := U "TSDB: key already exists".

(** [setup_metrics_storage]: each series is created in its own [try];
    the handler of the first calls [reset] unless the message says the key
    exists, the handler of the second only logs. *)
Definition setup_metrics_storage (redis : Redis) (model api_url : str) : R unit :=
  fun h =>
    let second (h1 : list RedisCall) :=
      match redis_call redis (TsCreate (latency_ts_key model api_url) 3600000) h1 with
      | (_, h2) => (inr tt, h2)
      end in
    match redis_call redis
            (TsCreate (time_to_first_token_ts_key model api_url) 3600000) h with
    | (inr _, h1) => second h1
    | (inl msg, h1) =>
        if str_eqb msg KEY_EXISTS then second h1
        else match redis_call redis Reset h1 with
             | (inl e, h2) => (inl e, h2)
             | (inr _, h2) => second h2
             end
    end.

(** [_log_performance_metric]: a sample is written for each field of the
    metric that is not None; the handler of the first write calls
    [reset], the handler of the second only logs. *)
Definition _log_performance_metric (redis : Redis) (metric : Metric) : R unit :=
  fun h =>
    let second (h1 : list RedisCall) :=
      match latency_ms metric with
      | Some v =>
          match redis_call redis
                  (TsAdd (latency_ts_key (model_name metric) (metric_api_url metric))
                         v (timestamp metric)) h1 with
          | (_, h2) => (inr tt, h2)
          end
      | None => (inr tt, h1)
      end in
    match time_to_first_token_us metric with
    | Some v =>
        match redis_call redis
                (TsAdd (time_to_first_token_ts_key (model_name metric)
                          (metric_api_url metric)) v (timestamp metric)) h with
        | (inr _, h1) => second h1
        | (inl _, h1) =>
            match redis_call redis Reset h1 with
            | (inl e, h2) => (inl e, h2)
            | (inr _, h2) => second h2
            end
        end
    | None => second h
    end.

(** ** The document manager ([app/helpers/_documentmanager.py]) *)

(** [itertools.batched(iterable, n)] on a list: consecutive groups of [n]
    items, the last one shorter when the length is no multiple of [n];
    [None] is the ValueError raised for [n < 1]. *)
Fixpoint batched_fuel {A : Type} (fuel n : nat) (l : list A) : list (list A) :=
  match fuel with
  | O => []
  | S fuel' =>
      match l with
      | [] => []
      | _ :: _ => firstn n l :: batched_fuel fuel' n (skipn n l)
      end
  end.

Definition batched {A : Type} (l : list A) (n : nat) : option (list (list A)) :=
  match n with
  | O => None
  | S _ => Some (batched_fuel (length l) n l)
  end.

Section Documents.
Context {F : Type} {FO : PyFloat F}.

(** The collaborators of the manager are objects of classes outside this
    source; an attribute holds such an object or None, and an object is
    true. *)
Context {VectorStore WebSearchManager ParserManager MultiAgentManager : Type}.
Context {ModelRouter : Type}.
Context {Chunk : Type}.

Record DocumentManager : Type := {
  vector_store : option VectorStore;
  vector_store_model : ModelRouter;
  web_search_manager : option WebSearchManager;
  parser_manager : option ParserManager;
  multi_agent_manager : option MultiAgentManager
}.

Definition BATCH_SIZE : nat := 32.

Definition is_none {A : Type} (o : option A) : bool :=
  match o with None => true | Some _ => false end.

(** [name in dependencies] *)
Definition str_in (name : str) (l : list str) : bool := existsb (str_eqb name) l.

(** [check_dependencies(dependencies=...)] applied to [method]: the
    wrapper. *)
Definition check_dependencies {A : Type} (dependencies : list str)
    (method : DocumentManager -> A) (self : DocumentManager) : exn F + A :=
  if str_in (U "vector_store") dependencies && is_none (vector_store self) then
    inl (HTTPException 400
           (JStr (U "Feature not available: vector store is not initialized.")))
  else if str_in (U "web_search_manager") dependencies
          && is_none (web_search_manager self) then
    inl (HTTPException 400
           (JStr (U "Feature not available: web search is not initialized.")))
  else if str_in (U "parser_manager") dependencies
          && is_none (parser_manager self) then
    inl (HTTPException 400
           (JStr (U "Feature not available: parser is not initialized.")))
  else if str_in (U "multi_agent_manager") dependencies
          && is_none (multi_agent_manager self) then
    inl (HTTPException 400
           (JStr (U "Feature not available: multi agents is not initialized.")))
  else inr (method self).

(** Whether the attribute a dependency name stands for is set; a name the
    wrapper does not know asks for nothing. *)
Definition dependency_ready (self : DocumentManager) (name : str) : bool :=
  if str_eqb name (U "vector_store") then negb (is_none (vector_store self))
  else if str_eqb name (U "web_search_manager") then
    negb (is_none (web_search_manager self))
  else if str_eqb name (U "parser_manager") then
    negb (is_none (parser_manager self))
  else if str_eqb name (U "multi_agent_manager") then
    negb (is_none (multi_agent_manager self))
  else true.

Variable E : Env F.

(** The model router, as far as [_create_embeddings] uses it. *)
Variable get_client : ModelRouter -> Endpoint -> exn F + Client F.
Variable router_name : ModelRouter -> str.

(** Iterating over a decoded value, as a comprehension does. *)
Definition iterate (x : json F) : exn F + list (json F) :=
  match x with
  | JList l => inr l
  | JDict d => inr (map (fun kv => JStr (fst kv)) d)
  | JStr s => inr (map (fun c => JStr [c]) s)
  | _ => inl (PyError (U "TypeError"))
  end.

Fixpoint map_exn {A B : Type} (f : A -> exn F + B) (l : list A) : exn F + list B :=
  match l with
  | [] => inr []
  | a :: r =>
      match f a with
      | inl e => inl e
      | inr b => match map_exn f r with
                 | inl e => inl e
                 | inr bs => inr (b :: bs)
                 end
      end
  end.

(** The JSON body [_create_embeddings] sends. *)
Definition embeddings_body (self : DocumentManager) (input : list str) : pydict F :=
  [ (U "input", JList (map JStr input));
    (U "model", JStr (router_name (vector_store_model self)));
    (U "encoding_format", JStr (U "float")) ].

(** [_create_embeddings] *)
Definition _create_embeddings (self : DocumentManager)
    (net : Request F -> exn F + HttpResponse) (input : list str)
  : M (list (json F)) :=
  bind (lift (get_client (vector_store_model self) ENDPOINT__EMBEDDINGS))
    (fun client =>
  bind (forward_request E client net (U "POST")
          (Some (embeddings_body self input)) None None None)
    (fun response =>
  bind (lift (response_json E response))
    (fun decoded =>
  bind (lift (getitem decoded (U "data")))
    (fun data =>
  bind (lift (iterate data))
    (fun vectors =>
  lift (map_exn (fun vector => getitem vector (U "embedding")) vectors)))))).

(** *** Upserting chunks *)

Variable content : Chunk -> str.

(** The two calls [_upsert] makes for a batch. *)
Inductive StoreCall : Type :=
| EmbedCall (texts : list str)
| UpsertCall (collection_id : Z) (chunks : list Chunk) (embeddings : list (json F)).

(** What the calls answer, given the calls made before. *)
Record StoreOracle : Type := {
  embeddings_of : list StoreCall -> list str -> exn F + list (json F);
  upsert_raises : list StoreCall -> Z -> list Chunk -> list (json F) -> option (exn F)
}.

Fixpoint upsert_batches (o : StoreOracle) (collection_id : Z)
    (batches : list (list Chunk)) (h : list StoreCall)
  : (exn F + unit) * list StoreCall :=
  match batches with
  | [] => (inr tt, h)
  | batch :: rest =>
      let texts := map content batch in
      let h1 := h ++ [EmbedCall texts] in
      match embeddings_of o h texts with
      | inl e => (inl e, h1)
      | inr embeddings =>
          let h2 := h1 ++ [UpsertCall collection_id batch embeddings] in
          match upsert_raises o h1 collection_id batch embeddings with
          | Some e => (inl e, h2)
          | None => upsert_batches o collection_id rest h2
          end
      end
  end.

(** [_upsert] *)
Definition _upsert (o : StoreOracle) (chunks : list Chunk) (collection_id : Z)
    (h : list StoreCall) : (exn F + unit) * list StoreCall :=
  match batched chunks BATCH_SIZE with
  | None => (inl (PyError (U "ValueError")), h)
  | Some batches => upsert_batches o collection_id batches h
  end.

(** The chunks handed to the vector store by a sequence of calls. *)
Definition upserted (calls : list StoreCall) : list Chunk :=
  flat_map (fun c => match c with
                     | UpsertCall _ chunks _ => chunks
                     | EmbedCall _ => []
                     end) calls.

End Documents.

Arguments DocumentManager : clear implicits.
Arguments StoreCall : clear implicits.
Arguments StoreOracle : clear implicits.

(** *** Searching chunks *)

Section DocumentSearch.
Context {F : Type} {FO : PyFloat F}.
Context {VectorStore WebSearchManager ParserManager MultiAgentManager : Type}.
Context {ModelRouter : Type}.

(** [app.schemas.search]: a search result, and the search method with
    the test [method == SearchMethod.MULTIAGENT]. *)
Context {Search SearchMethod : Type}.
Variable is_multiagent : SearchMethod -> bool.

(** [self.vector_store.default_method], and [str] of an int as an
    f-string writes it. *)
Variable default_method : VectorStore -> SearchMethod.
Variable str_of_int : Z -> str.

(** What [search_chunks] raises: the two exception classes of
    [app.utils.exceptions] it names, with the detail it gives, or
    anything else. *)
Inductive DocExn : Type :=
| Raised (e : exn F)
| CollectionNotFoundException (detail : option str)
| MultiAgentSearchNotAvailableException.

(** The calls [search_chunks] awaits: the body of [_create_web_collection],
    the select of a collection visible to the user, [_create_embeddings],
    [vector_store.search], [multi_agent_manager.search] and the body of
    [delete_collection]. *)
Inductive SearchCall : Type :=
| CreateWebCollection (user_id : Z) (prompt : str) (k : Z)
| SelectCollection (collection_id user_id : Z)
| CreateEmbeddings (input : list str)
| VectorSearch (method : SearchMethod) (collection_ids : list Z) (query_prompt : str)
    (query_vector : json F) (k rff_k : Z) (score_threshold : F)
| AgentSearch (searches : list Search) (prompt : str)
| DeleteCollection (user_id collection_id : Z).

(** What the calls answer, given the calls made before.  The select
    answers whether [scalar_one] finds its row ([false] is NoResultFound);
    the deletion answers the exception it raises, if any. *)
Record SearchOracle : Type := {
  web_collection : list SearchCall -> Z -> str -> Z -> DocExn + option Z;
  select_collection : list SearchCall -> Z -> Z -> DocExn + bool;
  embeddings : list SearchCall -> list str -> DocExn + list (json F);
  vector_search : list SearchCall -> SearchMethod -> list Z -> str -> json F ->
                  Z -> Z -> F -> DocExn + list Search;
  agent_search : list SearchCall -> list Search -> str -> DocExn + list Search;
  delete_raises : list SearchCall -> Z -> Z -> option DocExn
}.

(** A coroutine of the manager: from the calls made so far to an
    exception or a result, and the calls made by then. *)
Definition DocM (A : Type) : Type :=
  list SearchCall -> (DocExn + A) * list SearchCall.

Definition doc_ret {A : Type} (a : A) : DocM A := fun h => (inr a, h).

Definition doc_raise {A : Type} (e : DocExn) : DocM A := fun h => (inl e, h).

Definition doc_bind {A B : Type} (m : DocM A) (f : A -> DocM B) : DocM B :=
  fun h => match m h with
           | (inl e, h1) => (inl e, h1)
           | (inr a, h1) => f a h1
           end.

Definition doc_call {A : Type} (c : SearchCall)
    (answer : list SearchCall -> DocExn + A) : DocM A :=
  fun h => (answer h, h ++ [c]).

(** Awaiting the call of a method wrapped by [check_dependencies]: the
    wrapper raises before there is a coroutine. *)
Definition await_checked {A : Type} (r : exn F + DocM A) : DocM A :=
  match r with
  | inl e => doc_raise (Raised e)
  | inr m => m
  end.

Local Abbreviation DM :=
  (DocumentManager VectorStore WebSearchManager ParserManager MultiAgentManager
     ModelRouter).

(** [_create_web_collection], its body one call. *)
Definition _create_web_collection (o : SearchOracle) (self : DM)
    (user_id : Z) (prompt : str) (k : Z) : exn F + DocM (option Z) :=
  check_dependencies [U "web_search_manager"]
    (fun _ => doc_call (CreateWebCollection user_id prompt k)
                (fun h => web_collection o h user_id prompt k))
    self.

(** [delete_collection], its body one call. *)
Definition delete_collection (o : SearchOracle) (self : DM)
    (user_id collection_id : Z) : exn F + DocM unit :=
  check_dependencies [U "vector_store"]
    (fun _ => doc_call (DeleteCollection user_id collection_id)
                (fun h => match delete_raises o h user_id collection_id with
                          | Some e => inl e
                          | None => inr tt
                          end))
    self.

(** The truth value of an optional int. *)
Definition id_truthy (i : option Z) : bool :=
  match i with
  | Some z => negb (z =? 0)%Z
  | None => false
  end.

(** The loop that checks that the collections exist. *)
Fixpoint check_collections (o : SearchOracle) (user_id : Z) (collection_ids : list Z)
  : DocM unit :=
  match collection_ids with
  | [] => doc_ret tt
  | collection_id :: rest =>
      doc_bind (doc_call (SelectCollection collection_id user_id)
                  (fun h => select_collection o h collection_id user_id))
        (fun found =>
           if found then check_collections o user_id rest
           else doc_raise
                  (CollectionNotFoundException
                     (Some (U "Collection " ++ str_of_int collection_id
                            ++ U " not found."))))
  end.

(** [search_chunks] from the check of the collections on; [collection_ids]
    is the list after the web collection was appended to it. *)
Definition search_collections (o : SearchOracle) (self : DM)
    (collection_ids : list Z) (user_id : Z) (prompt : str) (method : SearchMethod)
    (k rff_k : Z) (score_threshold : F) (web_collection_id : option Z)
  : DocM (list Search) :=
  doc_bind (check_collections o user_id collection_ids) (fun _ =>
  match collection_ids with
  | [] => doc_ret []
  | _ :: _ =>
  doc_bind (doc_call (CreateEmbeddings [prompt])
              (fun h => embeddings o h [prompt])) (fun response =>
  match response with
  | [] => doc_raise (Raised (PyError (U "IndexError")))
  | query_vector :: _ =>
  doc_bind (if is_multiagent method then
              match vector_store self with
              | Some vs => doc_ret (default_method vs, (k * 4)%Z)
              | None => doc_raise (Raised (PyError (U "AttributeError")))
              end
            else doc_ret (method, k)) (fun mk =>
  doc_bind (match vector_store self with
            | Some _ =>
                doc_call (VectorSearch (fst mk) collection_ids prompt query_vector
                            (snd mk) rff_k score_threshold)
                  (fun h => vector_search o h (fst mk) collection_ids prompt
                              query_vector (snd mk) rff_k score_threshold)
            | None => doc_raise (Raised (PyError (U "AttributeError")))
            end) (fun searches =>
  doc_bind (if is_multiagent method then
              match multi_agent_manager self with
              | None => doc_raise MultiAgentSearchNotAvailableException
              | Some _ =>
                  doc_call (AgentSearch searches prompt)
                    (fun h => agent_search o h searches prompt)
              end
            else doc_ret searches) (fun searches' =>
  doc_bind (match web_collection_id with
            | Some wid =>
                if id_truthy web_collection_id
                then await_checked (delete_collection o self user_id wid)
                else doc_ret tt
            | None => doc_ret tt
            end) (fun _ =>
  doc_ret searches'))))
  end)
  end).

(** [search_chunks].  The list given as [collection_ids] is the caller's
    object, and the web collection is appended to it in place: the result
    holds, between the outcome and the calls, the list as the call leaves
    it. *)
Definition search_chunks (o : SearchOracle) (self : DM)
    (collection_ids : list Z) (user_id : Z) (prompt : str) (method : SearchMethod)
    (k rff_k : Z) (score_threshold : F) (web_search : bool) (web_search_k : Z)
  : exn F + (list SearchCall -> (DocExn + list Search) * list Z * list SearchCall) :=
  check_dependencies [U "vector_store"]
    (fun self h =>
       match (if web_search
              then await_checked
                     (_create_web_collection o self user_id prompt web_search_k) h
              else (inr None, h)) with
       | (inl e, h0) => (inl e, collection_ids, h0)
       | (inr web_collection_id, h0) =>
           let collection_ids' :=
             match web_collection_id with
             | Some wid =>
                 if id_truthy web_collection_id then collection_ids ++ [wid]
                 else collection_ids
             | None => collection_ids
             end in
           match search_collections o self collection_ids' user_id prompt method
                   k rff_k score_threshold web_collection_id h0 with
           | (r, h1) => (r, collection_ids', h1)
           end
       end)
    self.

End DocumentSearch.

Arguments DocExn : clear implicits.
Arguments SearchCall : clear implicits.
Arguments SearchOracle : clear implicits.

(** ** The model registry ([app/helpers/models/_modelregistry.py]) *)

(** A Python dict with string keys: lookup, and assignment to a key, which
    keeps the place of a key that is there and puts a new key last. *)
Fixpoint assoc_get {A : Type} (k : str) (d : list (str * A)) : option A :=
  match d with
  | [] => None
  | (k', v) :: r => if str_eqb k k' then Some v else assoc_get k r
  end.

Fixpoint assoc_set {A : Type} (k : str) (v : A) (d : list (str * A)) : list (str * A) :=
  match d with
  | [] => [(k, v)]
  | (k', v') :: r =>
      if str_eqb k k' then (k, v) :: r else (k', v') :: assoc_set k v r
  end.

Section Registry.
Context {F : Type} {FO : PyFloat F}.

(** A router, as far as the registry reads it: the name its instance
    dict holds, if it holds one; its aliases; and the attributes the
    schema copies (type, max_context_length, owned_by, created and the two
    costs). *)
Context {RouterInfo : Type}.

Record ModelRouter : Type := {
  router_name : option str;
  router_aliases : list str;
  router_info : RouterInfo
}.

(** [ModelSchema(id=..., type=..., ..., aliases=..., costs=...)]: the
    constructor of a class outside this source; it may refuse its
    arguments. *)
Context {ModelSchema : Type}.
Variable ModelSchema_new : str -> RouterInfo -> list str -> exn F + ModelSchema.

(** What the instance dict of a registry holds under a name: the list
    [models], the dict [aliases], or a router. *)
Inductive attr : Type :=
| AList (l : list str)
| ADict (d : list (str * str))
| ARouter (r : ModelRouter).

(** The registry is its instance dict: [__init__] stores each router in
    it under the router's name, beside [models] and [aliases]. *)
Definition ModelRegistry : Type := list (str * attr).

(** A router stored under "models", "aliases", "__call__" or "list" takes
    the place of the attribute of that name, the two methods being looked
    up on the instance first; what the next use of the attribute does is
    up to the router class, and is the outcome [ShadowedAttribute] here. *)
Inductive RegistryExn : Type :=
| ModelNotFoundException
| ShadowedAttribute (name : str)
| RegistryRaised (e : exn F).

(** [self.models] and [self.aliases] *)
Definition self_models (self : ModelRegistry) : RegistryExn + list str :=
  match assoc_get (U "models") self with
  | Some (AList l) => inr l
  | _ => inl (ShadowedAttribute (U "models"))
  end.

Definition self_aliases (self : ModelRegistry) : RegistryExn + list (str * str) :=
  match assoc_get (U "aliases") self with
  | Some (ADict d) => inr d
  | _ => inl (ShadowedAttribute (U "aliases"))
  end.

(** [self.aliases[alias] = name] *)
Definition add_alias (name : str) (acc : RegistryExn + ModelRegistry) (alias : str)
  : RegistryExn + ModelRegistry :=
  match acc with
  | inl e => inl e
  | inr self =>
      match self_aliases self with
      | inl e => inl e
      | inr d => inr (assoc_set (U "aliases") (ADict (assoc_set alias name d)) self)
      end
  end.

(** One round of the loop of [__init__]. *)
Definition register (acc : RegistryExn + ModelRegistry) (model : ModelRouter)
  : RegistryExn + ModelRegistry :=
  match acc with
  | inl e => inl e
  | inr self =>
      match router_name model with
      | None => inr self
      | Some name =>
          let self1 := assoc_set name (ARouter model) self in
          match self_models self1 with
          | inl e => inl e
          | inr l =>
              let self2 := assoc_set (U "models") (AList (l ++ [name])) self1 in
              fold_left (add_alias name) (router_aliases model) (inr self2)
          end
      end
  end.

(** [ModelRegistry(routers)] *)
Definition ModelRegistry_init (routers : list ModelRouter)
  : RegistryExn + ModelRegistry :=
  fold_left register routers
    (inr [(U "models", AList []); (U "aliases", ADict [])]).

(** [__call__] *)
Definition ModelRegistry_call (self : ModelRegistry) (model : str)
  : RegistryExn + attr :=
  match self_aliases self with
  | inl e => inl e
  | inr d =>
      let model' := match assoc_get model d with
                    | Some name => name
                    | None => model
                    end in
      match self_models self with
      | inl e => inl e
      | inr l =>
          if existsb (str_eqb model') l then
            match assoc_get model' self with
            | Some v => inr v
            | None => inl (RegistryRaised (PyError (U "KeyError")))
            end
          else inl ModelNotFoundException
      end
  end.

(** The schema of what a lookup returned. *)
Definition schema_of (v : attr) : RegistryExn + ModelSchema :=
  match v with
  | ARouter r =>
      match router_name r with
      | Some name =>
          match ModelSchema_new name (router_info r) (router_aliases r) with
          | inl e => inl (RegistryRaised e)
          | inr s => inr s
          end
      | None => inl (RegistryRaised (PyError (U "AttributeError")))
      end
  | _ => inl (RegistryRaised (PyError (U "AttributeError")))
  end.

(** The loop of [list]. *)
Fixpoint list_loop (self : ModelRegistry) (models : list str)
  : RegistryExn + list ModelSchema :=
  match models with
  | [] => inr []
  | model :: rest =>
      match assoc_get (U "__call__") self with
      | Some _ => inl (ShadowedAttribute (U "__call__"))
      | None =>
          match ModelRegistry_call self model with
          | inl e => inl e
          | inr v =>
              match schema_of v with
              | inl e => inl e
              | inr s =>
                  match list_loop self rest with
                  | inl e => inl e
                  | inr data => inr (s :: data)
                  end
              end
          end
      end
  end.

(** [list], reached as [registry.list]. *)
Definition ModelRegistry_list (self : ModelRegistry) (model : option str)
  : RegistryExn + list ModelSchema :=
  match assoc_get (U "list") self with
  | Some _ => inl (ShadowedAttribute (U "list"))
  | None =>
      match model with
      | Some (c :: s) => list_loop self [c :: s]
      | _ =>
          match self_models self with
          | inl e => inl e
          | inr l => list_loop self l
          end
      end
  end.

(** *** What a list of routers registers

    The names registered, in order; the router a name stands for, the
    last one registered under it; and the name an alias stands for, that
    of the last named router that lists it. *)
Definition registered (routers : list ModelRouter) : list str :=
  flat_map (fun r => match router_name r with Some n => [n] | None => [] end)
           routers.

Definition has_name (n : str) (r : ModelRouter) : bool :=
  match router_name r with
  | Some m => str_eqb n m
  | None => false
  end.

Definition has_alias (x : str) (r : ModelRouter) : bool :=
  match router_name r with
  | Some _ => existsb (str_eqb x) (router_aliases r)
  | None => false
  end.

Definition router_named (routers : list ModelRouter) (n : str) : option ModelRouter :=
  find (has_name n) (rev routers).

Definition alias_target (routers : list ModelRouter) (x : str) : option str :=
  match find (has_alias x) (rev routers) with
  | Some r => router_name r
  | None => None
  end.

(** No router bears one of the reserved names. *)
Definition names_free (reserved : list str) (routers : list ModelRouter) : Prop :=
  forall r n, In r routers -> router_name r = Some n -> ~ In n reserved.

End Registry.

Arguments ModelRouter : clear implicits.
Arguments attr : clear implicits.
Arguments ModelRegistry : clear implicits.
Arguments RegistryExn : clear implicits.

(** ** A small concrete environment

    Rationals stand for floats, and the codecs cover a fragment: ASCII
    text; JSON documents built from [null], [true], [false], integers,
    strings without escapes, arrays and objects; Python literals of the
    same shape, and set displays of scalars.  On that fragment the functions below return what the
    library functions return; the examples stay inside it. *)

Module PyMini.

Definition LF : string := String (ascii_of_nat 10) EmptyString.

(** *** Rationals as floats *)

Definition round_half_even (q : Q) : Z :=
  let f := Qfloor q in
  match Qcompare (q - inject_Z f) (1 # 2) with
  | Lt => f
  | Gt => (f + 1)%Z
  | Eq => if Z.even f then f else (f + 1)%Z
  end.

Definition Q_round (x : Q) (n : Z) : Q :=
  let s := Qpower (10 # 1) n in
  Qred (inject_Z (round_half_even (x * s)) / s).

Definition Q_int (x : Q) : Z := Z.quot (Qnum x) (Zpos (Qden x)).

#[export] Instance PyFloat_Q : PyFloat Q := {|
  f_zero := 0;
  f_add := fun x y => Qred (x + y);
  f_sub := fun x y => Qred (x - y);
  f_mul := fun x y => Qred (x * y);
  f_mul_int := fun x n => Qred (x * inject_Z n);
  int_truediv := fun m n => Qred (inject_Z m / inject_Z n);
  py_round := Q_round;
  f_int := Q_int;
  f_le := Qle
|}.

(** *** Text *)

Fixpoint ascii_decode (b : bytes) : option str :=
  match b with
  | EmptyString => Some []
  | String c r =>
      if (N_of_ascii c <? 128)%N
      then option_map (cons (N_of_ascii c)) (ascii_decode r)
      else None
  end.

Fixpoint ascii_encode (s : str) : bytes :=
  match s with
  | [] => EmptyString
  | c :: r => String (ascii_of_N c) (ascii_encode r)
  end.

Fixpoint digits (fuel : nat) (n : N) (acc : str) : str :=
  match fuel with
  | O => acc
  | S fuel' =>
      let acc' := (48 + n mod 10)%N :: acc in
      if (n / 10 =? 0)%N then acc' else digits fuel' (n / 10)%N acc'
  end.

Definition str_of_N (n : N) : str := digits (S (N.to_nat (N.log2 n))) n [].

Definition str_of_Z (z : Z) : str :=
  if (z <? 0)%Z then 45%N :: str_of_N (Z.to_N (- z)) else str_of_N (Z.to_N z).

(** The decimal digits of a fraction in [0, 1), at least one and at most
    [fuel]. *)
Fixpoint frac_digits (fuel : nat) (q : Q) : str :=
  match fuel with
  | O => []
  | S fuel' =>
      let d := Qfloor (q * 10) in
      let r := Qred (q * 10 - inject_Z d) in
      (48 + Z.to_N d)%N ::
        (if Qeq_bool r 0 then [] else frac_digits fuel' r)
  end.

(** [repr] of a float whose decimal expansion is short and which [repr]
    writes without an exponent (magnitudes from 1e-4 up to 1e16, and
    zero). *)
Definition repr_Q (q : Q) : str :=
  let a := Qabs q in
  let i := Qfloor a in
  (if Qlt_le_dec q 0 then [45%N] else [])
    ++ str_of_N (Z.to_N i) ++ [46%N] ++ frac_digits 17 (Qred (a - inject_Z i)).

(** *** Serialising *)

Definition hex_digit (n : N) : codepoint :=
  if (n <? 10)%N then (48 + n)%N else (87 + n)%N.

Definition escape_char (c : codepoint) : str :=
  if (c =? 34)%N then [92; 34]%N
  else if (c =? 92)%N then U "\\"
  else if (c =? 10)%N then U "\n"
  else if (c =? 13)%N then U "\r"
  else if (c =? 9)%N then U "\t"
  else if (c =? 8)%N then U "\b"
  else if (c =? 12)%N then U "\f"
  else if ((32 <=? c) && (c <=? 126))%N then [c]
  else U "\u" ++ [hex_digit (c / 4096 mod 16); hex_digit (c / 256 mod 16);
                  hex_digit (c / 16 mod 16); hex_digit (c mod 16)]%N.

Definition quote (s : str) : str :=
  [34%N] ++ flat_map escape_char s ++ [34%N].

Fixpoint json_dumps (j : json Q) : str :=
  match j with
  | JNull => U "null"
  | JBool true => U "true"
  | JBool false => U "false"
  | JInt z => str_of_Z z
  | JFloat f => repr_Q f
  | JStr s => quote s
  | JList l => U "[" ++ join (U ", ") (map json_dumps l) ++ U "]"
  | JDict d =>
      U "{" ++ join (U ", ")
                 (map (fun kv => quote (fst kv) ++ U ": " ++ json_dumps (snd kv)) d)
        ++ U "}"
  end.

(** *** Parsing *)

Definition is_ws (c : codepoint) : bool :=
  ((c =? 32) || (c =? 9) || (c =? 10) || (c =? 13))%N.

Fixpoint skip_ws (s : str) : str :=
  match s with
  | c :: r => if is_ws c then skip_ws r else s
  | [] => []
  end.

(** The characters of a string up to the closing quote [q]; a backslash
    or a control character is outside the fragment. *)
Fixpoint parse_string (q : codepoint) (s acc : str) : option (str * str) :=
  match s with
  | [] => None
  | c :: r =>
      if (c =? q)%N then Some (rev acc, r)
      else if ((c =? 92) || (c <? 32))%N then None
      else parse_string q r (c :: acc)
  end.

Definition is_digit (c : codepoint) : bool := ((48 <=? c) && (c <=? 57))%N.

Fixpoint parse_digits (s : str) (acc : N) : N * str :=
  match s with
  | c :: r => if is_digit c then parse_digits r (10 * acc + (c - 48))%N else (acc, s)
  | [] => (acc, [])
  end.

(** An integer literal: no leading zero, and no fraction or exponent
    after it. *)
Definition parse_int (s : str) : option (Z * str) :=
  let '(neg, s1) := match s with
                    | 45%N :: r => (true, r)
                    | _ => (false, s)
                    end in
  match s1 with
  | c :: r =>
      if is_digit c then
        let '(n, rest) := if (c =? 48)%N then (0%N, r) else parse_digits s1 0%N in
        match rest with
        | d :: _ =>
            if is_digit d || (d =? 46)%N || (d =? 101)%N || (d =? 69)%N then None
            else Some (if neg then (- Z.of_N n)%Z else Z.of_N n, rest)
        | [] => Some (if neg then (- Z.of_N n)%Z else Z.of_N n, rest)
        end
      else None
  | [] => None
  end.

Definition keyword (py : bool) (s : str) : option (json Q * str) :=
  let kw (k : string) (v : json Q) :=
    if startswith s (U k) then Some (v, skipn (String.length k) s) else None in
  let first (a b : option (json Q * str)) :=
    match a with Some _ => a | None => b end in
  if py
  then first (kw "None"%string JNull)
         (first (kw "True"%string (JBool true)) (kw "False"%string (JBool false)))
  else first (kw "null"%string JNull)
         (first (kw "true"%string (JBool true)) (kw "false"%string (JBool false))).

(** A value, then the rest of the text.  [py] selects the spelling of
    Python literals (either quote, capitalised keywords) over that of
    JSON. *)
Fixpoint parse_value (py : bool) (fuel : nat) (s : str) : option (json Q * str) :=
  match fuel with
  | O => None
  | S fuel' =>
      match skip_ws s with
      | [] => None
      | c :: r =>
          if (c =? 34)%N || (py && (c =? 39)%N) then
            match parse_string c r [] with
            | Some (x, r') => Some (JStr x, r')
            | None => None
            end
          else if (c =? 91)%N then
            match skip_ws r with
            | 93%N :: r' => Some (JList [], r')
            | _ => parse_elems py fuel' r []
            end
          else if (c =? 123)%N then
            match skip_ws r with
            | 125%N :: r' => Some (JDict [], r')
            | _ => parse_members py fuel' r []
            end
          else
            match keyword py (c :: r) with
            | Some res => Some res
            | None =>
                match parse_int (c :: r) with
                | Some (z, r') => Some (JInt z, r')
                | None => None
                end
            end
      end
  end
with parse_elems (py : bool) (fuel : nat) (s : str) (acc : list (json Q))
  : option (json Q * str) :=
  match fuel with
  | O => None
  | S fuel' =>
      match parse_value py fuel' s with
      | None => None
      | Some (v, r) =>
          match skip_ws r with
          | 44%N :: r' => parse_elems py fuel' r' (v :: acc)
          | 93%N :: r' => Some (JList (rev (v :: acc)), r')
          | _ => None
          end
      end
  end
with parse_members (py : bool) (fuel : nat) (s : str) (acc : pydict Q)
  : option (json Q * str) :=
  match fuel with
  | O => None
  | S fuel' =>
      match skip_ws s with
      | c :: r =>
          if (c =? 34)%N || (py && (c =? 39)%N) then
            match parse_string c r [] with
            | None => None
            | Some (k, r1) =>
                match skip_ws r1 with
                | 58%N :: r2 =>
                    match parse_value py fuel' r2 with
                    | None => None
                    | Some (v, r3) =>
                        match skip_ws r3 with
                        | 44%N :: r4 => parse_members py fuel' r4 (dict_set k v acc)
                        | 125%N :: r4 => Some (JDict (dict_set k v acc), r4)
                        | _ => None
                        end
                    end
                | _ => None
                end
            end
          else None
      | [] => None
      end
  end.

Definition parse_document (py : bool) (s : str) : option (json Q) :=
  match parse_value py (2 * length s + 2) s with
  | Some (v, r) => match skip_ws r with [] => Some v | _ => None end
  | None => None
  end.

Definition json_loads : str -> option (json Q) := parse_document false.

(** A set display, braces around one or more values that are no list and
    no dict: its elements.  The values are read as the elements of the
    list display with the same text inside. *)
Definition py_set_display (s : str) : option (list (json Q)) :=
  match skip_ws s with
  | 123%N :: r =>
      match skip_ws (rev r) with
      | 125%N :: inner =>
          match parse_document true ([91%N] ++ rev inner ++ [93%N]) with
          | Some (JList (x :: l)) =>
              if forallb (fun v => match v with
                                   | JList _ | JDict _ => false
                                   | _ => true
                                   end) (x :: l)
              then Some (x :: l)
              else None
          | _ => None
          end
      | _ => None
      end
  | _ => None
  end.

(** A set stands as the list of its elements. *)
Definition py_literal_eval (s : str) : option (json Q) :=
  match parse_document true s with
  | Some j => Some j
  | None => option_map JList (py_set_display s)
  end.

Definition py_dumps_refuses (s : str) : bool :=
  match parse_document true s, py_set_display s with
  | None, Some _ => true
  | _, _ => false
  end.

(** *** The rest of the environment *)

Definition dump_bound (b : option Q) : json Q :=
  match b with Some q => JFloat q | None => JNull end.

Definition dump_bounds (b : Bounds Q) : json Q :=
  JDict [(U "min", dump_bound (min_ b)); (U "max", dump_bound (max_ b))].

Fixpoint dump_usage (u : Usage Q) : json Q :=
  match u with
  | Build_Usage p c t co ca ds =>
      JDict [ (U "prompt_tokens", JInt p);
              (U "completion_tokens", JInt c);
              (U "total_tokens", JInt t);
              (U "cost", JFloat co);
              (U "carbon", JDict [ (U "kWh", dump_bounds (kWh ca));
                                   (U "kgCO2eq", dump_bounds (kgCO2eq ca)) ]);
              (U "details", JList (map dump_detail ds)) ]
  end
with dump_detail (d : Detail Q) : json Q :=
  match d with
  | Build_Detail i m u =>
      JDict [ (U "id", JStr i); (U "model", JStr m); (U "usage", dump_usage u) ]
  end.

Definition json_response (r : HttpResponse) : exn Q + json Q :=
  match ascii_decode (content r) with
  | None => inl (PyError (U "UnicodeDecodeError"))
  | Some s => match json_loads s with
              | Some j => inr j
              | None => inl (PyError (U "JSONDecodeError"))
              end
  end.

(** A carbon estimate that knows the energy bounds and, only when the
    zone is known, the emission bounds. *)
Definition carbon_estimate (active total : option Z) (zone : str)
    (token_count : Z) (latency : Q) : exn Q + CarbonFootprintUsage Q :=
  inr {| kWh := {| min_ := Some (Qred (inject_Z token_count / 1000));
                   max_ := Some (Qred (inject_Z token_count / 500)) |};
         kgCO2eq :=
           match zone with
           | [] => {| min_ := None; max_ := None |}
           | _ => {| min_ := Some (Qred (inject_Z token_count / 4000));
                     max_ := Some (Qred (inject_Z token_count / 2000)) |}
           end |}.

Definition count_items (j : json Q) : Z :=
  match j with
  | JList l => Z.of_nat (length l)
  | _ => 1
  end.

Definition env : Env Q := {|
  utf8_decode := ascii_decode;
  utf8_encode := ascii_encode;
  loads := json_loads;
  dumps := json_dumps;
  literal_eval := py_literal_eval;
  dumps_refuses := py_dumps_refuses;
  urljoin_nonempty := fun base url => base ++ url;
  response_text := fun r => match ascii_decode (content r) with
                            | Some s => s
                            | None => []
                            end;
  response_json := json_response;
  Response_headers := fun s => [(U "Content-Length", str_of_N (N.of_nat (length s)))];
  USAGE_COMPLETION_ENDPOINTS :=
    [(ENDPOINT__CHAT_COMPLETIONS, true); (ENDPOINT__EMBEDDINGS, false)];
  get_prompt_tokens := fun _ body =>
    inr (match body with Some d => 4 * Z.of_nat (length d) | None => 0 end)%Z;
  get_completion_tokens := fun _ data _ => inr (3 * count_items data)%Z;
  get_carbon_footprint := carbon_estimate;
  generate_request_id := fun n => U "request-" ++ str_of_N (N.of_nat n);
  perf_counter := fun n => inject_Z (Z.of_nat n);
  datetime_now := fun n => (1700000000 + Z.of_nat n)%Z;
  model_dump := dump_usage
|}.

(** The same environment with a tokenizer that raises. *)
Definition env_failing_tokenizer : Env Q := {|
  utf8_decode := utf8_decode env;
  utf8_encode := utf8_encode env;
  loads := json_loads;
  dumps := json_dumps;
  literal_eval := py_literal_eval;
  dumps_refuses := py_dumps_refuses;
  urljoin_nonempty := urljoin_nonempty env;
  response_text := response_text env;
  response_json := response_json env;
  Response_headers := Response_headers env;
  USAGE_COMPLETION_ENDPOINTS := USAGE_COMPLETION_ENDPOINTS env;
  get_prompt_tokens := fun _ _ => inl (PyError (U "ValueError"));
  get_completion_tokens := get_completion_tokens env;
  get_carbon_footprint := get_carbon_footprint env;
  generate_request_id := generate_request_id env;
  perf_counter := perf_counter env;
  datetime_now := datetime_now env;
  model_dump := model_dump env
|}.

(** A client of the base class, and one whose table has a path for chat
    completions. *)
Definition base_client : Client Q := {|
  self_model := U "backend-name";
  costs := {| costs_prompt_tokens := 250000; costs_completion_tokens := 500000 |};
  self_carbon := {| active_params := None; total_params := None; model_zone := [] |};
  api_url := U "http://model:8000/";
  api_key := U "secret";
  timeout := 30;
  ENDPOINT_TABLE := BaseModelClient_ENDPOINT_TABLE;
  endpoint := ENDPOINT__CHAT_COMPLETIONS
|}.

Definition chat_client : Client Q := {|
  self_model := U "backend-name";
  costs := {| costs_prompt_tokens := 250000; costs_completion_tokens := 500000 |};
  self_carbon := {| active_params := None; total_params := None; model_zone := [] |};
  api_url := U "http://model:8000/";
  api_key := U "secret";
  timeout := 30;
  ENDPOINT_TABLE := [(ENDPOINT__CHAT_COMPLETIONS, Some (U "v1/chat/completions"));
                     (ENDPOINT__EMBEDDINGS, Some (U "v1/embeddings"));
                     (ENDPOINT__OCR, None)];
  endpoint := ENDPOINT__CHAT_COMPLETIONS
|}.

(** A world at the entry of a request: a context with a fresh
    accumulator. *)
Definition world0 : World Q := {|
  clock := 0;
  ids := 0;
  request_context := Some {| ctx_id := U "req-1"; ctx_usage := Usage_new |};
  tasks := []
|}.

(** *** Example data *)

(** Text with each apostrophe turned into a double quote. *)
Fixpoint dq (s : string) : string :=
  match s with
  | EmptyString => EmptyString
  | String c r => String (if Ascii.eqb c "'"%char then ascii_of_nat 34 else c) (dq r)
  end.

Definition body0 : pydict Q :=
  [(U "model", JStr (U "caller-name")); (U "messages", JList [])].

Definition chunk_a : bytes :=
  (dq "data: {'id': 'abc', 'choices': [{'delta': {'content': 'hi'}}]}"
   ++ LF ++ LF)%string.

Definition chunk_z : bytes :=
  (dq "data: {'id': 'abc', 'choices': [{'delta': {'content': '!'}}]}"
   ++ LF ++ LF ++ "data: [DONE]" ++ LF ++ LF)%string.

Definition chunk_list_event : bytes :=
  ("data: [1]" ++ LF ++ LF ++ "data: [DONE]")%string.

Definition chunk_done_only : bytes := "data: [DONE]"%string.



(** The local variables of a stream before its first chunk, and the world
    once the start time was read at clock 0. *)
Definition st0 : StreamState Q := {| buffer := []; first_token_time := None |}.

Definition world1 : World Q := {|
  clock := 1;
  ids := 0;
  request_context := request_context world0;
  tasks := []
|}.

(** A transport that answers every streamed call the same way. *)
Definition stream_of (status : Z) (chunks : list bytes) (tail : option (exn Q))
  : Request Q -> StreamTransport Q :=
  fun _ => Streams status chunks tail.

(** A transport that answers 200 with the URL it was called with as plain
    text, and one that times out. *)
Definition net_echo (r : Request Q) : exn Q + HttpResponse :=
  match req_url r with
  | Some u => inr {| status_code := 200;
                     headers := [(U "content-type", U "text/plain")];
                     content := ascii_encode u |}
  | None => inl (PyError (U "TypeError"))
  end.

Definition net_timeout (k : TimeoutKind) (r : Request Q) : exn Q + HttpResponse :=
  inl (HttpxTimeout k).

Definition response_charset : HttpResponse := {|
  status_code := 200;
  headers := [(U "Content-Type", U "application/json; charset=utf-8")];
  content := dq "{'id': 'abc'}"
|}.

Definition response_json_exact : HttpResponse := {|
  status_code := 200;
  headers := [(U "content-type", U "application/json")];
  content := dq "{'id': 'abc'}"
|}.

(** Two details: the first knows the energy bounds only, the second
    knows none. *)
Definition detail_1 : Detail Q :=
  Build_Detail (U "a") (U "backend-name")
    (Build_Usage 4 6 10 4
       {| kWh := {| min_ := Some (1 # 100); max_ := Some (1 # 50) |};
          kgCO2eq := {| min_ := None; max_ := None |} |} []).

Definition detail_2 : Detail Q :=
  Build_Detail (U "b") (U "backend-name")
    (Build_Usage 4 0 4 1
       {| kWh := {| min_ := None; max_ := None |};
          kgCO2eq := {| min_ := None; max_ := None |} |} []).

(** A detail whose lower energy bound is negative, and an environment
    whose estimator answers with that estimate. *)
Definition detail_3 : Detail Q :=
  Build_Detail (U "abc") (U "backend-name")
    (Build_Usage 8 3 11 (7 # 2)
       {| kWh := {| min_ := Some (- (1 # 200)); max_ := Some (1 # 50) |};
          kgCO2eq := {| min_ := None; max_ := None |} |} []).

Definition env_negative_estimate : Env Q := {|
  utf8_decode := utf8_decode env;
  utf8_encode := utf8_encode env;
  loads := json_loads;
  dumps := json_dumps;
  literal_eval := py_literal_eval;
  dumps_refuses := py_dumps_refuses;
  urljoin_nonempty := urljoin_nonempty env;
  response_text := response_text env;
  response_json := response_json env;
  Response_headers := Response_headers env;
  USAGE_COMPLETION_ENDPOINTS := USAGE_COMPLETION_ENDPOINTS env;
  get_prompt_tokens := get_prompt_tokens env;
  get_completion_tokens := get_completion_tokens env;
  get_carbon_footprint := fun _ _ _ _ _ => inr (carbon (usage detail_3));
  generate_request_id := generate_request_id env;
  perf_counter := perf_counter env;
  datetime_now := datetime_now env;
  model_dump := model_dump env
|}.

(** A unary response body, the event [chunk_z] carries, and a response
    without a Content-Type header. *)
Definition data0 : json Q := JDict [(U "id", JStr (U "abc"))].

Definition event_z : pydict Q :=
  [ (U "id", JStr (U "abc"));
    (U "choices",
     JList [JDict [(U "delta", JDict [(U "content", JStr (U "!"))])]]) ].

Definition response_no_header : HttpResponse := {|
  status_code := 200;
  headers := [];
  content := dq "{'id': 'abc'}"
|}.

(** *** More example data *)

(** Text with each backquote turned into a double quote, for JSON text
    that holds apostrophes. *)
Fixpoint bq (s : string) : string :=
  match s with
  | EmptyString => EmptyString
  | String c r => String (if Ascii.eqb c "`"%char then ascii_of_nat 34 else c) (bq r)
  end.

(** What [_format_request] makes of [body0] for [chat_client]. *)
Definition url0 : str := U "http://model:8000/v1/chat/completions".

Definition headers0 : Headers := [(U "Authorization", U "Bearer secret")].

Definition body1 : pydict Q :=
  [(U "model", JStr (U "backend-name")); (U "messages", JList [])].

(** A transport that answers every unary call the same way. *)
Definition net_of (r : exn Q + HttpResponse) : Request Q -> exn Q + HttpResponse :=
  fun _ => r.

(** An error body whose message is the text of a Python dict, as a chunk
    and as a 429 response. *)
Definition chunk_error_literal : bytes :=
  bq "{`message`: `{'error': 'rate limited'}`, `code`: 429}".



Definition response_429 : HttpResponse := {|
  status_code := 429;
  headers := [(U "content-type", U "application/json")];
  content := chunk_error_literal
|}.

(** Clients of the same backend for an endpoint missing from the table,
    and for embeddings. *)
Definition rerank_client : Client Q := {|
  self_model := self_model chat_client;
  costs := costs chat_client;
  self_carbon := self_carbon chat_client;
  api_url := api_url chat_client;
  api_key := api_key chat_client;
  timeout := timeout chat_client;
  ENDPOINT_TABLE := ENDPOINT_TABLE chat_client;
  endpoint := ENDPOINT__RERANK
|}.

Definition embeddings_client : Client Q := {|
  self_model := self_model chat_client;
  costs := costs chat_client;
  self_carbon := self_carbon chat_client;
  api_url := api_url chat_client;
  api_key := api_key chat_client;
  timeout := timeout chat_client;
  ENDPOINT_TABLE := ENDPOINT_TABLE chat_client;
  endpoint := ENDPOINT__EMBEDDINGS
|}.

(** A stream state whose first-token time is set. *)
Definition st_started : StreamState Q :=
  {| buffer := [chunk_a]; first_token_time := Some 5 |}.

(** The metric of a stream. *)
Definition metric_stream : Metric := {|
  timestamp := 1700000003;
  model_name := U "backend-name";
  metric_api_url := U "http://model:8000/";
  latency_ms := Some 3000%Z;
  time_to_first_token_us := Some 1000000%Z
|}.

(** Stores: one that accepts every call, one that keeps its series
    (creating a key twice is refused), one that is down. *)
Definition redis_up : Redis := fun _ _ => None.

Definition redis_store : Redis :=
  fun h c =>
    match c with
    | TsCreate k _ =>
        if existsb (fun c' => match c' with
                              | TsCreate k' _ => str_eqb k k'
                              | _ => false
                              end) h
        then Some KEY_EXISTS else None
    | _ => None
    end.

Definition redis_down : Redis := fun _ _ => Some (U "Connection refused").

(** A store whose connection is lost but can be reset. *)
Definition redis_flaky : Redis :=
  fun _ c => match c with Reset => None | _ => Some (U "Connection lost") end.

(** A document manager without web search and without multi-agent
    search; its router is known by its name. *)
Definition manager0 : DocumentManager unit unit unit unit str := {|
  vector_store := Some tt;
  vector_store_model := U "embeddings-small";
  web_search_manager := None;
  parser_manager := Some tt;
  multi_agent_manager := None
|}.

Definition get_client0 (router : str) (e : Endpoint) : exn Q + Client Q :=
  inr embeddings_client.

Definition get_client_rerank (router : str) (e : Endpoint) : exn Q + Client Q :=
  inr rerank_client.

Definition get_client_none (router : str) (e : Endpoint) : exn Q + Client Q :=
  inl (HTTPException 404 (JStr (U "Model not found.")))%Z.

(** An embeddings answer, served as plain JSON text only to the request
    [_create_embeddings] is expected to send. *)
Definition response_embeddings : HttpResponse := {|
  status_code := 200;
  headers := [(U "content-type", U "text/plain")];
  content := dq "{'data': [{'embedding': [1, 2]}, {'embedding': [3, 4]}]}"
|}.

Definition net_embeddings (r : Request Q) : exn Q + HttpResponse :=
  match req_url r, req_json r with
  | Some u, Some b =>
      if str_eqb u (U "http://model:8000/v1/embeddings")
         && dict_mem (U "input") b
      then inr response_embeddings
      else inl (PyError (U "ConnectError"))
  | _, _ => inl (PyError (U "ConnectError"))
  end.

(** Chunks that are numbers, their content the decimal digits; a store
    that embeds a text as itself and accepts every batch, and one that
    refuses the second batch. *)
Definition content0 (n : nat) : str := str_of_N (N.of_nat n).

Definition store_ok : StoreOracle Q nat := {|
  embeddings_of := fun _ texts => inr (map JStr texts);
  upsert_raises := fun _ _ _ _ => None
|}.

Definition store_refuses_second : StoreOracle Q nat := {|
  embeddings_of := fun _ texts => inr (map JStr texts);
  upsert_raises := fun h _ _ _ =>
    if (3 <=? length h)%nat then Some (PyError (U "ConnectionError")) else None
|}.

(** The request context of [world0]. *)
Definition ctx0 : RequestContext Q :=
  {| ctx_id := U "req-1"; ctx_usage := Usage_new |}.

(** Searches whose methods are named by strings and whose results are
    numbers; a manager with every collaborator, and answers: collection
    13 does not exist, the web collection is 99, the store returns the
    ids it was asked for, the agents reverse what they get. *)
Definition is_multiagent0 (method : str) : bool := str_eqb method (U "multiagent").

Definition default_method0 (vs : unit) : str := U "semantic".

Definition manager_full : DocumentManager unit unit unit unit str := {|
  vector_store := Some tt;
  vector_store_model := U "embeddings-small";
  web_search_manager := Some tt;
  parser_manager := Some tt;
  multi_agent_manager := Some tt
|}.

Definition search_oracle0 : SearchOracle Q Z str := {|
  web_collection := fun _ _ _ _ => inr (Some 99%Z);
  select_collection := fun _ c _ => inr (negb (c =? 13)%Z);
  embeddings := fun _ texts => inr (map JStr texts);
  vector_search := fun _ _ ids _ _ _ _ _ => inr ids;
  agent_search := fun _ s _ => inr (rev s);
  delete_raises := fun _ _ _ => None
|}.

(** Three routers, the second without a client and so without a name;
    the third lists the name of the first among its aliases.  A schema
    is the triple of what its constructor is given. *)
Definition router_small : ModelRouter str := {|
  router_name := Some (U "small");
  router_aliases := [U "default"];
  router_info := U "text-generation"
|}.

Definition router_unnamed : ModelRouter str := {|
  router_name := None;
  router_aliases := [U "ghost"];
  router_info := U "text-generation"
|}.

Definition router_large : ModelRouter str := {|
  router_name := Some (U "large");
  router_aliases := [U "default"; U "small"];
  router_info := U "text-generation"
|}.

Definition routers0 : list (ModelRouter str) :=
  [router_small; router_unnamed; router_large].

(** A router that bears the name of a method of the registry. *)
Definition router_list : ModelRouter str := {|
  router_name := Some (U "list");
  router_aliases := [];
  router_info := U "text-generation"
|}.

Definition schema_triple (id info : str) (aliases : list str)
  : exn Q + (str * str * list str) :=
  inr (id, info, aliases).

(** A schema constructor that refuses a router with more than one
    alias. *)
Definition schema_one_alias (id info : str) (aliases : list str)
  : exn Q + (str * str * list str) :=
  match aliases with
  | _ :: _ :: _ => inl (PyError (U "ValidationError"))
  | _ => inr (id, info, aliases)
  end.

End PyMini.

(** * Properties *)

(** ** Strings and dicts *)

Lemma str_eqb_refl (s : str) : str_eqb s s = true.
Proof.
  induction s as [|c s IH]; simpl; [reflexivity|].
  now rewrite N.eqb_refl, IH.
Qed.

Lemma str_eqb_eq (a b : str) : str_eqb a b = true <-> a = b.
Proof.
  split.
  - revert b; induction a as [|x a IH]; intros [|y b] H; simpl in H;
      try discriminate; [reflexivity|].
    apply andb_true_iff in H as [Hx Hr].
    apply N.eqb_eq in Hx. apply IH in Hr. now subst.
  - intros ->. apply str_eqb_refl.
Qed.

Lemma str_eqb_neq (a b : str) : str_eqb a b = false <-> a <> b.
Proof.
  split.
  - intros H ->. rewrite str_eqb_refl in H. discriminate.
  - intros H. destruct (str_eqb a b) eqn:Eq; [|reflexivity].
    apply str_eqb_eq in Eq. contradiction.
Qed.

Section DictFacts.
Context {F : Type}.
Implicit Types (d : pydict F) (k : str) (v : json F).

Lemma dict_get_set_same k v d : dict_get k (dict_set k v d) = Some v.
Proof.
  induction d as [|[k' v'] d IH]; simpl.
  - now rewrite str_eqb_refl.
  - destruct (str_eqb k k') eqn:Ek; simpl; rewrite Ek; [reflexivity|exact IH].
Qed.

Lemma dict_get_set_other k k' v d :
  k' <> k -> dict_get k' (dict_set k v d) = dict_get k' d.
Proof.
  intros Hne. induction d as [|[k0 v0] d IH]; simpl.
  - apply str_eqb_neq in Hne. now rewrite Hne.
  - destruct (str_eqb k k0) eqn:Ek; simpl.
    + apply str_eqb_eq in Ek. subst k0.
      apply str_eqb_neq in Hne. now rewrite Hne.
    + now rewrite IH.
Qed.

Lemma dict_set_keys k v d :
  dict_mem k d = true -> map fst (dict_set k v d) = map fst d.
Proof.
  unfold dict_mem. induction d as [|[k0 v0] d IH]; simpl; [discriminate|].
  destruct (str_eqb k k0) eqn:Ek; simpl; [reflexivity|].
  intros H. now rewrite IH.
Qed.

Lemma dict_mem_nonempty k d : dict_mem k d = true -> truthy (Some d) = true.
Proof. destruct d; [discriminate|reflexivity]. Qed.

End DictFacts.

(** ** Request formatting *)

Section RequestFacts.
Context {F : Type} {FO : PyFloat F} (E : Env F).

(** C8.  When formatting succeeds, a body that has a "model" key leaves
    with that key set to the client's own model name, its other entries
    and the order of its keys untouched; a body without the key, and an
    absent body, leave as they came. *)
Theorem format_request_model_rewrite :
  forall (self : Client F) (body : option (pydict F)) files data
         url hdrs body' files' data',
    _format_request E self body files data = inr (url, hdrs, body', files', data') ->
    (forall d, body = Some d -> dict_mem (U "model") d = true ->
       exists d', body' = Some d'
         /\ dict_get (U "model") d' = Some (JStr (self_model self))
         /\ (forall k, k <> U "model" -> dict_get k d' = dict_get k d)
         /\ map fst d' = map fst d)
    /\ (forall d, body = Some d -> dict_mem (U "model") d = false -> body' = body)
    /\ (body = None -> body' = None).
Proof.
  intros self body files data url hdrs body' files' data' H.
  unfold _format_request in H.
  destruct (table_get (endpoint self) (ENDPOINT_TABLE self)) as [path|];
    [|discriminate].
  injection H as _ _ Hb _ _. subst body'.
  repeat split.
  - intros d -> Hm. exists (dict_set (U "model") (JStr (self_model self)) d).
    rewrite (dict_mem_nonempty _ _ Hm), Hm. simpl.
    repeat split.
    + apply dict_get_set_same.
    + intros k Hk. now apply dict_get_set_other.
    + now apply dict_set_keys.
  - intros d -> Hm. rewrite Hm, andb_false_r. reflexivity.
  - intros ->. reflexivity.
Qed.

(** C3, as the code has it.  For an endpoint whose table entry is null
    the formatter raises nothing: its URL is the base URL itself, or null
    when the base URL is empty, and the headers, files and form data are
    those of any other call. *)
Theorem format_request_null_entry :
  forall (self : Client F) (body : option (pydict F)) files data,
    table_get (endpoint self) (ENDPOINT_TABLE self) = Some None ->
    exists body',
      _format_request E self body files data =
        inr (match api_url self with [] => None | _ :: _ => Some (api_url self) end,
             [(U "Authorization", U "Bearer " ++ api_key self)],
             body', files, data).
Proof.
  intros self body files data H.
  unfold _format_request. rewrite H.
  eexists. unfold urljoin. destruct (api_url self); reflexivity.
Qed.

End RequestFacts.

(** ** Usage *)

(** Case analysis on the next scrutinee of a [match] in a hypothesis or
    in the goal. *)
Ltac split_match_in H :=
  match type of H with
  | context [match ?x with _ => _ end] => destruct x eqn:?
  end.

Ltac split_match :=
  match goal with
  | |- context [match ?x with _ => _ end] => destruct x eqn:?
  end.

Section UsageFacts.
Context {F : Type} {FO : PyFloat F} (E : Env F).

(** Reading the id of an item may draw a fresh request id; it leaves the
    request context alone. *)
Lemma get_id_context :
  forall (x : json F) (w : World F) r w',
    get_id E x w = (r, w') -> request_context w' = request_context w.
Proof.
  intros x w r w' H.
  unfold get_id, bind, new_request_id, ret, raise in H.
  destruct x; injection H as _ <-; reflexivity.
Qed.

(** What a successful run of the [try] block leaves: the accumulator with
    one more detail, whose usage was built from two token counts. *)
Lemma compute_usage_inr :
  forall (self : Client F) completion acc body data stream lat w acc' w',
    compute_usage E self completion acc body data stream lat w = (inr acc', w') ->
    exists did p c cb,
      acc' = accumulate acc
               (Build_Detail did (self_model self)
                  (Build_Usage p c (p + c) (detail_cost self p c) cb []))
      /\ request_context w' =
           option_map (fun x => {| ctx_id := ctx_id x; ctx_usage := acc' |})
                      (request_context w).
Proof.
  intros self completion acc body data stream lat w acc' w' H.
  unfold compute_usage, bind, lift, ret, set_usage in H.
  repeat (split_match_in H; try discriminate).
  injection H as <- <-.
  do 4 eexists. split; [reflexivity|].
  simpl.
  match goal with
  | Hg : get_id _ _ _ = _ |- _ => now rewrite (get_id_context _ _ _ _ Hg)
  end.
Qed.

(** A run of the [try] block that raises has not written the
    accumulator. *)
Lemma compute_usage_inl :
  forall (self : Client F) completion acc body data stream lat w e w',
    compute_usage E self completion acc body data stream lat w = (inl e, w') ->
    request_context w' = request_context w.
Proof.
  intros self completion acc body data stream lat w e w' H.
  unfold compute_usage, bind, lift, ret, set_usage in H.
  repeat (split_match_in H; try discriminate);
    try (injection H as _ <-);
    try reflexivity;
    match goal with
    | Hg : get_id _ _ _ = _ |- _ => now rewrite (get_id_context _ _ _ _ Hg)
    end.
Qed.

Lemma get_usage_total :
  forall (self : Client F) body data stream lat (w : World F),
    exists r w', _get_usage E self body data stream lat w = (inr r, w').
Proof.
  intros self body data stream lat w.
  unfold _get_usage, get_request_context, ret.
  repeat (split_match; eauto).
Qed.

(** C2, as the code has it.  [_get_usage] never raises.  It returns None
    when the endpoint is not usage-bearing or when fetching the
    accumulator raised; when a later statement of the computation raises,
    it returns the request's accumulator, which that run has not
    written. *)
Theorem get_usage_swallows_exceptions :
  forall (self : Client F) body data stream lat (w : World F),
    (exists r w', _get_usage E self body data stream lat w = (inr r, w'))
    /\ (forall completion ctx e w1,
          table_get (endpoint self) (USAGE_COMPLETION_ENDPOINTS E) = Some completion ->
          request_context w = Some ctx ->
          compute_usage E self completion (ctx_usage ctx) body data stream lat w
            = (inl e, w1) ->
          _get_usage E self body data stream lat w = (inr (Some (ctx_usage ctx)), w1)
          /\ request_context w1 = Some ctx)
    /\ (request_context w = None ->
        _get_usage E self body data stream lat w = (inr None, w)).
Proof.
  intros self body data stream lat w. split; [|split].
  - apply get_usage_total.
  - intros completion ctx e w1 Ht Hc Hr.
    pose proof Hr as Hk. apply compute_usage_inl in Hk.
    split; [|congruence].
    unfold _get_usage, get_request_context.
    rewrite Ht. cbv beta iota. rewrite Hc, Hr, Hk, Hc. reflexivity.
  - intros Hc. unfold _get_usage, get_request_context, ret.
    destruct (table_get _ _); [rewrite Hc|]; reflexivity.
Qed.

(** C6.  A detail the computation succeeds in adding has
    total = prompt + completion and the documented cost; the accumulator
    gains exactly that detail, each of its three counts grows by the
    detail's, and total = prompt + completion carries over from the
    accumulator before to the accumulator after. *)
Theorem detail_totals_and_cost :
  forall (self : Client F) completion acc body data stream lat w acc' w',
    compute_usage E self completion acc body data stream lat w = (inr acc', w') ->
    exists d,
      details acc' = details acc ++ [d]
      /\ total_tokens (usage d)
           = (prompt_tokens (usage d) + completion_tokens (usage d))%Z
      /\ cost (usage d)
           = py_round
               (f_add (f_mul (int_truediv (prompt_tokens (usage d)) 1000000)
                             (costs_prompt_tokens (costs self)))
                      (f_mul (int_truediv (completion_tokens (usage d)) 1000000)
                             (costs_completion_tokens (costs self))))
               6
      /\ prompt_tokens acc' = (prompt_tokens acc + prompt_tokens (usage d))%Z
      /\ completion_tokens acc'
           = (completion_tokens acc + completion_tokens (usage d))%Z
      /\ total_tokens acc' = (total_tokens acc + total_tokens (usage d))%Z
      /\ cost acc' = f_add (cost acc) (cost (usage d))
      /\ ((total_tokens acc = prompt_tokens acc + completion_tokens acc)%Z ->
          (total_tokens acc' = prompt_tokens acc' + completion_tokens acc')%Z).
Proof.
  intros self completion acc body data stream lat w acc' w' H.
  apply compute_usage_inr in H as (did & p & c & cb & -> & _).
  eexists. split; [reflexivity|].
  simpl. repeat split; try reflexivity.
  intros Hacc. lia.
Qed.

Lemma bound_accumulate :
  forall (f : BoundField) (u : Usage F) (d : Detail F),
    bound f (accumulate u d) = add_bound (bound f u) (bound f (usage d)).
Proof. intros [] u d; reflexivity. Qed.

Lemma bound_fold_accumulate :
  forall (f : BoundField) (ds : list (Detail F)) (u : Usage F),
    bound f (fold_left accumulate ds u)
      = match contributions f ds with
        | [] => bound f u
        | _ :: _ =>
            Some (fold_left f_add (contributions f ds)
                    (match bound f u with Some a => a | None => f_zero end))
        end.
Proof.
  intros f ds. induction ds as [|d ds IH]; intros u; [reflexivity|].
  cbn [fold_left]. rewrite IH, bound_accumulate.
  unfold contributions at 3 4. cbn [flat_map]. fold (contributions f ds).
  destruct (bound f (usage d)) as [v|]; cbn [add_bound app].
  - destruct (contributions f ds); reflexivity.
  - reflexivity.
Qed.

(** What a successful run of the [try] block adds: the detail holds the
    estimate the carbon estimator returned for the call's token total and
    latency. *)
Lemma compute_usage_carbon :
  forall (self : Client F) completion acc body data stream lat w acc' w',
    compute_usage E self completion acc body data stream lat w = (inr acc', w') ->
    exists did p c cb,
      get_carbon_footprint E (active_params (self_carbon self))
        (total_params (self_carbon self)) (model_zone (self_carbon self))
        (p + c) lat = inr cb
      /\ acc' = accumulate acc
                  (Build_Detail did (self_model self)
                     (Build_Usage p c (p + c) (detail_cost self p c) cb [])).
Proof.
  intros self completion acc body data stream lat w acc' w' H.
  unfold compute_usage, bind, lift, ret, set_usage in H.
  repeat (split_match_in H; try discriminate).
  injection H as <- <-.
  do 4 eexists. split; [eassumption|reflexivity].
Qed.

(** C7, as the code has it.  A computation of [_get_usage] that succeeds
    adds one detail, whose carbon estimate is the estimator's answer for
    the call, and leaves each of the four bounds of the accumulator as it
    was when the detail has no value for it, and otherwise as the detail's
    value added to what it was, to 0.0 if it was absent.  So a null value
    leaves the bound alone, a first value is added to 0.0, a later value
    is added to the bound, and after any sequence of details the bound is
    what it was if no detail had a value for it, and otherwise the sum of
    the details' values added in order onto what it was.  The values are
    added as they come: nothing is said of their sign. *)
Theorem carbon_bound_accumulation :
  forall (f : BoundField),
    (forall (self : Client F) completion acc body data stream lat w acc' w',
       compute_usage E self completion acc body data stream lat w
         = (inr acc', w') ->
       exists d cb,
         get_carbon_footprint E (active_params (self_carbon self))
           (total_params (self_carbon self)) (model_zone (self_carbon self))
           (total_tokens (usage d)) lat = inr cb
         /\ carbon (usage d) = cb
         /\ acc' = accumulate acc d
         /\ bound f acc'
            = match bound f (usage d) with
              | Some v =>
                  Some (f_add (match bound f acc with
                               | Some a => a
                               | None => f_zero
                               end) v)
              | None => bound f acc
              end)
    /\ (forall (u : Usage F) d, bound f (usage d) = None ->
          bound f (accumulate u d) = bound f u)
    /\ (forall (u : Usage F) d v, bound f (usage d) = Some v -> bound f u = None ->
          bound f (accumulate u d) = Some (f_add f_zero v))
    /\ (forall (u : Usage F) d v a, bound f (usage d) = Some v -> bound f u = Some a ->
          bound f (accumulate u d) = Some (f_add a v))
    /\ (forall (u : Usage F) (ds : list (Detail F)),
          bound f (fold_left accumulate ds u)
            = match contributions f ds with
              | [] => bound f u
              | _ :: _ =>
                  Some (fold_left f_add (contributions f ds)
                          (match bound f u with Some a => a | None => f_zero end))
              end).
Proof.
  intros f. split; [|repeat split].
  - intros self completion acc body data stream lat w acc' w' H.
    apply compute_usage_carbon in H as (did & p & c & cb & Hcb & ->).
    exists (Build_Detail did (self_model self)
              (Build_Usage p c (p + c) (detail_cost self p c) cb [])), cb.
    split; [exact Hcb|]. split; [reflexivity|].
    split; [reflexivity|]. rewrite bound_accumulate. reflexivity.
  - intros u d Hd. now rewrite bound_accumulate, Hd.
  - intros u d v Hd Hu. now rewrite bound_accumulate, Hd, Hu.
  - intros u d v a Hd Hu. now rewrite bound_accumulate, Hd, Hu.
  - intros u ds. apply bound_fold_accumulate.
Qed.

(** The caller of [_get_usage] never sees an exception either. *)
Lemma get_additional_data_total :
  forall (self : Client F) body data stream lat (w : World F),
    exists extra w',
      _get_additional_data E self body data stream lat w = (inr extra, w').
Proof.
  intros self body data stream lat w.
  destruct (get_usage_total self body data stream lat w)
    as (r & w1 & Hr).
  unfold _get_additional_data, bind. rewrite Hr.
  destruct r as [u|]; [destruct (rev (details u))|];
    unfold new_request_id, ret; eauto.
Qed.

(** The additional data, entry by entry. *)
Lemma get_additional_data_value :
  forall (self : Client F) body data stream lat (w : World F),
    exists u w1 i w',
      _get_usage E self body data stream lat w = (inr u, w1)
      /\ _get_additional_data E self body data stream lat w
         = (inr ([(U "model", JStr (self_model self)); (U "id", JStr i)]
                 ++ match u with
                    | Some x => [(U "usage", model_dump E x)]
                    | None => []
                    end), w')
      /\ i = match u with
             | Some x => match rev (details x) with
                         | dl :: _ => detail_id dl
                         | [] => generate_request_id E (ids w1)
                         end
             | None => generate_request_id E (ids w1)
             end.
Proof.
  intros self body data stream lat w.
  destruct (get_usage_total self body data stream lat w) as (u & w1 & Hu).
  exists u, w1.
  unfold _get_additional_data, bind. rewrite Hu.
  destruct u as [x|]; [destruct (rev (details x)) as [|dl l]|];
    unfold new_request_id, ret; do 2 eexists;
    (split; [reflexivity|]); split; reflexivity.
Qed.

End UsageFacts.

(** ** Unary responses *)

Section ResponseFacts.
Context {F : Type} {FO : PyFloat F} (E : Env F).

(** C10.  The response is rebuilt only when the Content-Type header reads
    exactly "application/json": with any other value, and with the empty
    default that stands for a missing header, the response object comes
    back as it was and the world is untouched; with that value, and a body
    that decodes to an object, the result is a new response with the same
    status whose content is the serialised merge of the decoded body, the
    additional data of the call and the caller's fields. *)
Theorem format_response_exact_content_type :
  forall (self : Client F) (body : option (pydict F)) (response : HttpResponse)
         (additional_data : pydict F) (lat : F) (w : World F),
    (headers_get (headers response) (U "Content-Type") [] <> U "application/json" ->
     _format_response E self body response additional_data lat w = (inr response, w))
    /\ (headers_get (headers response) (U "Content-Type") [] = U "application/json" ->
        forall d, response_json E response = inr (JDict d) ->
        exists extra w',
          _get_additional_data E self body (JDict d) false lat w = (inr extra, w')
          /\ _format_response E self body response additional_data lat w
             = (inr (Response_new E (status_code response)
                       (dumps E (JDict (dict_update (dict_update d extra)
                                                    additional_data)))),
                w')).
Proof.
  intros self body response additional_data lat w. split.
  - intros Hne. unfold _format_response.
    apply str_eqb_neq in Hne. rewrite Hne. reflexivity.
  - intros Heq d Hd. unfold _format_response.
    apply str_eqb_eq in Heq. rewrite Heq.
    destruct (get_additional_data_total E self body (JDict d) false lat w)
      as (extra & w' & Hx).
    exists extra, w'. split; [exact Hx|].
    unfold bind, lift. rewrite Hd, Hx. reflexivity.
Qed.

End ResponseFacts.

(** ** Streams *)

Section StreamFacts.
Context {F : Type} {FO : PyFloat F} (E : Env F).

Lemma search_literal_split :
  forall (p s : bytes) (i : nat),
    search_literal p s = Some i ->
    s = (bytes_take i s ++ bytes_drop i s)%string
    /\ bytes_startswith (bytes_drop i s) p = true.
Proof.
  intros p s. induction s as [|c s IH]; intros i H.
  - cbn [search_literal] in H.
    destruct (bytes_startswith EmptyString p) eqn:Hp; [|discriminate].
    injection H as <-. simpl. auto.
  - cbn [search_literal] in H.
    destruct (bytes_startswith (String c s) p) eqn:Hp.
    + injection H as <-. simpl. auto.
    + destruct (search_literal p s) as [j|] eqn:Hs; [|discriminate].
      injection H as <-. destruct (IH j eq_refl) as [H1 H2].
      cbn [bytes_take bytes_drop]. split; [|exact H2].
      simpl. now rewrite <- H1.
Qed.

(** [content] is the last decoded event, or None when there is none. *)
Lemma scan_line_last :
  forall (acc : json F * list (json F)) (line : str),
    fst acc = last (snd acc) JNull ->
    fst (scan_line E acc line) = last (snd (scan_line E acc line)) JNull.
Proof.
  intros acc line H. unfold scan_line.
  repeat (split_match; try assumption).
  simpl. now rewrite last_last.
Qed.

Lemma scan_lines_last :
  forall (l : list str) (acc : json F * list (json F)),
    fst acc = last (snd acc) JNull ->
    fst (fold_left (scan_line E) l acc)
      = last (snd (fold_left (scan_line E) l acc)) JNull.
Proof.
  induction l as [|x l IHl]; intros acc Hacc; [exact Hacc|].
  simpl. apply IHl. now apply scan_line_last.
Qed.

Lemma scan_buffer_last :
  forall (response : list bytes) (acc : json F * list (json F)) content chunks,
    fst acc = last (snd acc) JNull ->
    scan_buffer E acc response = inr (content, chunks) ->
    content = last chunks JNull.
Proof.
  induction response as [|lines rest IH]; intros acc content chunks Hacc H.
  - simpl in H. injection H as ->. exact Hacc.
  - simpl in H. destruct (utf8_decode E lines) as [s|]; [|discriminate].
    eapply IH; [|exact H]. now apply scan_lines_last.
Qed.

Lemma format_stream_response_none :
  forall (self : Client F) body response additional_data lat (w : World F)
         content chunks,
    scan_buffer E (JNull, []) response = inr (content, chunks) ->
    chunks = [] \/ content = JNull ->
    _format_stream_response E self body response additional_data lat w
      = (inr None, w).
Proof.
  intros self body response additional_data lat w content chunks Hs Hc.
  assert (content = JNull) as ->.
  { destruct Hc as [-> | ->]; [|reflexivity].
    now apply (scan_buffer_last response (JNull, []) content [] eq_refl Hs). }
  unfold _format_stream_response, bind, lift. rewrite Hs. reflexivity.
Qed.

(** The terminal chunk, step by step: the clock is read, the response is
    formatted from the buffer, and on a normal return one metric write is
    scheduled before anything is yielded. *)
Lemma done_chunk_outcome :
  forall (self : Client F) body additional_data status start st chunk i
         (w : World F),
    (first_token_time st = None -> buffer st <> [] -> request_context w <> None) ->
    exists ftt lat w1,
      (first_token_time st = None -> buffer st = [] ->
       ftt = Some (perf_counter E (clock w)))
      /\ forall r w2,
           _format_stream_response E self body
             (buffer st ++ [bytes_take i chunk]) additional_data lat w1 = (r, w2) ->
           match r with
           | inl e =>
               done_chunk E self body additional_data status start st chunk i w
                 = (inl e, w2)
           | inr extra =>
               exists w3 m,
                 tasks w3 = tasks w2 ++ [m]
                 /\ time_to_first_token_us m
                      = option_map
                          (fun t => f_int (f_mul_int (f_sub t start) 1000000)) ftt
                 /\ done_chunk E self body additional_data status start st chunk i w
                    = (inr (match extra with
                            | None => [(chunk, status)]
                            | Some ec =>
                                [ (bytes_take i chunk, status);
                                  (utf8_encode E
                                     (U "data: " ++ dumps E (JDict ec) ++ [10; 10]%N),
                                   status);
                                  (bytes_drop i chunk, status) ]
                            end,
                            {| buffer := buffer st ++ [bytes_take i chunk];
                               first_token_time := ftt |}), w3)
           end.
Proof.
  intros self body additional_data status start st chunk i w Hctx.
  unfold done_chunk, bind, ret, time_perf_counter, now, create_task,
    get_request_context.
  destruct (first_token_time st) as [t|] eqn:Hft;
    [|destruct (Nat.eqb (length (buffer st)) 0) eqn:Hlen];
    cbn [andb py_ne py_eq negb request_context clock ids tasks].
  3: { destruct (request_context w) as [ctx|] eqn:Hrc.
       2: { exfalso. apply Hctx; [reflexivity| |reflexivity].
            intros Hb. rewrite Hb in Hlen. discriminate. }
       match goal with
       | |- context [_format_stream_response _ _ _ _ _ ?l ?x] =>
           exists None, l, x
       end.
       split; [intros _ Hb; rewrite Hb in Hlen; discriminate|].
       intros r w2 Hf; rewrite Hf; destruct r as [e|[ec|]];
         [reflexivity| |]; do 2 eexists; (split; [|split]); try reflexivity.
       all: cbn; reflexivity. }
  all: match goal with
       | |- context [_format_stream_response _ _ _ _ _ ?l ?x] =>
           match goal with
           | |- context [{| buffer := _; first_token_time := Some ?f |}] =>
               exists (Some f), l, x
           end
       end;
       (split; [try discriminate; try reflexivity|]);
       intros r w2 Hf; rewrite Hf; destruct r as [e|[ec|]];
       [reflexivity| |]; do 2 eexists; (split; [|split]); try reflexivity.
  all: cbn; reflexivity.
Qed.

(** The terminal chunk again, with the world the response is formatted in
    and the metric that is scheduled spelled out. *)
Lemma done_chunk_metric :
  forall (self : Client F) body additional_data status start st chunk i
         (w : World F),
    (first_token_time st = None -> buffer st <> [] -> request_context w <> None) ->
    exists ftt lat w1,
      tasks w1 = tasks w
      /\ request_context w1 = request_context w
      /\ forall r w2,
           _format_stream_response E self body
             (buffer st ++ [bytes_take i chunk]) additional_data lat w1 = (r, w2) ->
           match r with
           | inl e =>
               done_chunk E self body additional_data status start st chunk i w
                 = (inl e, w2)
           | inr extra =>
               exists st',
               done_chunk E self body additional_data status start st chunk i w
                 = (inr (match extra with
                         | None => [(chunk, status)]
                         | Some ec =>
                             [ (bytes_take i chunk, status);
                               (utf8_encode E
                                  (U "data: " ++ dumps E (JDict ec) ++ [10; 10]%N),
                                status);
                               (bytes_drop i chunk, status) ]
                         end, st'),
                    {| clock := S (clock w2);
                       ids := ids w2;
                       request_context := request_context w2;
                       tasks :=
                         tasks w2
                         ++ [{| timestamp := datetime_now E (clock w2);
                                model_name := self_model self;
                                metric_api_url := api_url self;
                                latency_ms := Some (f_int (f_mul_int lat 1000));
                                time_to_first_token_us :=
                                  option_map
                                    (fun t =>
                                       f_int (f_mul_int (f_sub t start) 1000000))
                                    ftt |}] |})
           end.
Proof.
  intros self body additional_data status start st chunk i w Hctx.
  unfold done_chunk, bind, ret, time_perf_counter, now, create_task,
    get_request_context.
  destruct (first_token_time st) as [t|] eqn:Hft;
    [|destruct (Nat.eqb (length (buffer st)) 0) eqn:Hlen];
    cbn [andb py_ne py_eq negb request_context clock ids tasks].
  3: { destruct (request_context w) as [ctx|] eqn:Hrc.
       2: { exfalso. apply Hctx; [reflexivity| |reflexivity].
            intros Hb. rewrite Hb in Hlen. discriminate. }
       match goal with
       | |- context [_format_stream_response _ _ _ _ _ ?l ?x] =>
           exists None, l, x
       end.
       split; [reflexivity|]. split; [reflexivity|].
       intros r w2 Hf; rewrite Hf; destruct r as [e|[ec|]];
         [reflexivity| |]; eexists; reflexivity. }
  all: match goal with
       | |- context [_format_stream_response _ _ _ _ _ ?l ?x] =>
           match goal with
           | |- context [{| buffer := _; first_token_time := Some ?f |}] =>
               exists (Some f), l, x
           end
       end;
       (split; [reflexivity|]); (split; [reflexivity|]);
       intros r w2 Hf; rewrite Hf; destruct r as [e|[ec|]];
       [reflexivity| |]; eexists; reflexivity.
Qed.

(** The formatting of a buffer whose last event is an object: the
    usage is computed from the events with the last one's choices cleared,
    and the model, the id and the usage, if there is one, are laid over
    that event, the caller's fields over them. *)
Lemma format_stream_response_value :
  forall (self : Client F) body response additional_data lat (w : World F)
         d chunks,
    scan_buffer E (JNull, []) response = inr (JDict d, chunks) ->
    exists u wu rid w',
      _get_usage E self body
        (JList (removelast chunks
                  ++ [JDict (dict_update d [(U "choices", JList [])])]))
        true lat w = (inr u, wu)
      /\ rid = match u with
               | Some x => match rev (details x) with
                           | dl :: _ => detail_id dl
                           | [] => generate_request_id E (ids wu)
                           end
               | None => generate_request_id E (ids wu)
               end
      /\ _format_stream_response E self body response additional_data lat w
         = (inr (Some (dict_update
                         (dict_update (dict_update d [(U "choices", JList [])])
                            ([(U "model", JStr (self_model self));
                              (U "id", JStr rid)]
                             ++ match u with
                                | Some x => [(U "usage", model_dump E x)]
                                | None => []
                                end))
                         additional_data)), w').
Proof.
  intros self body response additional_data lat w d chunks Hs.
  unfold _format_stream_response, bind, lift. rewrite Hs.
  destruct (get_additional_data_value E self body
              (JList (removelast chunks
                        ++ [JDict (dict_update d [(U "choices", JList [])])]))
              true lat w) as (u & wu & rid & w' & Hu & Hx & Hid).
  exists u, wu, rid, w'. rewrite Hx.
  split; [exact Hu|]. split; [exact Hid|reflexivity].
Qed.

(** C1, as the code has it.  At the chunk that holds the marker, in a
    success-class stream with a request context: the chunk is its
    pre-marker bytes followed by bytes that start with the marker; when
    the last event decoded from the buffer is a JSON object, exactly three
    pairs are yielded, the pre-marker bytes, one event framed as
    "data: " + json + two line feeds, and the bytes from the marker on.
    The JSON of that event is the object with its choices cleared, then
    "model" set to the client's model, "id" set to the id of the last
    detail of the usage (a fresh request id when there is none) and, when
    a usage came back, "usage" set to its dump, then the caller's fields;
    the usage is what [_get_usage] returns for the decoded events, the
    last with its choices cleared, as a stream, in the request context and
    with the tasks found on entry.  When no event was decoded, or the last
    one decoded is null, the chunk is yielded as received and nothing
    else. *)
Theorem terminal_chunk_emission :
  forall (self : Client F) body additional_data status start st chunk i
         (w : World F),
    (status / 100 =? 2)%Z = true ->
    search_literal DONE_MARKER chunk = Some i ->
    request_context w <> None ->
    chunk = (bytes_take i chunk ++ bytes_drop i chunk)%string
    /\ bytes_startswith (bytes_drop i chunk) DONE_MARKER = true
    /\ (forall d chunks,
          scan_buffer E (JNull, []) (buffer st ++ [bytes_take i chunk])
            = inr (JDict d, chunks) ->
          exists lat w1 u wu rid st' w',
            tasks w1 = tasks w
            /\ request_context w1 = request_context w
            /\ _get_usage E self body
                 (JList (removelast chunks
                           ++ [JDict (dict_update d [(U "choices", JList [])])]))
                 true lat w1 = (inr u, wu)
            /\ rid = match u with
                     | Some x => match rev (details x) with
                                 | dl :: _ => detail_id dl
                                 | [] => generate_request_id E (ids wu)
                                 end
                     | None => generate_request_id E (ids wu)
                     end
            /\ on_chunk E self body additional_data status start st chunk w
               = (inr ([ (bytes_take i chunk, status);
                         (utf8_encode E
                            (U "data: "
                             ++ dumps E
                                  (JDict
                                     (dict_update
                                        (dict_update
                                           (dict_update d [(U "choices", JList [])])
                                           ([(U "model", JStr (self_model self));
                                             (U "id", JStr rid)]
                                            ++ match u with
                                               | Some x =>
                                                   [(U "usage", model_dump E x)]
                                               | None => []
                                               end))
                                        additional_data))
                             ++ [10; 10]%N), status);
                         (bytes_drop i chunk, status) ], st'), w'))
    /\ (forall content chunks,
          scan_buffer E (JNull, []) (buffer st ++ [bytes_take i chunk])
            = inr (content, chunks) ->
          chunks = [] \/ content = JNull ->
          exists st' w',
            on_chunk E self body additional_data status start st chunk w
              = (inr ([(chunk, status)], st'), w')).
Proof.
  intros self body additional_data status start st chunk i w Hst Hi Hctx.
  destruct (search_literal_split _ _ _ Hi) as [Hsplit Hstart].
  split; [exact Hsplit|]. split; [exact Hstart|].
  destruct (done_chunk_metric self body additional_data status start st chunk i w
              (fun _ _ => Hctx)) as (ftt & lat & w1 & Ht1 & Hc1 & Hout).
  unfold on_chunk. rewrite Hst, Hi. cbn [negb].
  split.
  - intros d chunks Hs.
    destruct (format_stream_response_value self body _ additional_data lat w1 _ _ Hs)
      as (u & wu & rid & w2 & Hu & Hid & Hf).
    destruct (Hout _ _ Hf) as (st' & Hd).
    exists lat, w1, u, wu, rid, st'. eexists.
    split; [exact Ht1|]. split; [exact Hc1|]. split; [exact Hu|].
    split; [exact Hid|exact Hd].
  - intros content chunks Hs Hc.
    pose proof (format_stream_response_none self body _ additional_data lat w1 _ _ Hs Hc)
      as Hf.
    destruct (Hout _ _ Hf) as (st' & Hd).
    exists st'. eexists. exact Hd.
Qed.

(** C4, as the code has it.  When the marker comes with the buffer empty
    and no first-token time set, a normal return of the terminal handling
    has recorded the first-token time, read from the clock on entry, and
    the metric it scheduled carries it, whatever the pre-marker bytes are,
    empty ones included: the test of the source compares those bytes with
    a str, and a bytes object never equals a str. *)
Theorem first_token_recorded_at_marker :
  forall (self : Client F) body additional_data status start st chunk i
         (w : World F) ys st' w',
    (status / 100 =? 2)%Z = true ->
    search_literal DONE_MARKER chunk = Some i ->
    first_token_time st = None ->
    buffer st = [] ->
    on_chunk E self body additional_data status start st chunk w
      = (inr (ys, st'), w') ->
    first_token_time st' = Some (perf_counter E (clock w))
    /\ exists ts m,
         tasks w' = ts ++ [m]
         /\ time_to_first_token_us m
              = Some (f_int (f_mul_int (f_sub (perf_counter E (clock w)) start)
                                       1000000)).
Proof.
  intros self body additional_data status start st chunk i w ys st' w'
    Hst Hi Hft Hbuf Hrun.
  unfold on_chunk in Hrun. rewrite Hst, Hi in Hrun. cbn [negb] in Hrun.
  destruct (done_chunk_outcome self body additional_data status start st chunk i w)
    as (ftt & lat & w1 & Hftt & Hout).
  { intros _ Hne. contradiction. }
  specialize (Hftt Hft Hbuf). subst ftt.
  destruct (_format_stream_response E self body
              (buffer st ++ [bytes_take i chunk]) additional_data lat w1)
    as [r w2] eqn:Hf.
  specialize (Hout _ _ eq_refl).
  destruct r as [e|extra].
  - rewrite Hout in Hrun. discriminate.
  - destruct Hout as (w3 & m & Ht & Hm & Hd).
    rewrite Hd in Hrun. injection Hrun as _ <- <-.
    split; [reflexivity|].
    exists (tasks w2), m. split; [exact Ht|exact Hm].
Qed.

(** *** The loop and the handlers *)

Lemma run_chunks_app :
  forall (self : Client F) body additional_data status start
         (a b : list bytes) st (w : World F),
    run_chunks E self body additional_data status start st (a ++ b) w
      = let '(ys, r, w1) :=
          run_chunks E self body additional_data status start st a w in
        match r with
        | inl e => (ys, inl e, w1)
        | inr st1 =>
            let '(ys', r', w2) :=
              run_chunks E self body additional_data status start st1 b w1 in
            (ys ++ ys', r', w2)
        end.
Proof.
  intros self body additional_data status start a b.
  induction a as [|c a IH]; intros st w.
  - cbn [app run_chunks].
    destruct (run_chunks E self body additional_data status start st b w)
      as [[ys r] w1]. reflexivity.
  - cbn [app run_chunks].
    destruct (on_chunk E self body additional_data status start st c w)
      as [[e|[ys st1]] w1]; [reflexivity|].
    rewrite IH.
    destruct (run_chunks E self body additional_data status start st1 a w1)
      as [[ys1 [e|st2]] w2]; [reflexivity|].
    destruct (run_chunks E self body additional_data status start st2 b w2)
      as [[ys2 r2] w3].
    now rewrite app_assoc.
Qed.

(** C5.  Once the request is formatted and the transport answers it with
    a timeout of any kind: [forward_request] raises the 504 exception
    with the fixed message; [forward_stream] yields one pair, the
    serialised fixed message with 504, when the timeout comes at
    connection, and, when it comes after chunks that the loop handled
    without an exception, what those chunks yielded followed by that one
    pair; in both cases no exception leaves the generator. *)
Theorem timeout_is_504 :
  forall (self : Client F) (k : TimeoutKind) method body files data
         url hdrs body' files' data',
    _format_request E self body files data
      = inr (url, hdrs, body', files', data') ->
    (forall net additional_data (w : World F),
       net (request_of method (url, hdrs, body', files', data'))
         = inl (HttpxTimeout k) ->
       exists w',
         forward_request E self net method body files data additional_data w
           = (inl (HTTPException 504
                     (JStr (U "Request timed out, model is too busy."))), w'))
    /\ (forall net additional_data (w : World F),
         net (request_of method (url, hdrs, body', files', data'))
           = ConnectRaises (HttpxTimeout k) ->
         forward_stream E self net method body files data additional_data w
           = ([(utf8_encode E
                  (dumps E (JDict [(U "detail",
                                    JStr (U "Request timed out, model is too busy."))])),
                504%Z)], None, w))
    /\ (forall net additional_data (w : World F) status chunks start w1 ys st1 w2,
         net (request_of method (url, hdrs, body', files', data'))
           = Streams status chunks (Some (HttpxTimeout k)) ->
         time_perf_counter E w = (inr start, w1) ->
         run_chunks E self body' additional_data status start
           {| buffer := []; first_token_time := None |} chunks w1
           = (ys, inr st1, w2) ->
         forward_stream E self net method body files data additional_data w
           = (ys ++ [(utf8_encode E
                        (dumps E (JDict [(U "detail",
                                          JStr (U "Request timed out, model is too busy."))])),
                      504%Z)], None, w2)).
Proof.
  intros self k method body files data url hdrs body' files' data' Hfmt.
  split; [|split].
  - intros net additional_data w Hnet.
    unfold forward_request, bind, lift. rewrite Hfmt. cbn iota beta.
    unfold time_perf_counter at 1. rewrite Hnet.
    eexists. reflexivity.
  - intros net additional_data w Hnet.
    unfold forward_stream. rewrite Hfmt, Hnet. reflexivity.
  - intros net additional_data w status chunks start w1 ys st1 w2 Hnet Ht Hrun.
    unfold forward_stream. rewrite Hfmt, Hnet, Ht, Hrun. reflexivity.
Qed.



End StreamFacts.

(** ** Further properties of the code *)

(** *** What the formatters leave of the world *)

Section WorldFacts.
Context {F : Type} {FO : PyFloat F} (E : Env F).

Lemma get_id_world :
  forall (x : json F) (w : World F) r w',
    get_id E x w = (r, w') ->
    clock w' = clock w /\ tasks w' = tasks w /\ request_context w' = request_context w.
Proof.
  intros x w r w' H.
  unfold get_id, bind, new_request_id, ret, raise in H.
  destruct x; injection H as _ <-; auto.
Qed.

Lemma compute_usage_world :
  forall (self : Client F) completion acc body data stream lat w r w',
    compute_usage E self completion acc body data stream lat w = (r, w') ->
    clock w' = clock w /\ tasks w' = tasks w.
Proof.
  intros self completion acc body data stream lat w r w' H.
  unfold compute_usage, bind, lift, ret, set_usage in H.
  repeat (split_match_in H; try discriminate);
    injection H as _ <-; cbn [clock tasks];
    try (split; reflexivity);
    match goal with
    | Hg : get_id _ _ _ = _ |- _ =>
        apply get_id_world in Hg; destruct Hg as (Hc & Ht & _); auto
    end.
Qed.

Lemma get_usage_world :
  forall (self : Client F) body data stream lat w r w',
    _get_usage E self body data stream lat w = (r, w') ->
    clock w' = clock w /\ tasks w' = tasks w.
Proof.
  intros self body data stream lat w r w' H.
  unfold _get_usage, get_request_context, ret in H.
  destruct (table_get _ _); [|injection H as _ <-; auto].
  destruct (request_context w) as [ctx|]; [|injection H as _ <-; auto].
  destruct (compute_usage E self b (ctx_usage ctx) body data stream lat w)
    as [[e|u] w1] eqn:Hc; injection H as _ <-;
    eapply compute_usage_world; eassumption.
Qed.

Lemma get_additional_data_world :
  forall (self : Client F) body data stream lat w r w',
    _get_additional_data E self body data stream lat w = (r, w') ->
    clock w' = clock w /\ tasks w' = tasks w.
Proof.
  intros self body data stream lat w r w' H.
  unfold _get_additional_data, bind in H.
  destruct (_get_usage E self body data stream lat w) as [[e|u] w1] eqn:Hu.
  - injection H as _ <-. eapply get_usage_world; eassumption.
  - apply get_usage_world in Hu. destruct Hu as [Hc Ht].
    unfold new_request_id, ret in H.
    destruct u as [u|]; [destruct (rev (details u))|];
      injection H as _ <-; cbn [clock tasks]; auto.
Qed.

End WorldFacts.

(** *** Dicts, usage and formatting *)

Section MoreDictFacts.
Context {F : Type}.
Implicit Types (d e : pydict F) (k : str) (v : json F).

Lemma dict_get_notin k e : ~ In k (map fst e) -> dict_get k e = None.
Proof.
  induction e as [|[k0 v0] e IH]; intros Hn; [reflexivity|].
  cbn. destruct (str_eqb k k0) eqn:Ek.
  - apply str_eqb_eq in Ek. subst. exfalso. apply Hn. now left.
  - apply IH. intros Hin. apply Hn. now right.
Qed.

Lemma dict_get_update k d e :
  NoDup (map fst e) ->
  dict_get k (dict_update d e)
    = match dict_get k e with Some v => Some v | None => dict_get k d end.
Proof.
  unfold dict_update. revert d.
  induction e as [|[k0 v0] e IH]; intros d Hnd; [reflexivity|].
  cbn [fold_left fst snd map] in *. inversion Hnd as [|? ? Hnotin Hnd']; subst.
  rewrite IH by assumption. cbn [dict_get].
  destruct (str_eqb k k0) eqn:Ek.
  - apply str_eqb_eq in Ek. subst k0.
    rewrite (dict_get_notin _ _ Hnotin). apply dict_get_set_same.
  - destruct (dict_get k e); [reflexivity|].
    apply dict_get_set_other. now apply str_eqb_neq.
Qed.

Lemma dict_set_idempotent k v d : dict_set k v (dict_set k v d) = dict_set k v d.
Proof.
  induction d as [|[k0 v0] d IH]; cbn.
  - now rewrite str_eqb_refl.
  - destruct (str_eqb k k0) eqn:Ek; cbn; rewrite Ek; [reflexivity|].
    now rewrite IH.
Qed.

Lemma dict_mem_set k v d : dict_mem k (dict_set k v d) = true.
Proof. unfold dict_mem. now rewrite dict_get_set_same. Qed.

End MoreDictFacts.

Section UsageMoreFacts.
Context {F : Type} {FO : PyFloat F} (E : Env F).

Lemma additional_data_keys_nodup :
  forall (self : Client F) body data stream lat (w : World F) extra w',
    _get_additional_data E self body data stream lat w = (inr extra, w') ->
    NoDup (map fst extra)
    /\ dict_get (U "model") extra = Some (JStr (self_model self)).
Proof.
  intros self body data stream lat w extra w' H.
  destruct (get_additional_data_value E self body data stream lat w)
    as (u & w1 & i & w2 & _ & Hv & _).
  rewrite Hv in H. injection H as <- _.
  split; [|reflexivity].
  destruct u; cbn; repeat constructor; cbn;
    intros Hin; repeat (destruct Hin as [Hin|Hin]; try discriminate Hin);
    try contradiction.
Qed.

(** X1.  [_get_additional_data] never raises.  Its result has the keys
    "model", "id" and, only when a usage came back, "usage", in that
    order: the model is the client's own, the usage is the dump of the
    usage, and the id is that of the last detail of the usage, or a
    freshly generated one when there is no usage or it has no detail. *)
Theorem additional_data_shape :
  forall (self : Client F) body data stream lat (w : World F),
    exists u w1 ad w',
      _get_usage E self body data stream lat w = (inr u, w1)
      /\ _get_additional_data E self body data stream lat w = (inr ad, w')
      /\ map fst ad
         = [U "model"; U "id"] ++ match u with Some _ => [U "usage"] | None => [] end
      /\ dict_get (U "model") ad = Some (JStr (self_model self))
      /\ dict_get (U "id") ad
         = Some (JStr match u with
                      | Some x => match rev (details x) with
                                  | dl :: _ => detail_id dl
                                  | [] => generate_request_id E (ids w1)
                                  end
                      | None => generate_request_id E (ids w1)
                      end)
      /\ dict_get (U "usage") ad = option_map (model_dump E) u.
Proof.
  intros self body data stream lat w.
  destruct (get_additional_data_value E self body data stream lat w)
    as (u & w1 & i & w' & Hu & Hv & ->).
  exists u, w1. do 2 eexists.
  split; [exact Hu|]. split; [exact Hv|].
  destruct u; repeat split; reflexivity.
Qed.

(** X2.  Two calls of [_get_usage] in one request, both on usage-bearing
    endpoints and both computing: the first starts from the accumulator of
    the request context, the second from what the first left there, and
    the context ends with the accumulator the second returns.  That
    accumulator has gained two details, the first call's and then the
    second's, each with the model of its client, and each of its three
    token counts is the count before plus the counts of the two
    details. *)
Theorem usage_accumulates_across_calls :
  forall (self1 self2 : Client F) c1 c2 ctx body1 data1 stream1 lat1
         body2 data2 stream2 lat2 (w w1 w2 : World F) acc1 acc2,
    request_context w = Some ctx ->
    table_get (endpoint self1) (USAGE_COMPLETION_ENDPOINTS E) = Some c1 ->
    table_get (endpoint self2) (USAGE_COMPLETION_ENDPOINTS E) = Some c2 ->
    compute_usage E self1 c1 (ctx_usage ctx) body1 data1 stream1 lat1 w
      = (inr acc1, w1) ->
    compute_usage E self2 c2 acc1 body2 data2 stream2 lat2 w1
      = (inr acc2, w2) ->
    _get_usage E self1 body1 data1 stream1 lat1 w = (inr (Some acc1), w1)
    /\ _get_usage E self2 body2 data2 stream2 lat2 w1 = (inr (Some acc2), w2)
    /\ option_map ctx_usage (request_context w2) = Some acc2
    /\ exists x1 x2,
         details acc2 = details (ctx_usage ctx) ++ [x1; x2]
         /\ detail_model x1 = self_model self1
         /\ detail_model x2 = self_model self2
         /\ prompt_tokens acc2
            = (prompt_tokens (ctx_usage ctx)
               + prompt_tokens (usage x1) + prompt_tokens (usage x2))%Z
         /\ completion_tokens acc2
            = (completion_tokens (ctx_usage ctx)
               + completion_tokens (usage x1) + completion_tokens (usage x2))%Z
         /\ total_tokens acc2
            = (total_tokens (ctx_usage ctx)
               + total_tokens (usage x1) + total_tokens (usage x2))%Z.
Proof.
  intros self1 self2 c1 c2 ctx body1 data1 stream1 lat1 body2 data2 stream2 lat2
    w w1 w2 acc1 acc2 Hctx Ht1 Ht2 Hc1 Hc2.
  pose proof Hc1 as Hr1. apply compute_usage_inr in Hr1.
  destruct Hr1 as (i1 & p1 & k1 & cb1 & Ha1 & Hw1).
  pose proof Hc2 as Hr2. apply compute_usage_inr in Hr2.
  destruct Hr2 as (i2 & p2 & k2 & cb2 & Ha2 & Hw2).
  rewrite Hctx in Hw1. cbn in Hw1. rewrite Hw1 in Hw2. cbn in Hw2.
  split; [|split; [|split]].
  - unfold _get_usage, get_request_context. rewrite Ht1. cbv beta iota.
    rewrite Hctx, Hc1. reflexivity.
  - unfold _get_usage, get_request_context. rewrite Ht2. cbv beta iota.
    rewrite Hw1. cbn [ctx_usage]. rewrite Hc2. reflexivity.
  - now rewrite Hw2.
  - do 2 eexists. rewrite Ha2, Ha1. cbn.
    split; [now rewrite <- app_assoc|].
    repeat split; reflexivity.
Qed.

(** X3.  Adding details to an accumulator one after the other appends
    them in order and adds their token counts: each of the three counts
    ends as the count before plus the sum over the details.  If
    total = prompt + completion holds of the accumulator and of every
    detail, it holds of the result. *)
Theorem accumulate_totals :
  forall (ds : list (Detail F)) (u : Usage F),
    details (fold_left accumulate ds u) = details u ++ ds
    /\ prompt_tokens (fold_left accumulate ds u)
       = (prompt_tokens u
          + fold_right Z.add 0 (map (fun x => prompt_tokens (usage x)) ds))%Z
    /\ completion_tokens (fold_left accumulate ds u)
       = (completion_tokens u
          + fold_right Z.add 0 (map (fun x => completion_tokens (usage x)) ds))%Z
    /\ total_tokens (fold_left accumulate ds u)
       = (total_tokens u
          + fold_right Z.add 0 (map (fun x => total_tokens (usage x)) ds))%Z
    /\ ((total_tokens u = prompt_tokens u + completion_tokens u)%Z ->
        Forall (fun x => (total_tokens (usage x)
                          = prompt_tokens (usage x) + completion_tokens (usage x))%Z)
               ds ->
        (total_tokens (fold_left accumulate ds u)
         = prompt_tokens (fold_left accumulate ds u)
           + completion_tokens (fold_left accumulate ds u))%Z).
Proof.
  induction ds as [|x ds IH]; intros u.
  - cbn. rewrite app_nil_r. repeat split; lia.
  - cbn [fold_left map fold_right].
    destruct (IH (accumulate u x)) as (Hd & Hp & Hc & Ht & Hinv).
    split; [|split; [|split; [|split]]].
    + rewrite Hd. cbn. now rewrite <- app_assoc.
    + rewrite Hp. cbn. lia.
    + rewrite Hc. cbn. lia.
    + rewrite Ht. cbn. lia.
    + intros Hu Hall. inversion Hall as [|? ? Hx Hall']; subst.
      apply Hinv; [cbn; lia|assumption].
Qed.

(** X4.  The merge of a rebuilt unary response, key by key: a caller's
    field wins over the additional data of the call, which win over the
    decoded body.  In particular the upstream's "model" is always replaced
    by the client's own unless the caller gives one.  The caller's fields
    are a dict, so their keys are distinct. *)
Theorem format_response_merge_precedence :
  forall (self : Client F) body (response : HttpResponse)
         (additional_data : pydict F) lat (w : World F) d,
    headers_get (headers response) (U "Content-Type") [] = U "application/json" ->
    response_json E response = inr (JDict d) ->
    NoDup (map fst additional_data) ->
    exists extra merged w',
      _get_additional_data E self body (JDict d) false lat w = (inr extra, w')
      /\ _format_response E self body response additional_data lat w
         = (inr (Response_new E (status_code response) (dumps E (JDict merged))),
            w')
      /\ (forall k,
            dict_get k merged
              = match dict_get k additional_data with
                | Some v => Some v
                | None => match dict_get k extra with
                          | Some v => Some v
                          | None => dict_get k d
                          end
                end)
      /\ dict_get (U "model") extra = Some (JStr (self_model self)).
Proof.
  intros self body response additional_data lat w d Hct Hj Hnd.
  destruct (get_additional_data_total E self body (JDict d) false lat w)
    as (extra & w' & Hx).
  destruct (additional_data_keys_nodup _ _ _ _ _ _ _ _ Hx) as [Hnd' Hm].
  exists extra, (dict_update (dict_update d extra) additional_data), w'.
  split; [exact Hx|]. split; [|split; [|exact Hm]].
  - unfold _format_response, bind, lift.
    apply str_eqb_eq in Hct. rewrite Hct, Hj, Hx. reflexivity.
  - intros k. rewrite dict_get_update by exact Hnd.
    now rewrite dict_get_update by exact Hnd'.
Qed.

(** X5.  Formatting is idempotent: formatting the body, files and data
    that a formatting returned gives the same URL, headers, body, files
    and data again. *)
Theorem format_request_idempotent :
  forall (self : Client F) body files data url hdrs body' files' data',
    _format_request E self body files data
      = inr (url, hdrs, body', files', data') ->
    _format_request E self body' files' data'
      = inr (url, hdrs, body', files', data').
Proof.
  intros self body files data url hdrs body' files' data' H.
  unfold _format_request in *.
  destruct (table_get (endpoint self) (ENDPOINT_TABLE self)) as [path|];
    [|discriminate].
  injection H as <- <- <- <- <-.
  do 4 f_equal.
  destruct body as [d|]; [|reflexivity].
  destruct (truthy (Some d) && dict_mem (U "model") d) eqn:Hc.
  - rewrite dict_mem_set.
    assert (truthy (Some (dict_set (U "model") (JStr (self_model self)) d)) = true)
      as -> by (eapply dict_mem_nonempty, dict_mem_set).
    cbn [andb]. now rewrite dict_set_idempotent.
  - now rewrite Hc.
Qed.

End UsageMoreFacts.

(** *** The unary call *)

Section UnaryFacts.
Context {F : Type} {FO : PyFloat F} (E : Env F).

Lemma format_response_world :
  forall (self : Client F) body response additional_data lat w r w',
    _format_response E self body response additional_data lat w = (r, w') ->
    clock w' = clock w /\ tasks w' = tasks w.
Proof.
  intros self body response additional_data lat w r w' H.
  unfold _format_response, bind, lift, ret, raise in H.
  destruct (str_eqb _ _); [|injection H as _ <-; auto].
  destruct (response_json E response) as [e|j]; [injection H as _ <-; auto|].
  destruct j; try (injection H as _ <-; auto).
  destruct (_get_additional_data E self body (JDict d) false lat w)
    as [[e|x] w1] eqn:Hx; injection H as _ <-;
    eapply get_additional_data_world; eassumption.
Qed.

(** X6.  A unary call whose transport raises an exception that is no
    timeout.  When the class of the exception derives from Exception, the
    call raises an HTTP 500 whose detail is the name of that class; an
    exception that derives from BaseException alone, such as
    asyncio.CancelledError, is not caught and leaves the call as it is.
    Either way no metric is scheduled and the request context is as it
    was.  So a call cancelled while it awaits the answer ends with
    CancelledError, not with an HTTP 500. *)
Theorem forward_request_transport_error :
  forall (self : Client F) net method body files data additional_data
         (w : World F) url hdrs body' files' data',
    _format_request E self body files data
      = inr (url, hdrs, body', files', data') ->
    (forall e,
       net (request_of method (url, hdrs, body', files', data')) = inl e ->
       (forall k, e <> HttpxTimeout k) ->
       exists w',
         forward_request E self net method body files data additional_data w
           = (inl (if isinstance_Exception e
                   then HTTPException 500 (JStr (exn_name e))
                   else e), w')
         /\ tasks w' = tasks w
         /\ request_context w' = request_context w)
    /\ (net (request_of method (url, hdrs, body', files', data'))
          = inl (PyError (U "CancelledError")) ->
        exists w',
          forward_request E self net method body files data additional_data w
            = (inl (PyError (U "CancelledError")), w')
          /\ tasks w' = tasks w
          /\ request_context w' = request_context w).
Proof.
  intros self net method body files data additional_data w
    url hdrs body' files' data' Hfmt.
  assert (forall e,
            net (request_of method (url, hdrs, body', files', data')) = inl e ->
            (forall k, e <> HttpxTimeout k) ->
            exists w',
              forward_request E self net method body files data additional_data w
                = (inl (if isinstance_Exception e
                        then HTTPException 500 (JStr (exn_name e))
                        else e), w')
              /\ tasks w' = tasks w
              /\ request_context w' = request_context w) as Hgen.
  { intros e Hnet Hne.
    unfold forward_request, bind, lift. rewrite Hfmt. cbn iota beta.
    unfold time_perf_counter at 1. rewrite Hnet.
    destruct e as [k| |name]; [now elim (Hne k)| |].
    - eexists; (split; [reflexivity|]); split; reflexivity.
    - destruct (isinstance_Exception (PyError name));
        eexists; (split; [reflexivity|]); split; reflexivity. }
  split; [exact Hgen|].
  intros Hnet. apply (Hgen _ Hnet). intros k Hk. discriminate Hk.
Qed.

(** X7.  A unary call that is answered outside the 2xx class raises an
    HTTP exception with the answer's own status, schedules no metric and
    leaves the request context alone.  The detail is the text of the body
    when it is not JSON; the decoded object when it has no "message"; the
    value of the message read as a Python literal when it is a string that
    reads as one; the message as it is when it does not.  A body that
    decodes to null, a boolean or a number makes the lookup of "message"
    raise TypeError, which escapes in place of the HTTP exception. *)
Theorem forward_request_upstream_error :
  forall (self : Client F) net method body files data additional_data
         (w : World F) url hdrs body' files' data' response,
    _format_request E self body files data
      = inr (url, hdrs, body', files', data') ->
    net (request_of method (url, hdrs, body', files', data')) = inr response ->
    is_success (status_code response) = false ->
    (exists w',
       forward_request E self net method body files data additional_data w
         = (match error_message E response with
            | inl e => inl e
            | inr m => inl (HTTPException (status_code response) m)
            end, w')
       /\ tasks w' = tasks w
       /\ request_context w' = request_context w)
    /\ (loads E (response_text E response) = None ->
        error_message E response = inr (JStr (response_text E response)))
    /\ (forall d, loads E (response_text E response) = Some (JDict d) ->
        dict_get (U "message") d = None ->
        error_message E response = inr (JDict d))
    /\ (forall d s j, loads E (response_text E response) = Some (JDict d) ->
        dict_get (U "message") d = Some (JStr s) ->
        literal_eval E s = Some j ->
        error_message E response = inr j)
    /\ (forall d v, loads E (response_text E response) = Some (JDict d) ->
        dict_get (U "message") d = Some v ->
        ast_literal_eval E v = None ->
        error_message E response = inr v)
    /\ (forall j, loads E (response_text E response) = Some j ->
        match j with
        | JNull | JBool _ | JInt _ | JFloat _ => True
        | _ => False
        end ->
        error_message E response = inl (PyError (U "TypeError"))).
Proof.
  intros self net method body files data additional_data w
    url hdrs body' files' data' response Hfmt Hnet Hok.
  split; [|repeat split].
  - unfold forward_request, bind, lift. rewrite Hfmt. cbn iota beta.
    unfold time_perf_counter. rewrite Hnet. unfold ret. cbn iota beta.
    rewrite Hok.
    destruct (error_message E response);
      eexists; (split; [reflexivity|]); split; reflexivity.
  - intros Hl. unfold error_message. now rewrite Hl.
  - intros d Hl Hm. unfold error_message, contains, dict_mem.
    now rewrite Hl, Hm.
  - intros d s j Hl Hm Hj. unfold error_message, contains, dict_mem, getitem.
    rewrite Hl, Hm. cbn. now rewrite Hj.
  - intros d v Hl Hm Hv. unfold error_message, contains, dict_mem, getitem.
    rewrite Hl, Hm. now rewrite Hv.
  - intros j Hl Hj. unfold error_message. rewrite Hl.
    destruct j; try contradiction; reflexivity.
Qed.

(** X8.  A unary call answered in the 2xx class ends as the formatting of
    the response ends.  If that raises, the exception escapes and no
    metric is scheduled.  If it returns, its result is returned and
    exactly one metric is scheduled after it: the client's model and URL,
    no time to first token, and as latency the integer part of 1000 times
    the difference of the two clock readings around the HTTP call. *)
Theorem forward_request_success_metric :
  forall (self : Client F) net method body files data additional_data
         (w : World F) url hdrs body' files' data' response,
    _format_request E self body files data
      = inr (url, hdrs, body', files', data') ->
    net (request_of method (url, hdrs, body', files', data')) = inr response ->
    is_success (status_code response) = true ->
    let lat := f_sub (perf_counter E (S (clock w))) (perf_counter E (clock w)) in
    match _format_response E self body' response
            (match additional_data with Some (x :: l) => x :: l | _ => [] end)
            lat (snd (time_perf_counter E (snd (time_perf_counter E w)))) with
    | (inl e, w3) =>
        forward_request E self net method body files data additional_data w
          = (inl e, w3)
        /\ tasks w3 = tasks w
    | (inr r, w3) =>
        exists w4 ts,
          forward_request E self net method body files data additional_data w
            = (inr r, w4)
          /\ tasks w4
             = tasks w ++ [{| timestamp := ts;
                              model_name := self_model self;
                              metric_api_url := api_url self;
                              latency_ms := Some (f_int (f_mul_int lat 1000));
                              time_to_first_token_us := None |}]
          /\ request_context w4 = request_context w3
    end.
Proof.
  intros self net method body files data additional_data w
    url hdrs body' files' data' response Hfmt Hnet Hok lat. subst lat.
  destruct (_format_response E self body' response
              (match additional_data with Some (x :: l) => x :: l | _ => [] end)
              _ (snd (time_perf_counter E (snd (time_perf_counter E w)))))
    as [[e|r] w3] eqn:Hf.
  - pose proof Hf as Hw. apply format_response_world in Hw. destruct Hw as [_ Ht].
    split; [|exact Ht].
    unfold forward_request, bind, lift. rewrite Hfmt. cbn iota beta.
    unfold time_perf_counter at 1 2. rewrite Hnet. unfold ret at 1. cbn iota beta.
    rewrite Hok. unfold ret at 1. cbn iota beta.
    unfold truthy.
    destruct additional_data as [[|x l]|]; cbn in Hf |- *; rewrite Hf; reflexivity.
  - pose proof Hf as Hw. apply format_response_world in Hw. destruct Hw as [_ Ht].
    cbn in Ht.
    do 2 eexists.
    split; [|split].
    + unfold forward_request, bind, lift. rewrite Hfmt. cbn iota beta.
      unfold time_perf_counter at 1 2. rewrite Hnet. unfold ret at 1. cbn iota beta.
      rewrite Hok. unfold ret at 1. cbn iota beta.
      unfold truthy.
      destruct additional_data as [[|x l]|]; cbn in Hf |- *; rewrite Hf;
        reflexivity.
    + cbn. rewrite Ht. reflexivity.
    + reflexivity.
Qed.

End UnaryFacts.

(** *** The stream *)

Section StreamMoreFacts.
Context {F : Type} {FO : PyFloat F} (E : Env F).

Lemma format_stream_response_world :
  forall (self : Client F) body response additional_data lat w r w',
    _format_stream_response E self body response additional_data lat w = (r, w') ->
    clock w' = clock w /\ tasks w' = tasks w.
Proof.
  intros self body response additional_data lat w r w' H.
  unfold _format_stream_response, bind, lift, ret, raise in H.
  destruct (scan_buffer E (JNull, []) response) as [e|[content chunks]];
    [injection H as _ <-; auto|].
  destruct content; try (injection H as _ <-; auto).
  match type of H with
  | context [_get_additional_data ?a ?b ?c ?d ?e ?f ?g] =>
      destruct (_get_additional_data a b c d e f g) as [[x|x] w1] eqn:Hx
  end; injection H as _ <-; eapply get_additional_data_world; eassumption.
Qed.

(** A chunk without the marker is never refused: it is yielded as it came
    and joins the buffer; no metric is scheduled and the request context
    is left alone; a first-token time already set stays. *)
Lemma body_chunk_outcome :
  forall status (st : StreamState F) chunk (w : World F),
    exists ftt w',
      body_chunk E status st chunk w
        = (inr ([(chunk, status)],
                {| buffer := buffer st ++ [chunk]; first_token_time := ftt |}), w')
      /\ tasks w' = tasks w
      /\ request_context w' = request_context w
      /\ (forall t, first_token_time st = Some t -> ftt = Some t /\ w' = w)
      /\ (first_token_time st = None ->
          first_token_probe E chunk = Some true ->
          ftt = Some (perf_counter E (clock w)))
      /\ (first_token_time st = None ->
          first_token_probe E chunk <> Some true ->
          ftt = None /\ w' = w).
Proof.
  intros status st chunk w.
  unfold body_chunk, bind, ret, time_perf_counter.
  destruct (first_token_time st) as [t|] eqn:Hft.
  - do 2 eexists. split; [reflexivity|].
    repeat split; try reflexivity; intros; congruence.
  - destruct (first_token_probe E chunk) as [[|]|] eqn:Hp;
      do 2 eexists; (split; [reflexivity|]);
      repeat split; try reflexivity; intros; congruence.
Qed.

Lemma run_chunks_passthrough :
  forall (self : Client F) body additional_data status start chunks
         (st : StreamState F) (w : World F),
    (status / 100 =? 2)%Z = true ->
    Forall (fun c => search_literal DONE_MARKER c = None) chunks ->
    exists st' w',
      run_chunks E self body additional_data status start st chunks w
        = (map (fun c => (c, status)) chunks, inr st', w')
      /\ buffer st' = buffer st ++ chunks
      /\ tasks w' = tasks w
      /\ request_context w' = request_context w
      /\ (forall t, first_token_time st = Some t -> first_token_time st' = Some t).
Proof.
  intros self body additional_data status start chunks st w Hst Hall.
  revert st w. induction Hall as [|c chunks Hc Hall IH]; intros st w.
  - exists st, w. cbn. rewrite app_nil_r. auto.
  - cbn [run_chunks map]. unfold on_chunk. rewrite Hst, Hc. cbn [negb].
    destruct (body_chunk_outcome status st c w)
      as (ftt & w1 & Hb & Ht & Hctx & Hkeep & _).
    rewrite Hb.
    destruct (IH {| buffer := buffer st ++ [c]; first_token_time := ftt |} w1)
      as (st' & w' & Hrun & Hbuf & Ht' & Hctx' & Hkeep').
    rewrite Hrun. exists st', w'.
    split; [reflexivity|].
    split; [rewrite Hbuf; cbn; now rewrite <- app_assoc|].
    split; [congruence|]. split; [congruence|].
    intros t Hft. apply Hkeep'. cbn. now apply Hkeep.
Qed.

(** X9.  A stream whose transport raises an exception that is no
    timeout, on connecting or after some chunks.  The pairs of the chunks
    handled before it have been yielded.  When the class of the exception
    derives from Exception, one more pair follows, the JSON object
    {"detail": name of the class} with status 500, and the generator
    raises nothing; an exception that derives from BaseException alone,
    such as asyncio.CancelledError, is not caught: no pair follows and the
    exception leaves the generator.  So a stream cancelled while it
    connects yields nothing and ends with CancelledError. *)
Theorem forward_stream_transport_error :
  forall (self : Client F) method body files data
         url hdrs body' files' data' e,
    _format_request E self body files data
      = inr (url, hdrs, body', files', data') ->
    (forall k, e <> HttpxTimeout k) ->
    (forall net additional_data (w : World F),
       net (request_of method (url, hdrs, body', files', data'))
         = ConnectRaises (PyError (U "CancelledError")) ->
       forward_stream E self net method body files data additional_data w
         = ([], Some (PyError (U "CancelledError")), w))
    /\ (forall net additional_data (w : World F),
       net (request_of method (url, hdrs, body', files', data'))
         = ConnectRaises e ->
       forward_stream E self net method body files data additional_data w
         = if isinstance_Exception e
           then ([(utf8_encode E
                     (dumps E (JDict [(U "detail", JStr (exn_name e))])),
                   500%Z)], None, w)
           else ([], Some e, w))
    /\ (forall net additional_data (w : World F) status chunks start w1 ys st1 w2,
         net (request_of method (url, hdrs, body', files', data'))
           = Streams status chunks (Some e) ->
         time_perf_counter E w = (inr start, w1) ->
         run_chunks E self body' additional_data status start
           {| buffer := []; first_token_time := None |} chunks w1
           = (ys, inr st1, w2) ->
         forward_stream E self net method body files data additional_data w
           = if isinstance_Exception e
             then (ys ++ [(utf8_encode E
                             (dumps E (JDict [(U "detail", JStr (exn_name e))])),
                           500%Z)], None, w2)
             else (ys, Some e, w2)).
Proof.
  intros self method body files data url hdrs body' files' data' e Hfmt Hne.
  assert (forall ys (w : World F),
            stream_raised E ys e w
              = if isinstance_Exception e
                then (ys ++ [(utf8_encode E
                                (dumps E (JDict [(U "detail", JStr (exn_name e))])),
                              500%Z)], None, w)
                else (ys, Some e, w)) as Hraised.
  { intros ys w. unfold stream_raised, stream_handler.
    destruct e as [k| |name]; [now elim (Hne k)|reflexivity|].
    destruct (isinstance_Exception (PyError name)); reflexivity. }
  split; [|split].
  - intros net additional_data w Hnet.
    unfold forward_stream. rewrite Hfmt, Hnet. reflexivity.
  - intros net additional_data w Hnet.
    unfold forward_stream. rewrite Hfmt, Hnet. apply (Hraised []).
  - intros net additional_data w status chunks start w1 ys st1 w2 Hnet Ht Hrun.
    unfold forward_stream. rewrite Hfmt, Hnet, Ht, Hrun. apply Hraised.
Qed.

(** What the scan of the buffer and the formatting of the stream's last
    event raise derives from Exception. *)
Lemma format_stream_response_raises :
  forall (self : Client F) body response additional_data lat (w : World F) e w',
    _format_stream_response E self body response additional_data lat w
      = (inl e, w') ->
    isinstance_Exception e = true.
Proof.
  intros self body response additional_data lat w e w' H.
  unfold _format_stream_response, bind, lift, ret, raise in H.
  destruct (scan_buffer E (JNull, []) response) as [e0|[content chunks]] eqn:Hs.
  - injection H as <- _. clear - Hs.
    generalize dependent (@JNull F, @nil (json F)).
    induction response as [|b response IH]; intros acc Hs; [discriminate|].
    cbn [scan_buffer] in Hs. destruct (utf8_decode E b).
    + eapply IH, Hs.
    + injection Hs as <-. reflexivity.
  - destruct content; try (injection H as <- _; reflexivity); try discriminate.
    match type of H with
    | context [_get_additional_data ?a ?b ?c ?d ?e ?f ?g] =>
        destruct (get_additional_data_total a b c d e f g) as (x & w2 & Hx);
        rewrite Hx in H
    end.
    discriminate.
Qed.

(** So does what an error chunk raises, which is no timeout. *)
Lemma error_chunk_raises :
  forall (chunk : bytes) (e : exn F),
    error_chunk E chunk = inl e ->
    isinstance_Exception e = true /\ exists name, e = PyError name.
Proof.
  intros chunk e H. unfold error_chunk in H.
  destruct (utf8_decode E chunk) as [s|];
    [|injection H as <-; split; [reflexivity|eauto]].
  destruct (loads E s) as [j|];
    [|injection H as <-; split; [reflexivity|eauto]].
  destruct (contains (U "message") j) as [e1|[|]] eqn:Hc.
  - injection H as <-. unfold contains in Hc.
    destruct j; try discriminate; injection Hc as <-;
      (split; [reflexivity|eauto]).
  - destruct j; try discriminate.
    destruct (getitem (JDict d) (U "message")) as [e1|v]; [discriminate|].
    destruct (ast_literal_eval E v); [|discriminate].
    destruct (literal_refused E v); [|discriminate].
    injection H as <-. split; [reflexivity|eauto].
  - discriminate.
Qed.

(** And what handling a chunk raises, in either mode. *)
Lemma on_chunk_raises :
  forall (self : Client F) body additional_data status start st chunk
         (w : World F) e w',
    on_chunk E self body additional_data status start st chunk w = (inl e, w') ->
    isinstance_Exception e = true.
Proof.
  intros self body additional_data status start st chunk w e w' H.
  unfold on_chunk in H.
  destruct (negb (status / 100 =? 2)%Z).
  - unfold bind, lift, ret in H.
    destruct (error_chunk E chunk) as [e0|c] eqn:Hc; [|discriminate].
    injection H as <- _. eapply error_chunk_raises, Hc.
  - destruct (search_literal DONE_MARKER chunk) as [i|].
    + unfold done_chunk, bind, ret, time_perf_counter, now, create_task,
        get_request_context in H.
      destruct (first_token_time st) as [t|]; cbn [andb] in H;
        [|destruct (py_ne (PyBytes (bytes_take i chunk)) (PyStr [])
                    && Nat.eqb (length (buffer st)) 0)];
        cbn [request_context clock ids tasks] in H;
        try (destruct (request_context w) as [ctx|];
             [|injection H as <- _; reflexivity]).
      all: match type of H with
           | context [_format_stream_response ?a ?b ?c ?d ?e ?f ?g] =>
               destruct (_format_stream_response a b c d e f g)
                 as [[e1|x] w1] eqn:Hf
           end.
      all: try (destruct x; discriminate).
      all: injection H as <- _; eapply format_stream_response_raises, Hf.
    + destruct (body_chunk_outcome status st chunk w)
        as (ftt & w1 & Hb & _).
      rewrite Hb in H. discriminate.
Qed.

Lemma run_chunks_raises :
  forall (self : Client F) body additional_data status start chunks st
         (w : World F) ys e w',
    run_chunks E self body additional_data status start st chunks w
      = (ys, inl e, w') ->
    isinstance_Exception e = true.
Proof.
  intros self body additional_data status start chunks.
  induction chunks as [|c chunks IH]; intros st w ys e w' H; [discriminate|].
  cbn [run_chunks] in H.
  destruct (on_chunk E self body additional_data status start st c w)
    as [[e0|[ys1 st1]] w1] eqn:Hc.
  - injection H as _ <- _. eapply on_chunk_raises, Hc.
  - destruct (run_chunks E self body additional_data status start st1 chunks w1)
      as [[ys2 r] w2] eqn:Hr.
    injection H as _ -> _. eapply IH, Hr.
Qed.

(** X10.  What leaves the generator, the creation and the closing of the
    HTTP client set aside.  The KeyError of an endpoint missing from the
    client's table leaves it before anything is yielded and before the
    clock is read.  Once the request is formatted, an exception that
    leaves the generator is not an instance of Exception; and it comes
    from the transport: whatever the chunks are, handling them raises
    nothing the handlers let through, so that the generator ends normally
    unless the transport raises, on connecting or between chunks, an
    exception that derives from BaseException alone. *)
Theorem forward_stream_exceptions :
  forall (self : Client F) net method body files data additional_data
         (w : World F),
    (table_get (endpoint self) (ENDPOINT_TABLE self) = None ->
     forward_stream E self net method body files data additional_data w
       = ([], Some (PyError (U "KeyError")), w))
    /\ (forall fr e,
          _format_request E self body files data = inr fr ->
          snd (fst (forward_stream E self net method body files data
                      additional_data w)) = Some e ->
          isinstance_Exception e = false
          /\ (net (request_of method fr) = ConnectRaises e
              \/ exists status chunks,
                   net (request_of method fr) = Streams status chunks (Some e)))
    /\ (forall fr,
          _format_request E self body files data = inr fr ->
          match net (request_of method fr) with
          | ConnectRaises e => isinstance_Exception e = true
          | Streams _ _ (Some e) => isinstance_Exception e = true
          | Streams _ _ None => True
          end ->
          snd (fst (forward_stream E self net method body files data
                      additional_data w)) = None).
Proof.
  intros self net method body files data additional_data w.
  assert (forall ys e0 (w0 : World F),
            snd (fst (stream_raised E ys e0 w0))
              = if isinstance_Exception e0 then None else Some e0) as Hraised.
  { intros ys e0 w0. unfold stream_raised, stream_handler.
    destruct e0 as [k| |name]; try reflexivity.
    destruct (isinstance_Exception (PyError name)); reflexivity. }
  split; [|split].
  - intros Ht. unfold forward_stream, _format_request. now rewrite Ht.
  - intros [[[[url hdrs] body'] files'] data'] e Hfmt.
    unfold forward_stream. rewrite Hfmt.
    destruct (net _) as [e0|status chunks tail].
    + rewrite Hraised. destruct (isinstance_Exception e0) eqn:He0; [discriminate|].
      intros He. injection He as <-. split; [exact He0|now left].
    + unfold time_perf_counter.
      destruct (run_chunks _ _ _ _ _ _ _ _ _) as [[ys [e1|st]] w2] eqn:Hrun.
      * rewrite Hraised. rewrite (run_chunks_raises _ _ _ _ _ _ _ _ _ _ _ Hrun).
        discriminate.
      * destruct tail as [e1|]; [|discriminate].
        rewrite Hraised.
        destruct (isinstance_Exception e1) eqn:He1; [discriminate|].
        intros He. injection He as <-. split; [exact He1|].
        right. now exists status, chunks.
  - intros [[[[url hdrs] body'] files'] data'] Hfmt.
    unfold forward_stream. rewrite Hfmt.
    destruct (net _) as [e0|status chunks tail].
    + intros He0. now rewrite Hraised, He0.
    + unfold time_perf_counter.
      destruct (run_chunks _ _ _ _ _ _ _ _ _) as [[ys [e1|st]] w2] eqn:Hrun.
      * intros _. rewrite Hraised.
        now rewrite (run_chunks_raises _ _ _ _ _ _ _ _ _ _ _ Hrun).
      * destruct tail as [e1|]; [|reflexivity].
        intros He1. now rewrite Hraised, He1.
Qed.

(** X11.  A 2xx stream none of whose chunks holds the done marker is
    passed through: each chunk is yielded as it came with the upstream
    status, in order; no metric is scheduled and the request context is
    not written, so no usage is recorded. *)
Theorem forward_stream_passthrough :
  forall (self : Client F) net method body files data additional_data
         (w : World F) url hdrs body' files' data' status chunks,
    _format_request E self body files data
      = inr (url, hdrs, body', files', data') ->
    net (request_of method (url, hdrs, body', files', data'))
      = Streams status chunks None ->
    (status / 100 =? 2)%Z = true ->
    Forall (fun c => search_literal DONE_MARKER c = None) chunks ->
    exists w',
      forward_stream E self net method body files data additional_data w
        = (map (fun c => (c, status)) chunks, None, w')
      /\ tasks w' = tasks w
      /\ request_context w' = request_context w.
Proof.
  intros self net method body files data additional_data w
    url hdrs body' files' data' status chunks Hfmt Hnet Hst Hall.
  unfold forward_stream. rewrite Hfmt, Hnet. unfold time_perf_counter.
  match goal with
  | |- context [run_chunks E self body' additional_data status ?s ?st chunks ?x] =>
      destruct (run_chunks_passthrough self body' additional_data status s chunks
                  st x Hst Hall) as (st' & w' & Hrun & _ & Ht & Hc & _)
  end.
  rewrite Hrun. exists w'. split; [reflexivity|]. split; assumption.
Qed.

Lemma on_chunk_keeps_first_token :
  forall (self : Client F) body additional_data status start st chunk
         (w : World F) t ys st' w',
    first_token_time st = Some t ->
    on_chunk E self body additional_data status start st chunk w
      = (inr (ys, st'), w') ->
    first_token_time st' = Some t.
Proof.
  intros self body additional_data status start st chunk w t ys st' w' Hft H.
  unfold on_chunk in H.
  destruct (negb (status / 100 =? 2)%Z).
  - unfold bind, lift, ret in H. destruct (error_chunk E chunk); [discriminate|].
    injection H as _ <- _. exact Hft.
  - destruct (search_literal DONE_MARKER chunk) as [i|].
    + unfold done_chunk, bind, ret, time_perf_counter, now, create_task in H.
      rewrite Hft in H. cbn [andb] in H.
      match type of H with
      | context [_format_stream_response ?a ?b ?c ?d ?e ?f ?g] =>
          destruct (_format_stream_response a b c d e f g) as [[x|[x|]] w1]
      end; try discriminate; injection H as _ <- _; reflexivity.
    + destruct (body_chunk_outcome status st chunk w)
        as (ftt & w1 & Hb & _ & _ & Hkeep & _).
      rewrite Hb in H. injection H as _ <- _. cbn. now apply Hkeep.
Qed.

(** X12.  Once the first-token time is set, no later chunk of the stream
    changes it, whichever branch handles the chunk. *)
Theorem first_token_time_set_once :
  forall (self : Client F) body additional_data status start chunks st
         (w : World F) t ys st' w',
    first_token_time st = Some t ->
    run_chunks E self body additional_data status start st chunks w
      = (ys, inr st', w') ->
    first_token_time st' = Some t.
Proof.
  intros self body additional_data status start chunks.
  induction chunks as [|c chunks IH]; intros st w t ys st' w' Hft H.
  - cbn in H. injection H as _ <- _. exact Hft.
  - cbn [run_chunks] in H.
    destruct (on_chunk E self body additional_data status start st c w)
      as [[e|[ys1 st1]] w1] eqn:Hc; [discriminate|].
    destruct (run_chunks E self body additional_data status start st1 chunks w1)
      as [[ys2 r] w2] eqn:Hr.
    injection H as _ -> <-.
    eapply IH; [|exact Hr].
    eapply on_chunk_keeps_first_token; eassumption.
Qed.

(** The formatting of a buffer whose last event is an object, with the
    additional data it lays over the event. *)
Lemma format_stream_response_extra :
  forall (self : Client F) body response additional_data lat (w : World F)
         d chunks,
    scan_buffer E (JNull, []) response = inr (JDict d, chunks) ->
    exists extra w',
      _get_additional_data E self body
        (JList (removelast chunks
                  ++ [JDict (dict_update d [(U "choices", JList [])])]))
        true lat w = (inr extra, w')
      /\ _format_stream_response E self body response additional_data lat w
         = (inr (Some (dict_update
                         (dict_update (dict_update d [(U "choices", JList [])])
                            extra)
                         additional_data)), w').
Proof.
  intros self body response additional_data lat w d chunks Hs.
  unfold _format_stream_response, bind, lift. rewrite Hs.
  destruct (get_additional_data_total E self body
              (JList (removelast chunks
                        ++ [JDict (dict_update d [(U "choices", JList [])])]))
              true lat w) as (extra & w' & Hx).
  exists extra, w'. rewrite Hx. split; reflexivity.
Qed.

(** X13.  A whole 2xx stream: chunks without the marker and then a chunk
    with it, a request context being set and the last event decoded from
    the buffer being a JSON object.  The generator yields every earlier
    chunk as it came, then the pre-marker bytes, one synthesized event and
    the bytes from the marker on, ends normally, and has scheduled exactly
    one metric, for the client's model and URL.  The synthesized event is
    the last event with its choices cleared, overlaid by fields that set
    "model" to the client's own and then by the caller's fields. *)
Theorem forward_stream_scenario :
  forall (self : Client F) net method body files data additional_data
         (w : World F) url hdrs body' files' data' status before last i d evs,
    _format_request E self body files data
      = inr (url, hdrs, body', files', data') ->
    net (request_of method (url, hdrs, body', files', data'))
      = Streams status (before ++ [last]) None ->
    (status / 100 =? 2)%Z = true ->
    Forall (fun c => search_literal DONE_MARKER c = None) before ->
    search_literal DONE_MARKER last = Some i ->
    request_context w <> None ->
    scan_buffer E (JNull, []) (before ++ [bytes_take i last])
      = inr (JDict d, evs) ->
    exists extra w' m,
      forward_stream E self net method body files data additional_data w
        = (map (fun c => (c, status)) before
           ++ [ (bytes_take i last, status);
                (utf8_encode E
                   (U "data: "
                    ++ dumps E
                         (JDict
                            (dict_update
                               (dict_update
                                  (dict_update d [(U "choices", JList [])])
                                  extra)
                               additional_data))
                    ++ [10; 10]%N), status);
                (bytes_drop i last, status) ], None, w')
      /\ dict_get (U "model") extra = Some (JStr (self_model self))
      /\ tasks w' = tasks w ++ [m]
      /\ model_name m = self_model self
      /\ metric_api_url m = api_url self.
Proof.
  intros self net method body files data additional_data w
    url hdrs body' files' data' status before last i d evs
    Hfmt Hnet Hst Hall Hi Hctx Hscan.
  unfold forward_stream. rewrite Hfmt, Hnet. unfold time_perf_counter.
  rewrite run_chunks_app.
  match goal with
  | |- context [run_chunks E self body' additional_data status ?s ?st before ?x] =>
      destruct (run_chunks_passthrough self body' additional_data status s before
                  st x Hst Hall) as (st1 & w1 & Hrun & Hbuf & Ht & Hc & _);
      rewrite Hrun
  end.
  cbn [run_chunks]. cbn [buffer app] in Hbuf.
  unfold on_chunk. rewrite Hst, Hi. cbn [negb].
  destruct (done_chunk_metric E self body' additional_data status
              (perf_counter E (clock w)) st1 last i w1)
    as (ftt & lat & w2 & Ht2 & _ & Hout).
  { intros _ _. rewrite Hc. exact Hctx. }
  rewrite Hbuf in Hout.
  destruct (format_stream_response_extra self body' _ additional_data lat w2 _ _
              Hscan) as (extra & w3 & Hx & Hf).
  pose proof Hf as Hw. apply format_stream_response_world in Hw.
  destruct Hw as [_ Ht3].
  destruct (additional_data_keys_nodup E _ _ _ _ _ _ _ _ Hx) as [_ Hmodel].
  destruct (Hout _ _ Hf) as (st' & Hd).
  rewrite Hd. do 3 eexists.
  split; [reflexivity|]. split; [exact Hmodel|]. cbn [tasks].
  split; [rewrite Ht3, Ht2, Ht; reflexivity|].
  split; reflexivity.
Qed.




End StreamMoreFacts.

(** *** The metrics store *)

(** X16.  With a store that accepts every call, logging a metric returns
    normally after writing one sample per field that is set: the time to
    first token if any, then the latency if any, each on the series keyed
    by the metric's model and URL and at the metric's timestamp; [reset]
    is not called. *)
Theorem log_performance_metric_calls :
  forall (redis : Redis) (metric : Metric) (h : list RedisCall),
    (forall h' c, redis h' c = None) ->
    _log_performance_metric redis metric h
      = (inr tt,
         h ++ match time_to_first_token_us metric with
              | Some v =>
                  [TsAdd (time_to_first_token_ts_key (model_name metric)
                            (metric_api_url metric)) v (timestamp metric)]
              | None => []
              end
           ++ match latency_ms metric with
              | Some v =>
                  [TsAdd (latency_ts_key (model_name metric) (metric_api_url metric))
                         v (timestamp metric)]
              | None => []
              end).
Proof.
  intros redis metric h Hok.
  unfold _log_performance_metric, redis_call.
  destruct (time_to_first_token_us metric) as [v|];
    destruct (latency_ms metric) as [l|];
    rewrite ?Hok; cbn; rewrite <- ?app_assoc, ?app_nil_r; reflexivity.
Qed.

(** X17.  What logging a metric lets escape: only the exception of the
    [reset] it calls after the write of the time to first token failed;
    the latency is then not written.  In every other case it returns
    normally, and if the metric has a latency the write of the latency is
    the last call made, whether or not the store accepted it. *)
Theorem log_performance_metric_failures :
  forall (redis : Redis) (metric : Metric) (h : list RedisCall) r h',
    _log_performance_metric redis metric h = (r, h') ->
    let ttft_key := time_to_first_token_ts_key (model_name metric)
                      (metric_api_url metric) in
    let lat_key := latency_ts_key (model_name metric) (metric_api_url metric) in
    (forall msg, r = inl msg ->
       exists v,
         time_to_first_token_us metric = Some v
         /\ redis h (TsAdd ttft_key v (timestamp metric)) <> None
         /\ redis (h ++ [TsAdd ttft_key v (timestamp metric)]) Reset = Some msg
         /\ h' = h ++ [TsAdd ttft_key v (timestamp metric); Reset])
    /\ (r = inr tt ->
        forall v, latency_ms metric = Some v ->
        exists before, h' = before ++ [TsAdd lat_key v (timestamp metric)]).
Proof.
  intros redis metric h r h' H ttft_key lat_key. subst ttft_key lat_key.
  unfold _log_performance_metric, redis_call in H.
  destruct (time_to_first_token_us metric) as [t|].
  - destruct (redis h _) as [m1|] eqn:H1.
    + destruct (redis (h ++ _) Reset) as [m2|] eqn:H2.
      * injection H as <- <-. split; [|discriminate].
        intros msg Hm. injection Hm as <-. exists t.
        repeat split; [congruence|exact H2|now rewrite <- app_assoc].
      * split; [|intros _ v Hv; rewrite Hv in H; injection H as _ <-; eauto].
        intros msg ->. destruct (latency_ms metric); discriminate.
    + split; [|intros _ v Hv; rewrite Hv in H; injection H as _ <-; eauto].
      intros msg ->. destruct (latency_ms metric); discriminate.
  - split; [|intros _ v Hv; rewrite Hv in H; injection H as _ <-; eauto].
    intros msg ->. destruct (latency_ms metric); discriminate.
Qed.

(** X18.  Setting up the two series.  When the first creation succeeds or
    fails with "TSDB: key already exists", both creations are made and the
    call returns normally, whatever the second answers.  When the first
    fails with another message, [reset] is called: if it succeeds the
    second creation follows and the call returns normally; if it raises,
    its exception escapes and the latency series is never created. *)
Theorem setup_metrics_storage_outcome :
  forall (redis : Redis) (model api_url : str) (h : list RedisCall),
    let c1 := TsCreate (time_to_first_token_ts_key model api_url) 3600000 in
    let c2 := TsCreate (latency_ts_key model api_url) 3600000 in
    (redis h c1 = None \/ redis h c1 = Some KEY_EXISTS ->
     setup_metrics_storage redis model api_url h = (inr tt, h ++ [c1; c2]))
    /\ (forall msg,
          redis h c1 = Some msg -> msg <> KEY_EXISTS ->
          redis (h ++ [c1]) Reset = None ->
          setup_metrics_storage redis model api_url h
            = (inr tt, h ++ [c1; Reset; c2]))
    /\ (forall msg e,
          redis h c1 = Some msg -> msg <> KEY_EXISTS ->
          redis (h ++ [c1]) Reset = Some e ->
          setup_metrics_storage redis model api_url h
            = (inl e, h ++ [c1; Reset])).
Proof.
  intros redis model api_url h c1 c2. subst c1 c2.
  unfold setup_metrics_storage, redis_call. repeat split.
  - intros [H|H]; rewrite H; [|rewrite str_eqb_refl];
      rewrite <- app_assoc; reflexivity.
  - intros msg H Hne Hr. rewrite H.
    apply str_eqb_neq in Hne. rewrite Hne, Hr.
    rewrite <- !app_assoc. reflexivity.
  - intros msg e H Hne Hr. rewrite H.
    apply str_eqb_neq in Hne. rewrite Hne, Hr.
    rewrite <- app_assoc. reflexivity.
Qed.

(** *** The unary call and the metrics store *)

Section MetricFacts.
Context {F : Type} {FO : PyFloat F} (E : Env F).

(** A unary call that returns has scheduled one metric, which carries a
    latency and no time to first token. *)
Lemma forward_request_returns :
  forall (self : Client F) net method body files data additional_data
         (w : World F) r w',
    forward_request E self net method body files data additional_data w
      = (inr r, w') ->
    exists ts v,
      tasks w'
        = tasks w ++ [{| timestamp := ts;
                         model_name := self_model self;
                         metric_api_url := api_url self;
                         latency_ms := Some v;
                         time_to_first_token_us := None |}].
Proof.
  intros self net method body files data additional_data w r w' H.
  unfold forward_request, bind, lift in H.
  destruct (_format_request E self body files data)
    as [e|[[[[url hdrs] body'] files'] data']]; [discriminate|].
  cbn iota beta in H. unfold time_perf_counter at 1 in H.
  destruct (net _) as [e|response];
    [destruct e; try discriminate;
     destruct (isinstance_Exception _); discriminate|].
  unfold ret at 1 in H. cbn iota beta in H.
  unfold time_perf_counter at 1 in H.
  destruct (is_success (status_code response)).
  2: { destruct (error_message E response); discriminate. }
  unfold ret at 1 in H. cbn iota beta in H.
  match type of H with
  | context [_format_response ?a ?b ?c ?d ?e ?f ?g] =>
      destruct (_format_response a b c d e f g) as [[x|x] w3] eqn:Hf
  end; [discriminate|].
  apply format_response_world in Hf. destruct Hf as [_ Ht]. cbn in Ht.
  unfold now, create_task, ret in H. injection H as _ <-.
  cbn [tasks]. rewrite Ht. eauto.
Qed.

(** X19.  The unary call and the logger together: a call that returns has
    scheduled exactly one metric, and logging that metric makes exactly
    one call to the store, a write on the latency series of the client's
    model and URL, and returns normally even when the store refuses
    it. *)
Theorem unary_metric_is_one_latency_write :
  forall (self : Client F) net method body files data additional_data
         (w : World F) r w',
    forward_request E self net method body files data additional_data w
      = (inr r, w') ->
    exists m,
      tasks w' = tasks w ++ [m]
      /\ forall (redis : Redis) (h : list RedisCall),
           exists v ts,
             _log_performance_metric redis m h
               = (inr tt,
                  h ++ [TsAdd (latency_ts_key (self_model self) (api_url self))
                              v ts]).
Proof.
  intros self net method body files data additional_data w r w' H.
  apply forward_request_returns in H. destruct H as (ts & v & Ht).
  eexists. split; [exact Ht|].
  intros redis h. exists v, ts.
  reflexivity.
Qed.

End MetricFacts.

(** *** The document manager *)

Lemma str_eqb_sym (a b : str) : str_eqb a b = str_eqb b a.
Proof.
  destruct (str_eqb a b) eqn:H1, (str_eqb b a) eqn:H2; try reflexivity.
  - apply str_eqb_eq in H1. subst. now rewrite str_eqb_refl in H2.
  - apply str_eqb_eq in H2. subst. now rewrite str_eqb_refl in H1.
Qed.

Lemma str_in_In (name : str) (l : list str) : str_in name l = true <-> In name l.
Proof.
  unfold str_in. rewrite existsb_exists. split.
  - intros (x & Hin & Hx). apply str_eqb_eq in Hx. now subst.
  - intros Hin. exists name. split; [exact Hin|apply str_eqb_refl].
Qed.

Lemma str_in_ext (name : str) (l l' : list str) :
  (forall x, In x l <-> In x l') -> str_in name l = str_in name l'.
Proof.
  intros H. destruct (str_in name l) eqn:H1, (str_in name l') eqn:H2;
    try reflexivity.
  - apply str_in_In, H, str_in_In in H1. congruence.
  - apply str_in_In, H, str_in_In in H2. congruence.
Qed.

Section DocumentFacts.
Context {F : Type} {FO : PyFloat F}.
Context {VectorStore WebSearchManager ParserManager MultiAgentManager : Type}.
Context {ModelRouter : Type}.

Local Abbreviation DM :=
  (DocumentManager VectorStore WebSearchManager ParserManager MultiAgentManager
     ModelRouter).

Lemma dependencies_ready_spec :
  forall (self : DM) (deps : list str),
    forallb (dependency_ready self) deps
      = negb (str_in (U "vector_store") deps && is_none (vector_store self))
        && negb (str_in (U "web_search_manager") deps
                 && is_none (web_search_manager self))
        && negb (str_in (U "parser_manager") deps
                 && is_none (parser_manager self))
        && negb (str_in (U "multi_agent_manager") deps
                 && is_none (multi_agent_manager self)).
Proof.
  intros self deps. induction deps as [|name deps IH].
  - reflexivity.
  - cbn [forallb]. rewrite IH. unfold str_in. cbn [existsb].
    unfold dependency_ready.
    rewrite (str_eqb_sym (U "vector_store") name),
      (str_eqb_sym (U "web_search_manager") name),
      (str_eqb_sym (U "parser_manager") name),
      (str_eqb_sym (U "multi_agent_manager") name).
    destruct (str_eqb name (U "vector_store")) eqn:E1.
    { apply str_eqb_eq in E1. subst name. cbn.
      destruct (is_none (vector_store self)); cbn; [reflexivity|].
      now rewrite andb_false_r. }
    destruct (str_eqb name (U "web_search_manager")) eqn:E2.
    { apply str_eqb_eq in E2. subst name. cbn.
      destruct (is_none (web_search_manager self)); cbn;
        [now rewrite andb_false_r|now rewrite andb_false_r]. }
    destruct (str_eqb name (U "parser_manager")) eqn:E3.
    { apply str_eqb_eq in E3. subst name. cbn.
      destruct (is_none (parser_manager self)); cbn;
        [now rewrite !andb_false_r|now rewrite !andb_false_r]. }
    destruct (str_eqb name (U "multi_agent_manager")) eqn:E4.
    { apply str_eqb_eq in E4. subst name. cbn.
      destruct (is_none (multi_agent_manager self)); cbn;
        [now rewrite !andb_false_r|now rewrite !andb_false_r]. }
    reflexivity.
Qed.

(** X20.  The dependency wrapper calls the method exactly when every
    dependency it is given that it knows is set on the manager, and
    otherwise raises an HTTP 400 without calling it; a name it does not
    know asks for nothing.  Only which names are given matters, not their
    order or repetition. *)
Theorem check_dependencies_gate :
  forall (A : Type) (deps : list str) (method : DM -> A) (self : DM),
    (forallb (dependency_ready self) deps = true ->
     check_dependencies (F:=F) deps method self = inr (method self))
    /\ (forallb (dependency_ready self) deps = false ->
        exists msg,
          check_dependencies (F:=F) deps method self
            = inl (HTTPException 400 (JStr msg)))
    /\ (forall deps',
          (forall name, In name deps <-> In name deps') ->
          check_dependencies (F:=F) deps' method self
            = check_dependencies deps method self).
Proof.
  intros A deps method self. split; [|split].
  - rewrite dependencies_ready_spec. intros H.
    apply andb_true_iff in H as [H H4]. apply andb_true_iff in H as [H H3].
    apply andb_true_iff in H as [H1 H2].
    apply negb_true_iff in H1, H2, H3, H4.
    unfold check_dependencies. now rewrite H1, H2, H3, H4.
  - rewrite dependencies_ready_spec. intros H.
    unfold check_dependencies.
    destruct (str_in (U "vector_store") deps && is_none (vector_store self));
      [eauto|].
    destruct (str_in (U "web_search_manager") deps
              && is_none (web_search_manager self)); [eauto|].
    destruct (str_in (U "parser_manager") deps && is_none (parser_manager self));
      [eauto|].
    destruct (str_in (U "multi_agent_manager") deps
              && is_none (multi_agent_manager self)); [eauto|].
    discriminate H.
  - intros deps' Hext. unfold check_dependencies.
    now rewrite !(str_in_ext _ deps deps' Hext).
Qed.

End DocumentFacts.

(** *** Batches *)

Section BatchFacts.
Context {A : Type}.

Lemma batched_fuel_concat :
  forall (fuel n : nat) (l : list A),
    (length l <= fuel)%nat -> (0 < n)%nat -> concat (batched_fuel fuel n l) = l.
Proof.
  induction fuel as [|fuel IH]; intros n l Hf Hn.
  - destruct l; [reflexivity|cbn in Hf; lia].
  - destruct l as [|a l]; [reflexivity|].
    cbn [batched_fuel concat]. rewrite IH; [apply firstn_skipn| |exact Hn].
    rewrite length_skipn. cbn [length] in *. lia.
Qed.

Lemma batched_fuel_sizes :
  forall (fuel n : nat) (l : list A),
    (0 < n)%nat ->
    Forall (fun b => (1 <= length b <= n)%nat) (batched_fuel fuel n l).
Proof.
  induction fuel as [|fuel IH]; intros n l Hn; [constructor|].
  destruct l as [|a l]; [constructor|].
  cbn [batched_fuel]. constructor; [|now apply IH].
  rewrite length_firstn. cbn [length]. lia.
Qed.

Lemma batched_fuel_full :
  forall (fuel n : nat) (l : list A) (bs : list (list A)) (b : list A),
    (0 < n)%nat ->
    batched_fuel fuel n l = bs ++ [b] ->
    Forall (fun x => length x = n) bs.
Proof.
  induction fuel as [|fuel IH]; intros n l bs b Hn H.
  - destruct bs; discriminate.
  - destruct l as [|a l]; [destruct bs; discriminate|].
    cbn [batched_fuel] in H. destruct bs as [|b0 bs]; [constructor|].
    injection H as <- H. constructor; [|eapply IH; eassumption].
    rewrite length_firstn.
    destruct (Nat.le_gt_cases n (length (a :: l))) as [Hle|Hgt]; [lia|].
    rewrite skipn_all2 in H by lia.
    destruct fuel; destruct bs; discriminate.
Qed.

Lemma batched_fuel_count :
  forall (fuel n : nat) (l : list A),
    (length l <= fuel)%nat -> (0 < n)%nat ->
    length (batched_fuel fuel n l) = ((length l + n - 1) / n)%nat.
Proof.
  induction fuel as [|fuel IH]; intros n l Hf Hn.
  - destruct l; [|cbn in Hf; lia]. cbn.
    symmetry. apply Nat.div_small. lia.
  - destruct l as [|a l].
    + cbn. symmetry. apply Nat.div_small. lia.
    + cbn [batched_fuel length]. rewrite IH; [| |exact Hn].
      2: { rewrite length_skipn. cbn [length] in *. lia. }
      rewrite length_skipn. cbn [length].
      destruct (Nat.le_gt_cases n (S (length l))) as [Hle|Hgt].
      * replace (S (length l) + n - 1)%nat
          with ((S (length l) - n + n - 1) + 1 * n)%nat by lia.
        rewrite Nat.div_add by lia. lia.
      * replace (S (length l) - n)%nat with 0%nat by lia.
        rewrite (Nat.div_small (0 + n - 1)%nat n) by lia.
        apply (Nat.div_unique _ _ 1%nat (length l)); lia.
Qed.

End BatchFacts.

Section UpsertFacts.
Context {F : Type} {FO : PyFloat F} {Chunk : Type}.
Variable content : Chunk -> str.

Local Abbreviation call_ok cid :=
  (fun c : StoreCall F Chunk =>
     match c with
     | UpsertCall c' b _ => c' = cid /\ (1 <= length b <= 32)%nat
     | EmbedCall t => (1 <= length t <= 32)%nat
     end).

Lemma upserted_app :
  forall (a b : list (StoreCall F Chunk)),
    upserted (a ++ b) = upserted a ++ upserted b.
Proof. intros a b. unfold upserted. apply flat_map_app. Qed.

Lemma upsert_batches_calls :
  forall (o : StoreOracle F Chunk) cid batches h r h',
    Forall (fun b => (1 <= length b <= 32)%nat) batches ->
    upsert_batches content o cid batches h = (r, h') ->
    exists calls done rest,
      h' = h ++ calls
      /\ batches = done ++ rest
      /\ upserted calls = concat done
      /\ (r = inr tt -> rest = [])
      /\ Forall (call_ok cid) calls.
Proof.
  intros o cid batches. induction batches as [|b batches IH];
    intros h r h' Hsz H.
  - cbn in H. injection H as <- <-. exists [], [], [].
    rewrite app_nil_r. repeat split; auto.
  - inversion Hsz as [|? ? Hb Hsz']; subst.
    cbn [upsert_batches] in H.
    destruct (embeddings_of o h (map content b)) as [e|emb].
    + injection H as <- <-.
      exists [EmbedCall (map content b)], [], (b :: batches).
      repeat split; try discriminate.
      constructor; [|constructor]. now rewrite length_map.
    + destruct (upsert_raises o _ cid b emb) as [e|].
      * injection H as <- <-.
        exists [EmbedCall (map content b); UpsertCall cid b emb], [b], batches.
        rewrite <- app_assoc. cbn. rewrite app_nil_r.
        repeat split; try discriminate.
        constructor; [now rewrite length_map|].
        constructor; [auto|constructor].
      * apply IH in H; [|exact Hsz'].
        destruct H as (calls & done & rest & -> & -> & Hu & Hr & Hok).
        exists (EmbedCall (map content b) :: UpsertCall cid b emb :: calls),
          (b :: done), rest.
        rewrite <- !app_assoc.
        split; [reflexivity|]. split; [reflexivity|].
        split; [cbn [concat]; rewrite <- Hu; reflexivity|].
        split; [exact Hr|].
        constructor; [now rewrite length_map|].
        constructor; [auto|exact Hok].
Qed.

(** X21.  Whatever the embedding model and the vector store answer,
    [_upsert] hands chunks to the store in their order and without
    skipping or repeating any: the chunks of the upsert calls made, put
    end to end, are a prefix of the chunks given, and all of them when the
    call returns normally.  No call is made for an empty list, every call
    carries between 1 and 32 items, and every upsert names the collection
    given. *)
Theorem upsert_calls :
  forall (o : StoreOracle F Chunk) (chunks : list Chunk) cid h r h',
    _upsert content o chunks cid h = (r, h') ->
    exists calls rest,
      h' = h ++ calls
      /\ chunks = upserted calls ++ rest
      /\ (r = inr tt -> rest = [])
      /\ (chunks = [] -> calls = [])
      /\ Forall (call_ok cid) calls.
Proof.
  intros o chunks cid h r h' H. unfold _upsert, batched, BATCH_SIZE in H.
  pose proof (batched_fuel_sizes (length chunks) 32 chunks) as Hsz.
  pose proof (batched_fuel_concat (length chunks) 32 chunks) as Hcat.
  destruct (upsert_batches_calls o cid _ h r h' (Hsz ltac:(lia)) H)
    as (calls & done & rest & -> & Hb & Hu & Hr & Hok).
  exists calls, (concat rest).
  split; [reflexivity|].
  split; [rewrite Hu, <- concat_app, <- Hb; symmetry; apply Hcat; lia|].
  split; [intros Hrr; now rewrite (Hr Hrr)|].
  split; [|exact Hok].
  intros ->. cbn in H. injection H as _ Hh.
  rewrite <- (app_nil_r h) in Hh at 1. now apply app_inv_head in Hh.
Qed.

Lemma upsert_batches_success :
  forall (o : StoreOracle F Chunk) cid batches h,
    (forall h' t, exists v, embeddings_of o h' t = inr v) ->
    (forall h' c b e, upsert_raises o h' c b e = None) ->
    exists calls,
      upsert_batches content o cid batches h = (inr tt, h ++ calls)
      /\ length calls = (2 * length batches)%nat
      /\ upserted calls = concat batches.
Proof.
  intros o cid batches h Hemb Hup. revert h.
  induction batches as [|b batches IH]; intros h.
  - exists []. cbn. now rewrite app_nil_r.
  - cbn [upsert_batches].
    destruct (Hemb h (map content b)) as (v & Hv). rewrite Hv, Hup.
    destruct (IH ((h ++ [EmbedCall (map content b)]) ++ [UpsertCall cid b v]))
      as (calls & Hrun & Hlen & Hu).
    exists (EmbedCall (map content b) :: UpsertCall cid b v :: calls).
    rewrite Hrun, <- !app_assoc.
    split; [reflexivity|]. split; [cbn [length]; lia|].
    cbn [concat]. rewrite <- Hu. reflexivity.
Qed.

(** X22.  When neither the embedding model nor the vector store raises,
    [_upsert] returns normally, every chunk has been handed to the store
    exactly once and in order, and the calls made are two for each batch
    of 32: twice the number of chunks divided by 32, rounded up. *)
Theorem upsert_success :
  forall (o : StoreOracle F Chunk) (chunks : list Chunk) cid h,
    (forall h' t, exists v, embeddings_of o h' t = inr v) ->
    (forall h' c b e, upsert_raises o h' c b e = None) ->
    exists calls,
      _upsert content o chunks cid h = (inr tt, h ++ calls)
      /\ upserted calls = chunks
      /\ length calls = (2 * ((length chunks + 31) / 32))%nat.
Proof.
  intros o chunks cid h Hemb Hup. unfold _upsert, batched, BATCH_SIZE.
  destruct (upsert_batches_success o cid
              (batched_fuel (length chunks) 32 chunks) h Hemb Hup)
    as (calls & Hrun & Hlen & Hu).
  exists calls. split; [exact Hrun|].
  split.
  - rewrite Hu. apply batched_fuel_concat; lia.
  - rewrite Hlen, batched_fuel_count by lia.
    replace (length chunks + 32 - 1)%nat with (length chunks + 31)%nat by lia.
    reflexivity.
Qed.

End UpsertFacts.

Section EmbeddingFacts.
Context {F : Type} {FO : PyFloat F}.
Context {VectorStore WebSearchManager ParserManager MultiAgentManager : Type}.
Context {ModelRouter : Type}.
Variable E : Env F.
Variable get_client : ModelRouter -> Endpoint -> exn F + Client F.
Variable router_name : ModelRouter -> str.

Local Abbreviation DM :=
  (DocumentManager VectorStore WebSearchManager ParserManager MultiAgentManager
     ModelRouter).

(** A unary call asks the transport one thing: the answer to the request
    it has formatted. *)
Lemma forward_request_net_ext :
  forall (self : Client F) net net' method body files data additional_data
         (w : World F) fr,
    _format_request E self body files data = inr fr ->
    net' (request_of method fr) = net (request_of method fr) ->
    forward_request E self net' method body files data additional_data w
      = forward_request E self net method body files data additional_data w.
Proof.
  intros self net net' method body files data additional_data w fr Hfmt Hnet.
  unfold forward_request, bind at 1 8, lift at 1 3. rewrite Hfmt.
  destruct fr as [[[[url hdrs] body'] files'] data']. cbv beta iota.
  unfold bind at 1 7. unfold time_perf_counter at 1 3.
  unfold bind at 1 6. rewrite Hnet. reflexivity.
Qed.

(** X23.  [_create_embeddings] raises what [get_client] raises, and
    KeyError when the embeddings endpoint is missing from the table of the
    client it got, in both cases before any request.  Otherwise its result
    depends on the transport only through the answer to one request: a
    POST to the client's embeddings URL with the bearer header, no files
    and no form data, whose JSON body holds the input, the encoding format
    "float" and, as model, the client's own model name in place of the
    router's. *)
Theorem create_embeddings_request :
  forall (self : DM) net (input : list str) (w : World F),
    (forall e,
       get_client (vector_store_model self) ENDPOINT__EMBEDDINGS = inl e ->
       _create_embeddings E get_client router_name self net input w = (inl e, w))
    /\ (forall client,
          get_client (vector_store_model self) ENDPOINT__EMBEDDINGS = inr client ->
          table_get (endpoint client) (ENDPOINT_TABLE client) = None ->
          _create_embeddings E get_client router_name self net input w
            = (inl (PyError (U "KeyError")), w))
    /\ (forall client path net',
          get_client (vector_store_model self) ENDPOINT__EMBEDDINGS = inr client ->
          table_get (endpoint client) (ENDPOINT_TABLE client) = Some path ->
          net' {| req_method := U "POST";
                  req_url := urljoin E (api_url client) path;
                  req_headers := [(U "Authorization", U "Bearer " ++ api_key client)];
                  req_json :=
                    Some [ (U "input", JList (map JStr input));
                           (U "model", JStr (self_model client));
                           (U "encoding_format", JStr (U "float")) ];
                  req_files := None;
                  req_data := None |}
            = net {| req_method := U "POST";
                     req_url := urljoin E (api_url client) path;
                     req_headers := [(U "Authorization", U "Bearer " ++ api_key client)];
                     req_json :=
                       Some [ (U "input", JList (map JStr input));
                              (U "model", JStr (self_model client));
                              (U "encoding_format", JStr (U "float")) ];
                     req_files := None;
                     req_data := None |} ->
          _create_embeddings E get_client router_name self net' input w
            = _create_embeddings E get_client router_name self net input w).
Proof.
  intros self net input w. split; [|split].
  - intros e He. unfold _create_embeddings, bind, lift. now rewrite He.
  - intros client Hc Ht.
    unfold _create_embeddings, bind at 1, lift at 1. rewrite Hc.
    unfold forward_request, bind at 2, lift at 1, _format_request.
    rewrite Ht. reflexivity.
  - intros client path net' Hc Ht Hnet.
    unfold _create_embeddings, bind, lift. rewrite Hc.
    erewrite forward_request_net_ext;
      [reflexivity
      |unfold _format_request; rewrite Ht; reflexivity
      |exact Hnet].
Qed.

End EmbeddingFacts.

(** *** Searching chunks *)

Section SearchFacts.
Context {F : Type} {FO : PyFloat F}.
Context {VectorStore WebSearchManager ParserManager MultiAgentManager : Type}.
Context {ModelRouter : Type}.
Context {Search SearchMethod : Type}.
Variable is_multiagent : SearchMethod -> bool.
Variable default_method : VectorStore -> SearchMethod.
Variable str_of_int : Z -> str.

Local Abbreviation DM :=
  (DocumentManager VectorStore WebSearchManager ParserManager MultiAgentManager
     ModelRouter).
Local Abbreviation Call := (SearchCall F Search SearchMethod).
Local Abbreviation Oracle := (SearchOracle F Search SearchMethod).

(** The selects of a list of collections, in order. *)
Local Abbreviation selects user_id ids :=
  (map (fun c => SelectCollection c user_id : Call) ids).

Local Abbreviation is_delete :=
  (fun c : Call => match c with DeleteCollection _ _ => true | _ => false end).

Lemma check_collections_found :
  forall (o : Oracle) user_id ids h,
    (forall c h', In c ids -> select_collection o h' c user_id = inr true) ->
    check_collections str_of_int o user_id ids h
      = (inr tt, h ++ selects user_id ids).
Proof.
  intros o user_id ids. induction ids as [|c ids IH]; intros h Hall.
  - cbn. now rewrite app_nil_r.
  - cbn [check_collections map]. unfold doc_bind, doc_call.
    rewrite (Hall c h (or_introl eq_refl)).
    rewrite IH by (intros c' h' Hin; apply Hall; now right).
    now rewrite <- app_assoc.
Qed.

Lemma check_collections_missing :
  forall (o : Oracle) user_id pre c post h,
    (forall c' h', In c' pre -> select_collection o h' c' user_id = inr true) ->
    (forall h', select_collection o h' c user_id = inr false) ->
    check_collections str_of_int o user_id (pre ++ c :: post) h
      = (inl (CollectionNotFoundException
                (Some (U "Collection " ++ str_of_int c ++ U " not found."))),
         h ++ selects user_id (pre ++ [c])).
Proof.
  intros o user_id pre. induction pre as [|p pre IH]; intros c post h Hpre Hc.
  - cbn [app check_collections map]. unfold doc_bind, doc_call.
    rewrite Hc. reflexivity.
  - cbn [app check_collections map]. unfold doc_bind, doc_call.
    rewrite (Hpre p h (or_introl eq_refl)).
    rewrite IH; [|intros c' h' Hin; apply Hpre; now right|exact Hc].
    now rewrite <- app_assoc.
Qed.

(** The check makes selects only. *)
Lemma check_collections_calls :
  forall (o : Oracle) user_id ids h r h',
    check_collections str_of_int o user_id ids h = (r, h') ->
    exists calls, h' = h ++ calls /\ existsb is_delete calls = false.
Proof.
  intros o user_id ids. induction ids as [|c ids IH]; intros h r h' H.
  - cbn in H. injection H as _ <-. exists []. now rewrite app_nil_r.
  - cbn [check_collections] in H. unfold doc_bind, doc_call in H.
    destruct (select_collection o h c user_id) as [e|[|]].
    + injection H as _ <-. exists [SelectCollection c user_id]. auto.
    + apply IH in H. destruct H as (calls & -> & Hd).
      exists (SelectCollection c user_id :: calls).
      rewrite <- app_assoc. auto.
    + injection H as _ <-. exists [SelectCollection c user_id]. auto.
Qed.

Lemma check_vector_store_ready :
  forall (A : Type) (m : DM -> A) (self : DM) vs,
    vector_store self = Some vs ->
    check_dependencies (F:=F) [U "vector_store"] m self = inr (m self).
Proof.
  intros A m self vs Hvs. unfold check_dependencies. rewrite Hvs. reflexivity.
Qed.

Lemma check_web_search_ready :
  forall (A : Type) (m : DM -> A) (self : DM) wm,
    web_search_manager self = Some wm ->
    check_dependencies (F:=F) [U "web_search_manager"] m self = inr (m self).
Proof.
  intros A m self wm Hwm. unfold check_dependencies. rewrite Hwm. reflexivity.
Qed.

Lemma check_web_search_missing :
  forall (A : Type) (m : DM -> A) (self : DM),
    web_search_manager self = None ->
    check_dependencies (F:=F) [U "web_search_manager"] m self
      = inl (HTTPException 400
               (JStr (U "Feature not available: web search is not initialized."))).
Proof.
  intros A m self Hwm. unfold check_dependencies. rewrite Hwm. reflexivity.
Qed.

(** X24.  A search without web search, by a manager that has a vector
    store.  With no collection it returns the empty list without making
    any call, so without an embedding request.  With a collection the
    select does not find, those before it being found, it raises
    CollectionNotFoundException with the detail "Collection <id> not
    found." once it has selected the collections up to that one, in order:
    no later collection is looked up, no embedding is requested, no search
    is made, and the caller's list is as it was. *)
Theorem search_chunks_missing_collection :
  forall (o : Oracle) (self : DM) vs collection_ids user_id prompt method
         k rff_k score_threshold web_search_k,
    vector_store self = Some vs ->
    exists run,
      search_chunks is_multiagent default_method str_of_int o self collection_ids
        user_id prompt method k rff_k score_threshold false web_search_k
        = inr run
      /\ (collection_ids = [] -> forall h, run h = (inr [], [], h))
      /\ (forall pre c post h,
            collection_ids = pre ++ c :: post ->
            (forall c' h', In c' pre ->
               select_collection o h' c' user_id = inr true) ->
            (forall h', select_collection o h' c user_id = inr false) ->
            run h
              = (inl (CollectionNotFoundException
                        (Some (U "Collection " ++ str_of_int c
                               ++ U " not found."))),
                 collection_ids,
                 h ++ selects user_id (pre ++ [c]))).
Proof.
  intros o self vs collection_ids user_id prompt method k rff_k score_threshold
    web_search_k Hvs.
  unfold search_chunks. rewrite (check_vector_store_ready _ _ self vs Hvs).
  eexists. split; [reflexivity|]. split.
  - intros -> h. reflexivity.
  - intros pre c post h -> Hpre Hc.
    unfold search_collections, doc_bind.
    rewrite (check_collections_missing o user_id pre c post h Hpre Hc).
    reflexivity.
Qed.

(** X25.  A search without web search whose collections all exist and
    whose prompt has an embedding.  The store is searched once, for the
    collections and the prompt given and the first embedding.  When the
    method is not multi-agent the search uses the method and k given, and
    its answer, result or exception, is the outcome.  When it is, the
    search uses the store's default method and 4 times k; if it raises,
    that is the outcome; otherwise, without a multi-agent manager
    MultiAgentSearchNotAvailableException is raised, after the store was
    searched, and with one its answer to the results of the store and the
    prompt is the outcome. *)
Theorem search_chunks_method :
  forall (o : Oracle) (self : DM) vs collection_ids user_id prompt method
         k rff_k score_threshold web_search_k h v vs',
    vector_store self = Some vs ->
    collection_ids <> [] ->
    (forall c h', In c collection_ids ->
       select_collection o h' c user_id = inr true) ->
    embeddings o (h ++ selects user_id collection_ids) [prompt] = inr (v :: vs') ->
    let h1 := (h ++ selects user_id collection_ids) ++ [CreateEmbeddings [prompt]] in
    exists run,
      search_chunks is_multiagent default_method str_of_int o self collection_ids
        user_id prompt method k rff_k score_threshold false web_search_k
        = inr run
      /\ (is_multiagent method = false ->
          run h
            = (vector_search o h1 method collection_ids prompt v k rff_k
                 score_threshold,
               collection_ids,
               h1 ++ [VectorSearch method collection_ids prompt v k rff_k
                        score_threshold]))
      /\ (is_multiagent method = true ->
          let c := VectorSearch (default_method vs) collection_ids prompt v
                     (k * 4) rff_k score_threshold in
          (forall e,
             vector_search o h1 (default_method vs) collection_ids prompt v
               (k * 4) rff_k score_threshold = inl e ->
             run h = (inl e, collection_ids, h1 ++ [c]))
          /\ (forall s,
                vector_search o h1 (default_method vs) collection_ids prompt v
                  (k * 4) rff_k score_threshold = inr s ->
                (multi_agent_manager self = None ->
                 run h
                   = (inl MultiAgentSearchNotAvailableException, collection_ids,
                      h1 ++ [c]))
                /\ (multi_agent_manager self <> None ->
                    run h
                      = (agent_search o (h1 ++ [c]) s prompt, collection_ids,
                         (h1 ++ [c]) ++ [AgentSearch s prompt])))).
Proof.
  intros o self vs collection_ids user_id prompt method k rff_k score_threshold
    web_search_k h v vs' Hvs Hne Hall Hemb h1.
  unfold search_chunks. rewrite (check_vector_store_ready _ _ self vs Hvs).
  eexists. split; [reflexivity|].
  destruct collection_ids as [|c0 ids]; [contradiction|].
  assert (search_collections is_multiagent default_method str_of_int o self
            (c0 :: ids) user_id prompt method k rff_k score_threshold None h
          = doc_bind
              (if is_multiagent method then doc_ret (default_method vs, (k * 4)%Z)
               else doc_ret (method, k))
              (fun mk =>
                 doc_bind
                   (doc_call (VectorSearch (fst mk) (c0 :: ids) prompt v (snd mk)
                                rff_k score_threshold)
                      (fun h' => vector_search o h' (fst mk) (c0 :: ids) prompt v
                                   (snd mk) rff_k score_threshold))
                   (fun searches =>
                      doc_bind
                        (if is_multiagent method then
                           match multi_agent_manager self with
                           | None => doc_raise MultiAgentSearchNotAvailableException
                           | Some _ =>
                               doc_call (AgentSearch searches prompt)
                                 (fun h' => agent_search o h' searches prompt)
                           end
                         else doc_ret searches)
                        (fun searches' => doc_ret searches')))
              h1) as Hrun.
  { unfold search_collections, doc_bind at 1.
    rewrite (check_collections_found o user_id (c0 :: ids) h Hall).
    unfold doc_bind at 1, doc_call at 1. rewrite Hemb. fold h1.
    rewrite Hvs. unfold doc_bind, doc_ret.
    destruct (is_multiagent method); cbv beta iota;
      destruct (doc_call _ _ h1) as [[e|s] h2]; try reflexivity;
      destruct (multi_agent_manager self);
      try destruct (doc_call _ _ h2) as [[e|s'] h3]; reflexivity. }
  cbv beta iota. rewrite Hrun. clear Hrun.
  split.
  - intros Hm. rewrite Hm. unfold doc_bind, doc_ret, doc_call. cbn [fst snd].
    destruct (vector_search o h1 method (c0 :: ids) prompt v k rff_k
                score_threshold) as [e|s]; reflexivity.
  - intros Hm. cbv zeta. rewrite Hm. unfold doc_bind, doc_ret, doc_call.
    cbn [fst snd]. split.
    + intros e He. rewrite He. reflexivity.
    + intros s Hs. rewrite Hs. split.
      * intros Hn. rewrite Hn. reflexivity.
      * intros Hn. destruct (multi_agent_manager self) as [am|]; [|contradiction].
        destruct (agent_search o _ s prompt) as [e|s']; reflexivity.
Qed.

Ltac calls_after h X :=
  match X with
  | h => constr:(@nil (SearchCall F Search SearchMethod))
  | ?Y ++ ?l => let m := calls_after h Y in constr:(m ++ l)
  end.

Ltac split_calls h :=
  match goal with
  | |- exists mid tail, ?X ++ [DeleteCollection ?u ?w] = _ /\ _ =>
      let m := calls_after h X in exists m, [DeleteCollection u w]
  | |- exists mid tail, ?X = _ /\ _ =>
      let m := calls_after h X in exists m, (@nil (SearchCall F Search SearchMethod))
  end.

(** The calls of a search that has a web collection: a deletion is made
    at most once, as the last call, and always when the search returns. *)
Lemma search_collections_calls :
  forall (o : Oracle) (self : DM) vs ids user_id prompt method k rff_k
         score_threshold wid h r h',
    vector_store self = Some vs ->
    ids <> [] ->
    (wid =? 0)%Z = false ->
    search_collections is_multiagent default_method str_of_int o self ids user_id
      prompt method k rff_k score_threshold (Some wid) h = (r, h') ->
    exists mid tail,
      h' = h ++ mid ++ tail
      /\ existsb is_delete mid = false
      /\ (tail = [] \/ tail = [DeleteCollection user_id wid])
      /\ (forall s, r = inr s -> tail = [DeleteCollection user_id wid]).
Proof.
  intros o self vs ids user_id prompt method k rff_k score_threshold wid h r h'
    Hvs Hne Hwid H.
  unfold search_collections, doc_bind at 1 in H.
  destruct (check_collections str_of_int o user_id ids h) as [[e|[]] h1] eqn:Hc;
    apply check_collections_calls in Hc; destruct Hc as (calls & -> & Hd).
  { injection H as <- <-. split_calls h.
    split; [rewrite <- ?app_assoc, ?app_nil_r; reflexivity|].
    split; [cbn [app]; exact Hd|]. split; [now left|]. intros s Hs. discriminate Hs. }
  destruct ids as [|c0 ids]; [contradiction|].
  unfold delete_collection in H.
  rewrite (check_vector_store_ready _ _ self vs Hvs) in H.
  unfold id_truthy in H. rewrite Hwid in H. cbn [negb] in H.
  unfold doc_bind, doc_call, doc_ret, doc_raise, await_checked in H.
  rewrite Hvs in H.
  destruct (embeddings o _ _) as [e|[|v vs']];
    [| |destruct (is_multiagent method);
        (destruct (vector_search o _ _ _ _ _ _ _ _) as [e|s];
         [|try (destruct (multi_agent_manager self) as [am|];
                [destruct (agent_search o _ _ _) as [e|s']|]);
           try destruct (delete_raises o _ _ _) as [e'|]])];
    injection H as <- <-; split_calls h;
    (split; [rewrite <- ?app_assoc, ?app_nil_r; reflexivity|]);
    (split; [rewrite ?existsb_app, ?Hd; reflexivity|]);
    (split; [first [now left|now right]|]);
    intros x Hx; first [discriminate Hx|reflexivity].
Qed.

(** X26.  A search with web search, by a manager that has a vector
    store.  Without a web search manager it raises HTTP 400 before any
    call.  With one, when the web collection is created with a non-zero
    id: the id is appended to the caller's list; the first call is the
    creation; the deletion of the web collection is made at most once, as
    the very last call, and it has been made whenever the search returns
    normally.  So an exception raised before it, by a missing collection,
    the embedding, the store or the agents, leaves the web collection
    undeleted. *)
Theorem search_chunks_web_collection :
  forall (o : Oracle) (self : DM) vs collection_ids user_id prompt method
         k rff_k score_threshold web_search_k,
    vector_store self = Some vs ->
    exists run,
      search_chunks is_multiagent default_method str_of_int o self collection_ids
        user_id prompt method k rff_k score_threshold true web_search_k
        = inr run
      /\ (web_search_manager self = None ->
          forall h,
            run h
              = (inl (Raised
                        (HTTPException 400
                           (JStr (U "Feature not available: web search is not initialized.")))),
                 collection_ids, h))
      /\ (forall wid h r ids' h',
            web_search_manager self <> None ->
            web_collection o h user_id prompt web_search_k = inr (Some wid) ->
            wid <> 0%Z ->
            run h = (r, ids', h') ->
            ids' = collection_ids ++ [wid]
            /\ exists mid tail,
                 h' = h ++ [CreateWebCollection user_id prompt web_search_k]
                        ++ mid ++ tail
                 /\ existsb is_delete mid = false
                 /\ (tail = [] \/ tail = [DeleteCollection user_id wid])
                 /\ (forall s, r = inr s -> tail = [DeleteCollection user_id wid])).
Proof.
  intros o self vs collection_ids user_id prompt method k rff_k score_threshold
    web_search_k Hvs.
  unfold search_chunks. rewrite (check_vector_store_ready _ _ self vs Hvs).
  eexists. split; [reflexivity|]. split.
  - intros Hwm h. unfold _create_web_collection.
    rewrite (check_web_search_missing _ _ self Hwm). reflexivity.
  - intros wid h r ids' h' Hwm Hweb Hwid H.
    destruct (web_search_manager self) as [wm|] eqn:Hw; [|contradiction].
    unfold _create_web_collection in H.
    rewrite (check_web_search_ready _ _ self wm Hw) in H.
    unfold await_checked, doc_call in H. rewrite Hweb in H.
    assert ((wid =? 0)%Z = false) as Hz by (now apply Z.eqb_neq).
    unfold id_truthy in H. rewrite Hz in H. cbn [negb] in H.
    destruct (search_collections _ _ _ _ _ _ _ _ _ _ _ _ _ _) as [r1 h1] eqn:Hs.
    injection H as <- <- <-. split; [reflexivity|].
    apply (search_collections_calls o self vs) in Hs;
      [|exact Hvs|now destruct collection_ids|exact Hz].
    destruct Hs as (mid & tail & -> & Hd & Ht & Hr).
    exists mid, tail. rewrite <- app_assoc. auto.
Qed.

End SearchFacts.

(** *** The model registry *)

Section AssocFacts.
Context {A : Type}.
Implicit Types (d : list (str * A)) (k : str) (v : A).

Lemma assoc_get_set_same k v d : assoc_get k (assoc_set k v d) = Some v.
Proof.
  induction d as [|[k0 v0] d IH]; cbn.
  - now rewrite str_eqb_refl.
  - destruct (str_eqb k k0) eqn:Ek; cbn.
    + now rewrite str_eqb_refl.
    + now rewrite Ek.
Qed.

Lemma assoc_get_set_other k k' v d :
  k <> k' -> assoc_get k (assoc_set k' v d) = assoc_get k d.
Proof.
  intros Hne. apply str_eqb_neq in Hne.
  induction d as [|[k0 v0] d IH]; cbn.
  - now rewrite Hne.
  - destruct (str_eqb k' k0) eqn:Ek; cbn.
    + apply str_eqb_eq in Ek. subst k0. now rewrite Hne.
    + destruct (str_eqb k k0); [reflexivity|exact IH].
Qed.

End AssocFacts.

Section RegistryFacts.
Context {F : Type} {FO : PyFloat F} {RouterInfo ModelSchema : Type}.
Variable ModelSchema_new : str -> RouterInfo -> list str -> exn F + ModelSchema.

Local Abbreviation Router := (ModelRouter RouterInfo).
Local Abbreviation Reg := (ModelRegistry RouterInfo).

Lemma router_named_app :
  forall (rs : list Router) r n,
    router_named (rs ++ [r]) n
      = if has_name n r then Some r else router_named rs n.
Proof.
  intros rs r n. unfold router_named. rewrite rev_app_distr. reflexivity.
Qed.

Lemma alias_target_app :
  forall (rs : list Router) r x,
    alias_target (rs ++ [r]) x
      = if has_alias x r then router_name r else alias_target rs x.
Proof.
  intros rs r x. unfold alias_target. rewrite rev_app_distr. cbn.
  destruct (has_alias x r); reflexivity.
Qed.

Lemma registered_app :
  forall (rs : list Router) r,
    registered (rs ++ [r])
      = registered rs ++ match router_name r with Some n => [n] | None => [] end.
Proof.
  intros rs r. unfold registered. rewrite flat_map_app. cbn.
  now rewrite app_nil_r.
Qed.

Lemma router_named_some :
  forall (rs : list Router) n r,
    router_named rs n = Some r -> In r rs /\ router_name r = Some n.
Proof.
  intros rs n r H. unfold router_named in H. apply find_some in H.
  destruct H as [Hin Hn]. split; [now apply in_rev|].
  unfold has_name in Hn. destruct (router_name r) as [m|]; [|discriminate].
  apply str_eqb_eq in Hn. now subst.
Qed.

Lemma registered_named :
  forall (rs : list Router) n,
    existsb (str_eqb n) (registered rs)
      = match router_named rs n with Some _ => true | None => false end.
Proof.
  intros rs n. induction rs as [|r rs IH] using rev_ind; [reflexivity|].
  rewrite registered_app, router_named_app, existsb_app, IH.
  unfold has_name. destruct (router_name r) as [m|]; cbn.
  - destruct (str_eqb n m); [|now rewrite orb_false_r].
    now rewrite orb_true_r.
  - now rewrite orb_false_r.
Qed.

Lemma alias_target_registered :
  forall (rs : list Router) x n,
    alias_target rs x = Some n -> router_named rs n <> None.
Proof.
  intros rs x n H. unfold alias_target in H.
  destruct (find (has_alias x) (rev rs)) as [r|] eqn:Hf; [|discriminate].
  apply find_some in Hf. destruct Hf as [Hin _].
  unfold router_named.
  destruct (find (has_name n) (rev rs)) eqn:Hn; [discriminate|].
  exfalso. apply (find_none _ _ Hn) in Hin.
  unfold has_name in Hin. rewrite H, str_eqb_refl in Hin. discriminate.
Qed.

(** The aliases of one router, added to the dict. *)
Lemma add_aliases :
  forall (name : str) (als : list str) (self : Reg) a,
    assoc_get (U "aliases") self = Some (ADict a) ->
    exists self' a',
      fold_left (add_alias (F:=F) name) als (inr self) = inr self'
      /\ assoc_get (U "aliases") self' = Some (ADict a')
      /\ (forall k, k <> U "aliases" -> assoc_get k self' = assoc_get k self)
      /\ (forall x, assoc_get x a'
                    = if existsb (str_eqb x) als then Some name else assoc_get x a).
Proof.
  intros name als. induction als as [|al als IH]; intros self a Ha.
  - exists self, a. cbn. auto.
  - cbn [fold_left]. unfold add_alias at 2, self_aliases. rewrite Ha.
    destruct (IH (assoc_set (U "aliases") (ADict (assoc_set al name a)) self)
                (assoc_set al name a)) as (self' & a' & Hf & Ha' & Hk & Hx).
    { apply assoc_get_set_same. }
    exists self', a'. split; [exact Hf|]. split; [exact Ha'|]. split.
    + intros k Hne. rewrite Hk by exact Hne. now apply assoc_get_set_other.
    + intros x. rewrite Hx. cbn [existsb].
      destruct (existsb (str_eqb x) als); [now rewrite orb_true_r|].
      rewrite orb_false_r.
      destruct (str_eqb x al) eqn:Ex.
      * apply str_eqb_eq in Ex. subst. apply assoc_get_set_same.
      * apply assoc_get_set_other. now apply str_eqb_neq.
Qed.

(** What [__init__] leaves in the instance dict. *)
Lemma init_invariant :
  forall routers : list Router,
    names_free [U "models"; U "aliases"] routers ->
    exists (self : Reg) a,
      ModelRegistry_init (F:=F) routers = inr self
      /\ assoc_get (U "models") self = Some (AList (registered routers))
      /\ assoc_get (U "aliases") self = Some (ADict a)
      /\ (forall x, assoc_get x a = alias_target routers x)
      /\ (forall n, n <> U "models" -> n <> U "aliases" ->
                    assoc_get n self = option_map ARouter (router_named routers n)).
Proof.
  intros routers. induction routers as [|r rs IH] using rev_ind; intros Hfree.
  - eexists _, []. split; [reflexivity|]. repeat split.
    intros n Hm Ha. cbn [assoc_get]. apply str_eqb_neq in Hm, Ha.
    now rewrite Hm, Ha.
  - destruct IH as (self & a & Hinit & Hmod & Hal & Hx & Hn).
    { intros r' n Hin. apply Hfree. apply in_or_app. now left. }
    unfold ModelRegistry_init in *. rewrite fold_left_app, Hinit.
    cbn [fold_left]. unfold register.
    destruct (router_name r) as [name|] eqn:Hname.
    2: { exists self, a. split; [reflexivity|].
         split; [rewrite registered_app, Hname, app_nil_r; exact Hmod|].
         split; [exact Hal|]. split.
         - intros x. rewrite alias_target_app. unfold has_alias. rewrite Hname.
           apply Hx.
         - intros n Hm Ha. rewrite router_named_app. unfold has_name.
           rewrite Hname. now apply Hn. }
    assert (name <> U "models" /\ name <> U "aliases") as [Hnm Hna].
    { assert (In r (rs ++ [r])) as Hin by (apply in_or_app; right; now left).
      specialize (Hfree r name Hin Hname).
      split; intros ->; apply Hfree; cbn; auto. }
    unfold self_models.
    rewrite assoc_get_set_other by (intros H; now symmetry in H).
    rewrite Hmod.
    destruct (add_aliases name (router_aliases r)
                (assoc_set (U "models") (AList (registered rs ++ [name]))
                   (assoc_set name (ARouter r) self)) a)
      as (self' & a' & Hf & Ha' & Hk & Hx').
    { rewrite assoc_get_set_other by discriminate.
      rewrite assoc_get_set_other by (intros H; now symmetry in H).
      exact Hal. }
    exists self', a'. split; [exact Hf|].
    split.
    { rewrite Hk by discriminate. rewrite assoc_get_set_same.
      now rewrite registered_app, Hname. }
    split; [exact Ha'|]. split.
    + intros x. rewrite Hx', alias_target_app. unfold has_alias. rewrite Hname.
      destruct (existsb (str_eqb x) (router_aliases r)); [reflexivity|apply Hx].
    + intros n Hm Ha. rewrite Hk by exact Ha.
      rewrite assoc_get_set_other by exact Hm.
      rewrite router_named_app. unfold has_name. rewrite Hname.
      destruct (str_eqb n name) eqn:En.
      * apply str_eqb_eq in En. subst. apply assoc_get_set_same.
      * rewrite assoc_get_set_other by (now apply str_eqb_neq). now apply Hn.
Qed.

(** A lookup in the registry of routers with free names. *)
Lemma call_resolves :
  forall (routers : list Router) (self : Reg) a model,
    names_free [U "models"; U "aliases"] routers ->
    assoc_get (U "models") self = Some (AList (registered routers)) ->
    assoc_get (U "aliases") self = Some (ADict a) ->
    (forall x, assoc_get x a = alias_target routers x) ->
    (forall n, n <> U "models" -> n <> U "aliases" ->
               assoc_get n self = option_map ARouter (router_named routers n)) ->
    ModelRegistry_call (F:=F) self model
      = match router_named routers
                (match alias_target routers model with
                 | Some n => n
                 | None => model
                 end) with
        | Some r => inr (ARouter r)
        | None => inl ModelNotFoundException
        end.
Proof.
  intros routers self a model Hfree Hmod Hal Hx Hn.
  unfold ModelRegistry_call, self_aliases, self_models.
  rewrite Hal, Hmod, Hx. cbv zeta. rewrite registered_named.
  destruct (router_named routers _) as [r|] eqn:Hr; [|reflexivity].
  pose proof (router_named_some _ _ _ Hr) as [Hin Hname].
  rewrite Hn, Hr; [reflexivity| |];
    intros Heq; apply (Hfree r _ Hin Hname); rewrite Heq; cbn; auto.
Qed.

(** X27.  When no router is named "models" or "aliases", building the
    registry succeeds and a lookup goes as follows.  Its argument is first
    replaced by the name the aliases give it, if they give one: the name
    of the last named router that lists it as an alias, also when the
    argument is itself the name of a router, and without resolving the
    result any further.  The lookup then returns the last router
    registered under that name, and raises ModelNotFoundException when
    there is none.  A router without a name is ignored, with its
    aliases. *)
Theorem registry_lookup :
  forall routers : list Router,
    names_free [U "models"; U "aliases"] routers ->
    exists self : Reg,
      ModelRegistry_init (F:=F) routers = inr self
      /\ forall model,
           ModelRegistry_call (F:=F) self model
             = match router_named routers
                       (match alias_target routers model with
                        | Some n => n
                        | None => model
                        end) with
               | Some r => inr (ARouter r)
               | None => inl ModelNotFoundException
               end.
Proof.
  intros routers Hfree.
  destruct (init_invariant routers Hfree) as (self & a & Hinit & Hmod & Hal & Hx & Hn).
  exists self. split; [exact Hinit|].
  intros model. now apply (call_resolves routers self a).
Qed.

(** The schemas of a list of names each of which resolves to a router:
    all of them, or the exception of the first router whose schema is
    refused. *)
Lemma list_loop_resolved :
  forall (self : Reg) (names : list str) (rs : list Router),
    assoc_get (U "__call__") self = None ->
    Forall2 (fun n r => ModelRegistry_call (F:=F) self n = inr (ARouter r)) names rs ->
    match list_loop ModelSchema_new self names with
    | inr data => Forall2 (fun r s => schema_of ModelSchema_new (ARouter r) = inr s)
                          rs data
    | inl e =>
        exists pre r post data,
          rs = pre ++ r :: post
          /\ Forall2 (fun r s => schema_of ModelSchema_new (ARouter r) = inr s)
                     pre data
          /\ schema_of ModelSchema_new (ARouter r) = inl e
    end.
Proof.
  intros self names rs Hc Hall. induction Hall as [|n r names rs Hn Hall IH].
  - constructor.
  - cbn [list_loop]. rewrite Hc, Hn.
    destruct (schema_of ModelSchema_new (ARouter r)) as [e|s] eqn:Hs.
    + exists [], r, rs, []. split; [reflexivity|]. split; [constructor|exact Hs].
    + destruct (list_loop ModelSchema_new self names) as [e|data].
      * destruct IH as (pre & r' & post & data & -> & Hpre & He).
        exists (r :: pre), r', post, (s :: data).
        split; [reflexivity|]. split; [constructor; assumption|exact He].
      * constructor; assumption.
Qed.

(** X28.  When no router is named "models", "aliases", "__call__" or
    "list", listing the registry with no model, or with the empty string,
    never raises ModelNotFoundException: each registered name, taken in
    the order of registration, resolves to a named router of the list.
    The result is the schemas of these routers in that order when the
    schema constructor accepts them all; otherwise the listing raises what
    the constructor raises for the first of these routers that it
    refuses, the schemas of the routers before that one having been
    built.  A router named "list" is stored in the instance dict under
    that name and takes the method's place: [registry.list] then reaches
    the router and not the method. *)
Theorem registry_list_all :
  (forall routers : list Router,
     names_free [U "models"; U "aliases"; U "__call__"; U "list"] routers ->
     exists (self : Reg) (rs : list Router),
       ModelRegistry_init (F:=F) routers = inr self
       /\ Forall2 (fun n r => ModelRegistry_call (F:=F) self n = inr (ARouter r)
                              /\ In r routers /\ router_name r <> None)
                  (registered routers) rs
       /\ ModelRegistry_list ModelSchema_new self (Some [])
          = ModelRegistry_list ModelSchema_new self None
       /\ match ModelRegistry_list ModelSchema_new self None with
          | inr data =>
              Forall2 (fun r s => schema_of ModelSchema_new (ARouter r) = inr s)
                      rs data
          | inl e =>
              exists pre r post data,
                rs = pre ++ r :: post
                /\ Forall2 (fun r s => schema_of ModelSchema_new (ARouter r) = inr s)
                           pre data
                /\ schema_of ModelSchema_new (ARouter r) = inl e
          end)
  /\ (forall (routers : list Router) r,
        names_free [U "models"; U "aliases"] routers ->
        router_named routers (U "list") = Some r ->
        exists self : Reg,
          ModelRegistry_init (F:=F) routers = inr self
          /\ assoc_get (U "list") self = Some (ARouter r)
          /\ forall model,
               ModelRegistry_list ModelSchema_new self model
                 = inl (ShadowedAttribute (U "list"))).
Proof.
  split.
  2: { intros routers r Hfree Hr.
       destruct (init_invariant routers Hfree)
         as (self & a & Hinit & _ & _ & _ & Hn).
       exists self. split; [exact Hinit|].
       assert (assoc_get (U "list") self = Some (ARouter r)) as Hl
         by (rewrite Hn by discriminate; now rewrite Hr).
       split; [exact Hl|].
       intros model. unfold ModelRegistry_list. now rewrite Hl. }
  intros routers Hfree.
  assert (names_free [U "models"; U "aliases"] routers) as Hfree2.
  { intros r n Hin Hn H. apply (Hfree r n Hin Hn).
    destruct H as [<-|[<-|[]]]; cbn; auto. }
  destruct (init_invariant routers Hfree2)
    as (self & a & Hinit & Hmod & Hal & Hx & Hn).
  assert (forall k, In k [U "__call__"; U "list"] -> assoc_get k self = None)
    as Hnone.
  { intros k Hk.
    rewrite Hn by (destruct Hk as [<-|[<-|[]]]; discriminate).
    destruct (router_named routers k) as [r|] eqn:Hr; [|reflexivity].
    apply router_named_some in Hr. destruct Hr as [Hin Hname].
    exfalso. apply (Hfree r _ Hin Hname).
    destruct Hk as [<-|[<-|[]]]; cbn; auto. }
  assert (assoc_get (U "__call__") self = None) as Hcall
    by (apply Hnone; cbn; auto).
  assert (assoc_get (U "list") self = None) as Hlist
    by (apply Hnone; cbn; auto).
  assert (forall names,
            (forall n, In n names -> router_named routers n <> None) ->
            exists rs,
              Forall2 (fun n r => ModelRegistry_call (F:=F) self n = inr (ARouter r)
                                  /\ In r routers /\ router_name r <> None)
                      names rs) as Hres.
  { induction names as [|n names IH]; intros Hreg.
    - exists []. constructor.
    - destruct IH as (rs & Hrs); [intros m Hm; apply Hreg; now right|].
      pose proof (call_resolves routers self a n Hfree2 Hmod Hal Hx Hn) as Hc.
      destruct (router_named routers
                  (match alias_target routers n with Some m => m | None => n end))
        as [r|] eqn:Hr.
      + exists (r :: rs). constructor; [|exact Hrs].
        apply router_named_some in Hr. destruct Hr as [Hin Hname].
        split; [exact Hc|]. split; [exact Hin|]. rewrite Hname. discriminate.
      + exfalso. destruct (alias_target routers n) as [m|] eqn:Ht.
        * now apply (alias_target_registered routers n m Ht).
        * apply (Hreg n); [now left|exact Hr]. }
  destruct (Hres (registered routers)) as (rs & Hrs).
  { intros n Hin Hnone'.
    assert (existsb (str_eqb n) (registered routers) = true) as He.
    { apply existsb_exists. exists n. split; [exact Hin|apply str_eqb_refl]. }
    rewrite registered_named, Hnone' in He. discriminate. }
  exists self, rs. split; [exact Hinit|]. split; [exact Hrs|].
  unfold ModelRegistry_list, self_models. rewrite Hlist, Hmod.
  split; [reflexivity|].
  apply list_loop_resolved; [exact Hcall|].
  clear - Hrs. induction Hrs as [|n r names rs [Hc _] Hall IH]; constructor; auto.
Qed.

End RegistryFacts.

(** ** The properties at concrete inputs *)

Import PyMini.

(** C8 at the body {model: caller-name, messages: []} of a client whose
    model is backend-name. *)
Lemma format_request_model_rewrite_witness :
  exists d',
    dict_get (U "model") d' = Some (JStr (U "backend-name"))
    /\ dict_get (U "messages") d' = dict_get (U "messages") body0
    /\ map fst d' = map fst body0.
Proof.
  edestruct (format_request_model_rewrite env chat_client (Some body0) None None)
    as (H & _ & _); [vm_compute; reflexivity|].
  destruct (H body0 eq_refl eq_refl) as (d' & _ & Hm & Hk & Hkeys).
  exists d'. split; [exact Hm|]. split; [|exact Hkeys].
  apply Hk. intros Hx. vm_compute in Hx. discriminate Hx.
Defined.

(** C3 (as the code has it) at a client of the base class, whose table
    maps every endpoint to null. *)
Lemma format_request_null_entry_witness :
  exists body',
    _format_request env base_client (Some body0) None None
      = inr (Some (U "http://model:8000/"),
             [(U "Authorization", U "Bearer secret")], body', None, None).
Proof.
  exact (format_request_null_entry env base_client (Some body0) None None eq_refl).
Defined.

(** C3 as stated fails: for the null entry of the base table the
    formatter returns the base URL, and [forward_request] calls the
    transport with it and returns its answer. *)
Lemma unsupported_endpoint_counterexample :
  table_get (endpoint base_client) (ENDPOINT_TABLE base_client) = Some None
  /\ _format_request env base_client (Some body0) None None
     = inr (Some (U "http://model:8000/"),
            [(U "Authorization", U "Bearer secret")],
            Some [(U "model", JStr (U "backend-name")); (U "messages", JList [])],
            None, None)
  /\ fst (forward_request env base_client net_echo (U "POST") (Some body0)
            None None None world0)
     = inr {| status_code := 200;
              headers := [(U "content-type", U "text/plain")];
              content := "http://model:8000/"%string |}.
Proof. vm_compute. repeat split. Qed.

(** C1 as stated fails: the one chunk of this 200 stream holds the event
    [1] before the marker; the event decodes, and the generator yields a
    single 500 pair naming AttributeError. *)
Lemma terminal_chunk_array_event_counterexample :
  search_literal DONE_MARKER chunk_list_event = Some 11%nat
  /\ scan_buffer env (JNull, []) [bytes_take 11 chunk_list_event]
     = inr (JList [JInt 1], [JList [JInt 1]])
  /\ fst (forward_stream env chat_client (stream_of 200 [chunk_list_event] None)
            (U "POST") (Some body0) None None [] world0)
     = ([(dq "{'detail': 'AttributeError'}", 500%Z)], None).
Proof. vm_compute. repeat split. Qed.

(** C1 (as the code has it) at a chunk that holds one object event before
    the marker: the usage has one detail, whose id is the event's. *)
Lemma terminal_chunk_emission_witness :
  exists lat w1 u wu rid st' w',
    tasks w1 = tasks world1
    /\ request_context w1 = request_context world1
    /\ _get_usage env chat_client (Some body0)
         (JList (removelast [JDict event_z]
                   ++ [JDict (dict_update event_z [(U "choices", JList [])])]))
         true lat w1 = (inr u, wu)
    /\ rid = match u with
             | Some x => match rev (details x) with
                         | dl :: _ => detail_id dl
                         | [] => generate_request_id env (ids wu)
                         end
             | None => generate_request_id env (ids wu)
             end
    /\ on_chunk env chat_client (Some body0) [] 200 0 st0 chunk_z world1
       = (inr ([ (bytes_take 63 chunk_z, 200%Z);
                 (utf8_encode env
                    (U "data: "
                     ++ dumps env
                          (JDict
                             (dict_update
                                (dict_update
                                   (dict_update event_z [(U "choices", JList [])])
                                   ([(U "model", JStr (self_model chat_client));
                                     (U "id", JStr rid)]
                                    ++ match u with
                                       | Some x => [(U "usage", model_dump env x)]
                                       | None => []
                                       end))
                                []))
                     ++ [10; 10]%N), 200%Z);
                 (bytes_drop 63 chunk_z, 200%Z) ], st'), w').
Proof.
  edestruct (terminal_chunk_emission env chat_client (Some body0) [] 200 0 st0
               chunk_z 63 world1) as (_ & _ & H & _).
  - vm_compute; reflexivity.
  - vm_compute; reflexivity.
  - vm_compute; discriminate.
  - apply (H event_z [JDict event_z]). vm_compute; reflexivity.
Defined.

(** C2 as stated fails: the tokenizer raises inside the computation, and
    [_get_usage] returns the request's accumulator, not None; the
    additional data of the response then has a usage entry. *)
Lemma get_usage_returns_accumulator_counterexample :
  get_prompt_tokens env_failing_tokenizer ENDPOINT__CHAT_COMPLETIONS (Some body0)
    = inl (PyError (U "ValueError"))
  /\ fst (compute_usage env_failing_tokenizer chat_client true Usage_new
            (Some body0) data0 false 0 world0)
     = inl (PyError (U "ValueError"))
  /\ fst (_get_usage env_failing_tokenizer chat_client (Some body0) data0 false 0
            world0)
     = inr (Some Usage_new)
  /\ option_map (dict_mem (U "usage"))
       (match fst (_get_additional_data env_failing_tokenizer chat_client
                     (Some body0) data0 false 0 world0) with
        | inr ad => Some ad
        | inl _ => None
        end) = Some true.
Proof. vm_compute. repeat split. Qed.

(** C2 (as the code has it) when the tokenizer raises. *)
Lemma get_usage_swallows_exceptions_witness :
  fst (_get_usage env_failing_tokenizer chat_client (Some body0) data0 false 0
         world0)
    = inr (Some Usage_new).
Proof.
  destruct (get_usage_swallows_exceptions env_failing_tokenizer chat_client
              (Some body0) data0 false 0 world0) as (_ & H & _).
  edestruct H as [Hu _];
    [vm_compute; reflexivity | vm_compute; reflexivity | vm_compute; reflexivity |].
  rewrite Hu. reflexivity.
Defined.

(** C4 at the stream whose first chunk is the marker alone: the
    pre-marker bytes are empty and a first-token time is recorded. *)
Lemma first_token_recorded_at_marker_witness :
  bytes_take 0 chunk_done_only = EmptyString
  /\ exists ys st' w',
       on_chunk env chat_client (Some body0) [] 200 0 st0 chunk_done_only world1
         = (inr (ys, st'), w')
       /\ first_token_time st' = Some 1
       /\ exists ts m,
            tasks w' = ts ++ [m]
            /\ time_to_first_token_us m = Some 1000000%Z.
Proof.
  split; [reflexivity|].
  destruct (on_chunk env chat_client (Some body0) [] 200 0 st0 chunk_done_only
              world1) as [[e|[ys st']] w'] eqn:Hrun.
  - vm_compute in Hrun. discriminate Hrun.
  - exists ys, st', w'. split; [reflexivity|].
    exact (first_token_recorded_at_marker env chat_client (Some body0) [] 200 0
             st0 chunk_done_only 0 world1 ys st' w'
             eq_refl eq_refl eq_refl eq_refl Hrun).
Defined.

(** C5 at a read timeout: before any response for the unary call, after
    one chunk for the stream. *)
Lemma timeout_is_504_witness :
  (exists w',
     forward_request env chat_client (net_timeout ReadTimeout) (U "POST")
       (Some body0) None None None world0
       = (inl (HTTPException 504
                 (JStr (U "Request timed out, model is too busy."))), w'))
  /\ fst (forward_stream env chat_client
            (stream_of 200 [chunk_a] (Some (HttpxTimeout ReadTimeout)))
            (U "POST") (Some body0) None None [] world0)
     = ([ (chunk_a, 200%Z);
          (dq "{'detail': 'Request timed out, model is too busy.'}", 504%Z) ],
        None).
Proof.
  edestruct (timeout_is_504 env chat_client ReadTimeout (U "POST") (Some body0)
               None None) as (H1 & _ & H3); [vm_compute; reflexivity|].
  split.
  - apply H1. reflexivity.
  - destruct (run_chunks env chat_client
                (Some [(U "model", JStr (U "backend-name")); (U "messages", JList [])])
                [] 200 0 st0 [chunk_a] world1) as [[ys [e|st1]] w2] eqn:Hrun.
    + vm_compute in Hrun. discriminate Hrun.
    + rewrite (H3 (stream_of 200 [chunk_a] (Some (HttpxTimeout ReadTimeout))) []
                 world0 200%Z [chunk_a] 0 world1 ys st1 w2 eq_refl eq_refl Hrun).
      vm_compute in Hrun. injection Hrun as <- _ _. reflexivity.
Defined.

(** C6 at a unary chat completion: 8 prompt and 3 completion tokens. *)
Lemma detail_totals_and_cost_witness :
  exists acc' w' d,
    compute_usage env chat_client true Usage_new (Some body0) data0 false 0 world0
      = (inr acc', w')
    /\ details acc' = [d]
    /\ total_tokens (usage d)
         = (prompt_tokens (usage d) + completion_tokens (usage d))%Z
    /\ cost (usage d)
         = py_round
             (f_add (f_mul (int_truediv (prompt_tokens (usage d)) 1000000) 250000)
                    (f_mul (int_truediv (completion_tokens (usage d)) 1000000) 500000))
             6
    /\ (total_tokens acc' = prompt_tokens acc' + completion_tokens acc')%Z.
Proof.
  destruct (compute_usage env chat_client true Usage_new (Some body0) data0 false
              0 world0) as [[e|acc'] w'] eqn:Hrun.
  - vm_compute in Hrun. discriminate Hrun.
  - destruct (detail_totals_and_cost env chat_client true Usage_new (Some body0)
                data0 false 0 world0 acc' w' Hrun)
      as (d & Hd & Ht & Hc & _ & _ & _ & _ & Hinv).
    exists acc', w', d. split; [reflexivity|].
    split; [exact Hd|]. split; [exact Ht|]. split; [exact Hc|].
    apply Hinv. reflexivity.
Defined.

(** C7 as stated fails: a contributed bound is not non-decreasing across
    details.  The accumulator holds a lower energy bound of 1/100; the
    next detail's is -1/200, and the bound goes down to 1/200, by the
    accumulation alone and by a run of the computation whose estimator
    answers with that estimate. *)
Lemma carbon_bound_decreases_counterexample :
  bound kWh_min (accumulate Usage_new detail_1) = Some (1 # 100)
  /\ bound kWh_min (usage detail_3) = Some (- (1 # 200))
  /\ bound kWh_min (accumulate (accumulate Usage_new detail_1) detail_3)
     = Some (1 # 200)
  /\ fst (compute_usage env_negative_estimate chat_client true
            (accumulate Usage_new detail_1) (Some body0) data0 false 0 world0)
     = inr (accumulate (accumulate Usage_new detail_1) detail_3)
  /\ ~ (1 # 100 <= 1 # 200).
Proof.
  repeat split; try (vm_compute; reflexivity).
  intros H. vm_compute in H. apply H. reflexivity.
Qed.

(** C7 (as the code has it) at a run of the computation on an accumulator
    without bounds, and at details of which the first has no energy bound
    and the next two have one, none having an emission bound. *)
Lemma carbon_bound_accumulation_witness :
  (exists acc' d cb,
     get_carbon_footprint env (active_params (self_carbon chat_client))
       (total_params (self_carbon chat_client))
       (model_zone (self_carbon chat_client)) (total_tokens (usage d)) 0
       = inr cb
     /\ carbon (usage d) = cb
     /\ acc' = accumulate Usage_new d
     /\ bound kWh_min acc'
        = match bound kWh_min (usage d) with
          | Some v => Some (f_add (match bound kWh_min Usage_new with
                                   | Some a => a
                                   | None => f_zero
                                   end) v)
          | None => bound kWh_min Usage_new
          end)
  /\ bound kWh_min (fold_left accumulate [detail_2; detail_1; detail_1] Usage_new)
     = Some (1 # 50)
  /\ bound kgCO2eq_min
       (fold_left accumulate [detail_2; detail_1; detail_1] Usage_new) = None
  /\ bound kWh_min (accumulate Usage_new detail_2) = None
  /\ bound kWh_min (accumulate Usage_new detail_1) = Some (1 # 100)
  /\ bound kWh_min (accumulate (accumulate Usage_new detail_1) detail_1)
     = Some (1 # 50).
Proof.
  destruct (carbon_bound_accumulation env kWh_min)
    as (Hrun & Hnull & Hfirst & Hnext & Hseq).
  destruct (carbon_bound_accumulation env kgCO2eq_min) as (_ & _ & _ & _ & Hseq').
  split.
  { destruct (compute_usage env chat_client true Usage_new (Some body0) data0
                false 0 world0) as [[e|acc'] w'] eqn:Hc;
      [vm_compute in Hc; discriminate|].
    exists acc'. exact (Hrun _ _ _ _ _ _ _ _ _ _ Hc). }
  split; [rewrite Hseq; reflexivity|].
  split; [rewrite Hseq'; reflexivity|].
  split; [rewrite (Hnull Usage_new detail_2 eq_refl); reflexivity|].
  split; [rewrite (Hfirst Usage_new detail_1 (1 # 100) eq_refl eq_refl); reflexivity|].
  assert (bound kWh_min (accumulate Usage_new detail_1) = Some (1 # 100)) as Ha
    by reflexivity.
  rewrite (Hnext (accumulate Usage_new detail_1) detail_1 (1 # 100) (1 # 100)
             eq_refl Ha).
  reflexivity.
Defined.


(** C10 at a parameterised content type, at a missing header, and at the
    exact content type. *)
Lemma format_response_exact_content_type_witness :
  _format_response env chat_client (Some body0) response_charset [] 0 world0
    = (inr response_charset, world0)
  /\ _format_response env chat_client (Some body0) response_no_header [] 0 world0
     = (inr response_no_header, world0)
  /\ exists extra w',
       _format_response env chat_client (Some body0) response_json_exact [] 0 world0
         = (inr (Response_new env 200
                   (dumps env
                      (JDict (dict_update
                                (dict_update [(U "id", JStr (U "abc"))] extra)
                                [])))), w').
Proof.
  split; [|split].
  - apply (format_response_exact_content_type env chat_client (Some body0)
             response_charset [] 0 world0).
    intros H. vm_compute in H. discriminate H.
  - apply (format_response_exact_content_type env chat_client (Some body0)
             response_no_header [] 0 world0).
    intros H. vm_compute in H. discriminate H.
  - destruct (format_response_exact_content_type env chat_client (Some body0)
                response_json_exact [] 0 world0) as (_ & H).
    destruct (H eq_refl [(U "id", JStr (U "abc"))] eq_refl)
      as (extra & w' & _ & Hf).
    exists extra, w'. exact Hf.
Defined.

(** ** The further properties at concrete inputs *)

(** X2 at two chat completions of one request. *)
Lemma usage_accumulates_across_calls_witness :
  exists acc1 w1 acc2 w2,
    _get_usage env chat_client (Some body0) data0 false 0 world0
      = (inr (Some acc1), w1)
    /\ _get_usage env chat_client (Some body0) data0 false 0 w1
       = (inr (Some acc2), w2)
    /\ option_map ctx_usage (request_context w2) = Some acc2
    /\ length (details acc2) = 2%nat.
Proof.
  destruct (compute_usage env chat_client true Usage_new (Some body0) data0 false
              0 world0) as [[e|acc1] w1] eqn:H1.
  { vm_compute in H1. discriminate H1. }
  destruct (compute_usage env chat_client true acc1 (Some body0) data0 false
              0 w1) as [[e|acc2] w2] eqn:H2.
  { exfalso. vm_compute in H1. injection H1 as <- <-.
    vm_compute in H2. discriminate H2. }
  destruct (usage_accumulates_across_calls env chat_client chat_client true true
              ctx0 (Some body0) data0 false 0 (Some body0) data0 false 0
              world0 w1 w2 acc1 acc2 eq_refl eq_refl eq_refl H1 H2)
    as (Ha & Hb & Hc & x1 & x2 & Hd & _).
  exists acc1, w1, acc2, w2.
  split; [exact Ha|]. split; [exact Hb|]. split; [exact Hc|].
  rewrite Hd. reflexivity.
Defined.

(** X3 at two details. *)
Lemma accumulate_totals_witness :
  (total_tokens (fold_left accumulate [detail_1; detail_2] Usage_new)
   = prompt_tokens (fold_left accumulate [detail_1; detail_2] Usage_new)
     + completion_tokens (fold_left accumulate [detail_1; detail_2] Usage_new))%Z.
Proof.
  destruct (accumulate_totals [detail_1; detail_2] (@Usage_new Q _))
    as (_ & _ & _ & _ & H).
  apply H; [reflexivity|]. repeat constructor.
Defined.

(** X4 at a caller who overrides the id: the id is the caller's, the
    model the client's. *)
Lemma format_response_merge_precedence_witness :
  exists merged w',
    _format_response env chat_client (Some body0) response_json_exact
      [(U "id", JStr (U "override"))] 0 world0
      = (inr (Response_new env 200 (dumps env (JDict merged))), w')
    /\ dict_get (U "id") merged = Some (JStr (U "override"))
    /\ dict_get (U "model") merged = Some (JStr (U "backend-name")).
Proof.
  destruct (format_response_merge_precedence env chat_client (Some body0)
              response_json_exact [(U "id", JStr (U "override"))] 0 world0
              [(U "id", JStr (U "abc"))] eq_refl eq_refl)
    as (extra & merged & w' & _ & Hf & Hk & Hm).
  - repeat constructor. intros H. exact H.
  - exists merged, w'. split; [exact Hf|]. split.
    + rewrite Hk. reflexivity.
    + rewrite Hk. cbn [dict_get]. rewrite Hm. reflexivity.
Defined.

(** X5 at the body of a chat completion. *)
Lemma format_request_idempotent_witness :
  _format_request env chat_client (Some body1) None None
    = inr (Some url0, headers0, Some body1, None, None).
Proof.
  exact (format_request_idempotent env chat_client (Some body0) None None
           (Some url0) headers0 (Some body1) None None eq_refl).
Defined.

(** X6 at a connection error, and at a cancellation. *)
Lemma forward_request_transport_error_witness :
  (exists w',
     forward_request env chat_client (net_of (inl (PyError (U "ConnectError"))))
       (U "POST") (Some body0) None None None world0
       = (inl (HTTPException 500 (JStr (U "ConnectError"))), w')
     /\ tasks w' = tasks world0
     /\ request_context w' = request_context world0)
  /\ (exists w',
        forward_request env chat_client
          (net_of (inl (PyError (U "CancelledError"))))
          (U "POST") (Some body0) None None None world0
          = (inl (PyError (U "CancelledError")), w')
        /\ tasks w' = tasks world0
        /\ request_context w' = request_context world0).
Proof.
  split.
  - apply (proj1 (forward_request_transport_error env chat_client
                    (net_of (inl (PyError (U "ConnectError")))) (U "POST")
                    (Some body0) None None None world0 (Some url0) headers0
                    (Some body1) None None eq_refl)
             (PyError (U "ConnectError")) eq_refl).
    intros k Hk. discriminate Hk.
  - apply (proj2 (forward_request_transport_error env chat_client
                    (net_of (inl (PyError (U "CancelledError")))) (U "POST")
                    (Some body0) None None None world0 (Some url0) headers0
                    (Some body1) None None eq_refl)
             eq_refl).
Defined.

(** X7 at a 429 answer whose message is the text of a Python dict: the
    detail of the exception is the dict. *)
Lemma forward_request_upstream_error_witness :
  exists w',
    forward_request env chat_client (net_of (inr response_429))
      (U "POST") (Some body0) None None None world0
      = (inl (HTTPException 429
                (JDict [(U "error", JStr (U "rate limited"))])), w')
    /\ tasks w' = tasks world0.
Proof.
  destruct (forward_request_upstream_error env chat_client
              (net_of (inr response_429)) (U "POST") (Some body0)
              None None None world0 (Some url0) headers0 (Some body1) None None
              response_429 eq_refl eq_refl eq_refl)
    as ((w' & Hf & Ht & _) & _ & _ & Hlit & _).
  exists w'. split; [|exact Ht].
  rewrite Hf.
  rewrite (Hlit [ (U "message", JStr (U "{'error': 'rate limited'}"));
                  (U "code", JInt 429) ]
             (U "{'error': 'rate limited'}")
             (JDict [(U "error", JStr (U "rate limited"))])).
  - reflexivity.
  - vm_compute. reflexivity.
  - reflexivity.
  - vm_compute. reflexivity.
Defined.

(** X8 at a 200 plain-text answer: one metric, one second of latency. *)
Lemma forward_request_success_metric_witness :
  exists r w4 ts,
    forward_request env chat_client net_echo (U "POST") (Some body0)
      None None None world0 = (inr r, w4)
    /\ tasks w4
       = [{| timestamp := ts;
             model_name := U "backend-name";
             metric_api_url := U "http://model:8000/";
             latency_ms := Some 1000%Z;
             time_to_first_token_us := None |}].
Proof.
  pose proof (forward_request_success_metric env chat_client net_echo (U "POST")
                (Some body0) None None None world0 (Some url0) headers0
                (Some body1) None None
                {| status_code := 200;
                   headers := [(U "content-type", U "text/plain")];
                   content := ascii_encode url0 |}
                eq_refl eq_refl eq_refl) as H.
  cbv zeta in H.
  destruct (_format_response env chat_client (Some body1) _ _ _ _)
    as [[e|r] w3] eqn:Hf.
  - vm_compute in Hf. discriminate Hf.
  - destruct H as (w4 & ts & Hrun & Ht & _).
    exists r, w4, ts. split; [exact Hrun|exact Ht].
Defined.

(** X9 at a stream that breaks after one chunk, with a read error and
    with a cancellation. *)
Lemma forward_stream_transport_error_witness :
  fst (forward_stream env chat_client
         (stream_of 200 [chunk_a] (Some (PyError (U "ReadError"))))
         (U "POST") (Some body0) None None [] world0)
    = ([ (chunk_a, 200%Z); (dq "{'detail': 'ReadError'}", 500%Z) ], None)
  /\ fst (forward_stream env chat_client
            (stream_of 200 [chunk_a] (Some (PyError (U "CancelledError"))))
            (U "POST") (Some body0) None None [] world0)
     = ([ (chunk_a, 200%Z) ], Some (PyError (U "CancelledError"))).
Proof.
  destruct (run_chunks env chat_client (Some body1) [] 200 0 st0 [chunk_a] world1)
    as [[ys [e|st1]] w2] eqn:Hrun; [vm_compute in Hrun; discriminate Hrun|].
  split.
  - destruct (forward_stream_transport_error env chat_client (U "POST")
                (Some body0) None None (Some url0) headers0 (Some body1) None None
                (PyError (U "ReadError")) eq_refl) as (_ & _ & H).
    + intros k Hk. discriminate Hk.
    + rewrite (H (stream_of 200 [chunk_a] (Some (PyError (U "ReadError")))) []
                 world0 200%Z [chunk_a] 0 world1 ys st1 w2 eq_refl eq_refl Hrun).
      vm_compute in Hrun. injection Hrun as <- _ _. reflexivity.
  - destruct (forward_stream_transport_error env chat_client (U "POST")
                (Some body0) None None (Some url0) headers0 (Some body1) None None
                (PyError (U "CancelledError")) eq_refl) as (_ & _ & H).
    + intros k Hk. discriminate Hk.
    + rewrite (H (stream_of 200 [chunk_a] (Some (PyError (U "CancelledError")))) []
                 world0 200%Z [chunk_a] 0 world1 ys st1 w2 eq_refl eq_refl Hrun).
      vm_compute in Hrun. injection Hrun as <- _ _. reflexivity.
Defined.

(** X10 at a client whose endpoint is missing from its table; at a stream
    that is cancelled after its first chunk; and at a stream whose one
    chunk makes the formatting of the last event raise. *)
Lemma forward_stream_exceptions_witness :
  forward_stream env rerank_client (stream_of 200 [chunk_a] None)
    (U "POST") (Some body0) None None [] world0
    = ([], Some (PyError (U "KeyError")), world0)
  /\ isinstance_Exception (PyError (F:=Q) (U "CancelledError")) = false
  /\ snd (fst (forward_stream env chat_client
                 (stream_of 200 [chunk_list_event] None)
                 (U "POST") (Some body0) None None [] world0)) = None.
Proof.
  split; [|split].
  - apply (forward_stream_exceptions env rerank_client
             (stream_of 200 [chunk_a] None) (U "POST") (Some body0) None None []
             world0).
    reflexivity.
  - destruct (forward_stream_exceptions env chat_client
                (stream_of 200 [chunk_a] (Some (PyError (U "CancelledError"))))
                (U "POST") (Some body0) None None [] world0) as (_ & H & _).
    apply (H (Some url0, headers0, Some body1, None, None)
             (PyError (U "CancelledError")) eq_refl).
    vm_compute. reflexivity.
  - destruct (forward_stream_exceptions env chat_client
                (stream_of 200 [chunk_list_event] None) (U "POST") (Some body0)
                None None [] world0) as (_ & _ & H).
    apply (H (Some url0, headers0, Some body1, None, None) eq_refl).
    exact I.
Defined.

(** X11 at a stream of two chunks that never says it is done. *)
Lemma forward_stream_passthrough_witness :
  exists w',
    forward_stream env chat_client (stream_of 200 [chunk_a; chunk_a] None)
      (U "POST") (Some body0) None None [] world0
      = ([(chunk_a, 200%Z); (chunk_a, 200%Z)], None, w')
    /\ tasks w' = tasks world0
    /\ request_context w' = request_context world0.
Proof.
  apply (forward_stream_passthrough env chat_client
           (stream_of 200 [chunk_a; chunk_a] None) (U "POST") (Some body0)
           None None [] world0 (Some url0) headers0 (Some body1) None None
           200%Z [chunk_a; chunk_a] eq_refl eq_refl eq_refl).
  repeat constructor.
Defined.

(** X12 at a stream whose first-token time was set before two more
    chunks, the second one terminal. *)
Lemma first_token_time_set_once_witness :
  exists ys st' w',
    run_chunks env chat_client (Some body1) [] 200 0 st_started
      [chunk_a; chunk_z] world1 = (ys, inr st', w')
    /\ first_token_time st' = Some 5.
Proof.
  destruct (run_chunks env chat_client (Some body1) [] 200 0 st_started
              [chunk_a; chunk_z] world1) as [[ys [e|st']] w'] eqn:Hrun.
  - vm_compute in Hrun. discriminate Hrun.
  - exists ys, st', w'. split; [reflexivity|].
    exact (first_token_time_set_once env chat_client (Some body1) [] 200 0
             [chunk_a; chunk_z] st_started world1 5 ys st' w' eq_refl Hrun).
Defined.

(** X13 at a stream of a content chunk and a terminal chunk. *)
Lemma forward_stream_scenario_witness :
  exists extra w' m,
    forward_stream env chat_client (stream_of 200 [chunk_a; chunk_z] None)
      (U "POST") (Some body0) None None [] world0
      = ([ (chunk_a, 200%Z);
           (bytes_take 63 chunk_z, 200%Z);
           (utf8_encode env
              (U "data: "
               ++ dumps env
                    (JDict
                       (dict_update
                          (dict_update
                             (dict_update event_z [(U "choices", JList [])])
                             extra)
                          []))
               ++ [10; 10]%N), 200%Z);
           (bytes_drop 63 chunk_z, 200%Z) ], None, w')
    /\ tasks w' = [m]
    /\ model_name m = U "backend-name".
Proof.
  destruct (forward_stream_scenario env chat_client
              (stream_of 200 [chunk_a; chunk_z] None) (U "POST") (Some body0)
              None None [] world0 (Some url0) headers0 (Some body1) None None
              200%Z [chunk_a] chunk_z 63%nat event_z
              [ JDict [ (U "id", JStr (U "abc"));
                        (U "choices",
                         JList [JDict [(U "delta",
                                        JDict [(U "content", JStr (U "hi"))])]]) ];
                JDict event_z ])
    as (extra & w' & m & Hf & _ & Ht & Hm & _).
  - reflexivity.
  - reflexivity.
  - reflexivity.
  - repeat constructor.
  - vm_compute. reflexivity.
  - intros H. discriminate H.
  - vm_compute. reflexivity.
  - exists extra, w', m. split; [exact Hf|]. split; [exact Ht|exact Hm].
Defined.



(** X16 at the metric of a stream. *)
Lemma log_performance_metric_calls_witness :
  _log_performance_metric redis_up metric_stream []
    = (inr tt,
       [ TsAdd (U "metrics_ts:time_to_first_token:backend-name:http://model:8000/")
               1000000 1700000003;
         TsAdd (U "metrics_ts:latency:backend-name:http://model:8000/")
               3000 1700000003 ]).
Proof.
  rewrite (log_performance_metric_calls redis_up metric_stream []);
    [reflexivity|].
  intros h' c. reflexivity.
Defined.

(** X17 at a store that is down: the exception of [reset] escapes and
    the latency is not written. *)
Lemma log_performance_metric_failures_witness :
  exists v,
    _log_performance_metric redis_down metric_stream []
      = (inl (U "Connection refused"),
         [ TsAdd (U "metrics_ts:time_to_first_token:backend-name:http://model:8000/")
                 v 1700000003;
           Reset ]).
Proof.
  destruct (_log_performance_metric redis_down metric_stream []) as [r h'] eqn:Hrun.
  pose proof (log_performance_metric_failures redis_down metric_stream [] r h' Hrun)
    as (H & _).
  vm_compute in Hrun. injection Hrun as <- <-.
  destruct (H (U "Connection refused") eq_refl) as (v & _ & _ & _ & Hh).
  exists 1000000%Z. reflexivity.
Defined.

(** X18 at a fresh store, at a store that has the series already, at a
    store that answers an error and can be reset, and at a store that is
    down. *)
Lemma setup_metrics_storage_outcome_witness :
  let c1 := TsCreate (time_to_first_token_ts_key (U "m") (U "u")) 3600000 in
  let c2 := TsCreate (latency_ts_key (U "m") (U "u")) 3600000 in
  setup_metrics_storage redis_store (U "m") (U "u") [] = (inr tt, [c1; c2])
  /\ setup_metrics_storage redis_store (U "m") (U "u") [c1; c2]
     = (inr tt, [c1; c2; c1; c2])
  /\ setup_metrics_storage redis_flaky (U "m") (U "u") []
     = (inr tt, [c1; Reset; c2])
  /\ setup_metrics_storage redis_down (U "m") (U "u") []
     = (inl (U "Connection refused"), [c1; Reset]).
Proof.
  intros c1 c2.
  destruct (setup_metrics_storage_outcome redis_store (U "m") (U "u") [])
    as (H1 & _).
  destruct (setup_metrics_storage_outcome redis_store (U "m") (U "u") [c1; c2])
    as (H2 & _).
  destruct (setup_metrics_storage_outcome redis_flaky (U "m") (U "u") [])
    as (_ & H3 & _).
  destruct (setup_metrics_storage_outcome redis_down (U "m") (U "u") [])
    as (_ & _ & H4).
  split; [apply H1; left; reflexivity|].
  split; [apply H2; right; reflexivity|].
  split.
  - apply (H3 (U "Connection lost")); [reflexivity| |reflexivity].
    intros H. discriminate H.
  - apply (H4 (U "Connection refused")); [reflexivity| |reflexivity].
    intros H. discriminate H.
Defined.

(** X19 at a 200 plain-text answer, the metric written to a store that
    is down. *)
Lemma unary_metric_is_one_latency_write_witness :
  exists r w' m v ts,
    forward_request env chat_client net_echo (U "POST") (Some body0)
      None None None world0 = (inr r, w')
    /\ tasks w' = [m]
    /\ _log_performance_metric redis_down m []
       = (inr tt,
          [TsAdd (U "metrics_ts:latency:backend-name:http://model:8000/") v ts]).
Proof.
  destruct (forward_request env chat_client net_echo (U "POST") (Some body0)
              None None None world0) as [[e|r] w'] eqn:Hrun.
  - vm_compute in Hrun. discriminate Hrun.
  - destruct (unary_metric_is_one_latency_write env chat_client net_echo (U "POST")
                (Some body0) None None None world0 r w' Hrun) as (m & Ht & Hlog).
    destruct (Hlog redis_down []) as (v & ts & Hw).
    exists r, w', m, v, ts. split; [reflexivity|]. split; [exact Ht|exact Hw].
Defined.

(** X20 at a manager without web search. *)
Lemma check_dependencies_gate_witness :
  check_dependencies (F:=Q) [U "vector_store"; U "parser_manager"]
    (fun self => vector_store_model self) manager0
    = inr (U "embeddings-small")
  /\ exists msg,
       check_dependencies (F:=Q) [U "vector_store"; U "web_search_manager"]
         (fun self => vector_store_model self) manager0
         = inl (HTTPException 400 (JStr msg)).
Proof.
  split.
  - apply (check_dependencies_gate (F:=Q) str
             [U "vector_store"; U "parser_manager"]
             (fun self => vector_store_model self) manager0).
    reflexivity.
  - apply (check_dependencies_gate (F:=Q) str
             [U "vector_store"; U "web_search_manager"]
             (fun self => vector_store_model self) manager0).
    reflexivity.
Defined.

(** X21 at seventy chunks and a store that refuses the second batch. *)
Lemma upsert_calls_witness :
  exists r h' rest,
    _upsert content0 store_refuses_second (seq 0 70) 7 [] = (r, h')
    /\ seq 0 70 = upserted h' ++ rest
    /\ Forall (fun c => match c with
                        | UpsertCall c' b _ => c' = 7%Z /\ (1 <= length b <= 32)%nat
                        | EmbedCall t => (1 <= length t <= 32)%nat
                        end) h'.
Proof.
  destruct (_upsert content0 store_refuses_second (seq 0 70) 7 []) as [r h'] eqn:Hrun.
  destruct (upsert_calls content0 store_refuses_second (seq 0 70) 7 [] r h' Hrun)
    as (calls & rest & Hh & Hc & _ & _ & Hok).
  cbn [app] in Hh. subst h'.
  exists r, calls, rest. split; [reflexivity|]. split; [exact Hc|exact Hok].
Defined.

(** X22 at seventy chunks: three batches, six calls. *)
Lemma upsert_success_witness :
  exists calls,
    _upsert content0 store_ok (seq 0 70) 7 [] = (inr tt, calls)
    /\ upserted calls = seq 0 70
    /\ length calls = 6%nat.
Proof.
  destruct (upsert_success content0 store_ok (seq 0 70) 7 [])
    as (calls & Hrun & Hu & Hlen).
  - intros h' t. eexists. reflexivity.
  - intros h' c b e. reflexivity.
  - exists calls. split; [exact Hrun|]. split; [exact Hu|exact Hlen].
Defined.

(** X23 at a router without a client, at a client whose table lacks the
    endpoint, and at two transports that agree on the embeddings
    request. *)
Lemma create_embeddings_request_witness :
  _create_embeddings env get_client_none (fun r => r) manager0 net_embeddings
    [U "hello"; U "world"] world0
    = (inl (HTTPException 404 (JStr (U "Model not found."))), world0)
  /\ _create_embeddings env get_client_rerank (fun r => r) manager0 net_embeddings
       [U "hello"; U "world"] world0
     = (inl (PyError (U "KeyError")), world0)
  /\ _create_embeddings env get_client0 (fun r => r) manager0
       (net_of (inr response_embeddings)) [U "hello"; U "world"] world0
     = _create_embeddings env get_client0 (fun r => r) manager0 net_embeddings
         [U "hello"; U "world"] world0.
Proof.
  destruct (create_embeddings_request env get_client_none (fun r => r) manager0
              net_embeddings [U "hello"; U "world"] world0) as (H1 & _).
  destruct (create_embeddings_request env get_client_rerank (fun r => r) manager0
              net_embeddings [U "hello"; U "world"] world0) as (_ & H2 & _).
  destruct (create_embeddings_request env get_client0 (fun r => r) manager0
              net_embeddings [U "hello"; U "world"] world0) as (_ & _ & H3).
  split; [apply H1; reflexivity|].
  split; [apply (H2 rerank_client); reflexivity|].
  apply (H3 embeddings_client (Some (U "v1/embeddings"))); reflexivity.
Defined.

(** X24 at three collections of which the second does not exist. *)
Lemma search_chunks_missing_collection_witness :
  exists run,
    search_chunks is_multiagent0 default_method0 str_of_Z search_oracle0 manager0
      [1; 13; 2]%Z 7 (U "hello") (U "semantic") 5 20 0 false 5 = inr run
    /\ run []
       = (inl (CollectionNotFoundException (Some (U "Collection 13 not found."))),
          [1; 13; 2]%Z,
          [SelectCollection 1 7; SelectCollection 13 7]).
Proof.
  destruct (search_chunks_missing_collection is_multiagent0 default_method0
              str_of_Z search_oracle0 manager0 tt [1; 13; 2]%Z 7 (U "hello")
              (U "semantic") 5 20 0 5 eq_refl) as (run & Hrun & _ & Hmiss).
  exists run. split; [exact Hrun|].
  apply (Hmiss [1%Z] 13%Z [2%Z] []).
  - reflexivity.
  - intros c' h' [<-|[]]. reflexivity.
  - intros h'. reflexivity.
Defined.

(** X25 at a multi-agent search for 5 results: the store is asked for 20
    with its default method, and the agents answer. *)
Lemma search_chunks_method_witness :
  exists run,
    search_chunks is_multiagent0 default_method0 str_of_Z search_oracle0
      manager_full [1; 2]%Z 7 (U "hello") (U "multiagent") 5 20 0 false 5
      = inr run
    /\ run []
       = (inr [2; 1]%Z, [1; 2]%Z,
          [ SelectCollection 1 7; SelectCollection 2 7;
            CreateEmbeddings [U "hello"];
            VectorSearch (U "semantic") [1; 2]%Z (U "hello") (JStr (U "hello"))
              20 20 0;
            AgentSearch [1; 2]%Z (U "hello") ]).
Proof.
  destruct (search_chunks_method is_multiagent0 default_method0 str_of_Z
              search_oracle0 manager_full tt [1; 2]%Z 7 (U "hello")
              (U "multiagent") 5 20 0 5 [] (JStr (U "hello")) [])
    as (run & Hrun & _ & Hmulti).
  - reflexivity.
  - intros H. discriminate H.
  - intros c h' [<-|[<-|[]]]; reflexivity.
  - reflexivity.
  - exists run. split; [exact Hrun|].
    destruct (Hmulti eq_refl) as (_ & Hs).
    destruct (Hs [1; 2]%Z eq_refl) as (_ & Hagent).
    rewrite Hagent; [reflexivity|].
    intros H. discriminate H.
Defined.

(** X26 at a manager without web search, and at a search with a web
    collection. *)
Lemma search_chunks_web_collection_witness :
  (exists run,
     search_chunks is_multiagent0 default_method0 str_of_Z search_oracle0 manager0
       [1]%Z 7 (U "hello") (U "semantic") 5 20 0 true 5 = inr run
     /\ run []
        = (inl (Raised
                  (HTTPException 400
                     (JStr (U "Feature not available: web search is not initialized.")))),
           [1]%Z, []))
  /\ exists run r h',
       search_chunks is_multiagent0 default_method0 str_of_Z search_oracle0
         manager_full [1]%Z 7 (U "hello") (U "semantic") 5 20 0 true 5 = inr run
       /\ run [] = (r, [1; 99]%Z, h')
       /\ exists mid tail,
            h' = [CreateWebCollection 7 (U "hello") 5] ++ mid ++ tail
            /\ (tail = [] \/ tail = [DeleteCollection 7 99]).
Proof.
  split.
  - destruct (search_chunks_web_collection is_multiagent0 default_method0
                str_of_Z search_oracle0 manager0 tt [1]%Z 7 (U "hello")
                (U "semantic") 5 20 0 5 eq_refl) as (run & Hrun & Hnone & _).
    exists run. split; [exact Hrun|]. apply Hnone. reflexivity.
  - destruct (search_chunks_web_collection is_multiagent0 default_method0
                str_of_Z search_oracle0 manager_full tt [1]%Z 7 (U "hello")
                (U "semantic") 5 20 0 5 eq_refl) as (run & Hrun & _ & Hweb).
    destruct (run []) as [[r ids'] h'] eqn:Hr.
    destruct (Hweb 99%Z [] r ids' h') as (Hids & mid & tail & Hh & _ & Ht & _).
    + intros H. discriminate H.
    + reflexivity.
    + intros H. discriminate H.
    + exact Hr.
    + exists run, r, h'. split; [exact Hrun|]. split; [rewrite Hr, Hids; reflexivity|].
      exists mid, tail. split; [exact Hh|exact Ht].
Defined.

(** The names of [routers0] are free. *)
Lemma routers0_names_free :
  names_free [U "models"; U "aliases"; U "__call__"; U "list"] routers0.
Proof.
  intros r n [<-|[<-|[<-|[]]]] Hn; try discriminate Hn;
    injection Hn as <-; intros [H|[H|[H|[H|[]]]]]; discriminate H.
Defined.

(** X27 at three routers: an alias of the last router wins, also over
    the name of the first; the alias of the router without a name is
    unknown. *)
Lemma registry_lookup_witness :
  exists self,
    ModelRegistry_init (F:=Q) routers0 = inr self
    /\ ModelRegistry_call (F:=Q) self (U "default") = inr (ARouter router_large)
    /\ ModelRegistry_call (F:=Q) self (U "small") = inr (ARouter router_large)
    /\ ModelRegistry_call (F:=Q) self (U "large") = inr (ARouter router_large)
    /\ ModelRegistry_call (F:=Q) self (U "ghost") = inl ModelNotFoundException.
Proof.
  destruct (registry_lookup (F:=Q) routers0) as (self & Hinit & Hcall).
  - intros r n Hin Hn H. apply (routers0_names_free r n Hin Hn).
    destruct H as [<-|[<-|[]]]; cbn; auto.
  - exists self. split; [exact Hinit|].
    rewrite !Hcall. repeat split.
Defined.

(** X28 at the same routers, both registered names resolving to the last
    router: with a schema constructor that accepts it, and with one that
    refuses it; and at a router named "list". *)
Lemma registry_list_all_witness :
  (exists self,
     ModelRegistry_init (F:=Q) routers0 = inr self
     /\ ModelRegistry_list schema_triple self (Some [])
        = ModelRegistry_list schema_triple self None
     /\ exists data,
          ModelRegistry_list schema_triple self None = inr data
          /\ length data = 2%nat)
  /\ (exists self,
        ModelRegistry_init (F:=Q) routers0 = inr self
        /\ ModelRegistry_list schema_one_alias self None
           = inl (RegistryRaised (PyError (U "ValidationError"))))
  /\ (exists self,
        ModelRegistry_init (F:=Q) [router_small; router_list] = inr self
        /\ ModelRegistry_list schema_triple self None
           = inl (ShadowedAttribute (U "list"))).
Proof.
  split; [|split].
  - destruct (proj1 (registry_list_all schema_triple) routers0 routers0_names_free)
      as (self & rs & Hinit & Hrs & Heq & Hres).
    exists self. split; [exact Hinit|]. split; [exact Heq|].
    vm_compute in Hinit. injection Hinit as <-.
    eexists. split; [vm_compute; reflexivity|reflexivity].
  - destruct (proj1 (registry_list_all schema_one_alias) routers0
                routers0_names_free)
      as (self & rs & Hinit & Hrs & Heq & Hres).
    exists self. split; [exact Hinit|].
    vm_compute in Hinit. injection Hinit as <-.
    vm_compute. reflexivity.
  - destruct (proj2 (registry_list_all schema_triple) [router_small; router_list]
                router_list) as (self & Hinit & _ & Hlist).
    + intros r n [<-|[<-|[]]] Hn; injection Hn as <-;
        intros [H|[H|[]]]; discriminate H.
    + reflexivity.
    + exists self. split; [exact Hinit|apply Hlist].
Defined.
